(** * SalonTime backend: scheduling, reservation lifecycle and rating summary

    A shallow embedding of the booking controller (slot walk, conflict
    queries, creation, reschedule, status update, owner cancel), of the
    service update and of the review controller (rating recompute),
    followed by the properties of the scheduling specification, each
    settled against the embedding.

    Conventions.
    - A JavaScript number that holds an integer is a [Z]; [NaN] and
      [undefined] are [None] where the source can produce them.
    - Strings are [string]; a request field that is absent or empty is the
      empty string (both are falsy in the source).
    - A table is the list of its rows in insertion order and a query is a
      [filter] over it; the database answers every query (store failures
      are outside the model).
    - A [time] column, and the ["HH:MM"] start time of a request, is the
      number of minutes since midnight; a [date] is its [YYYY-MM-DD] text.
      The handlers are embedded on such requests: a start from 0 to 1439
      and a date for which [canonicalDate] holds. What the source does
      with other texts (an invalid [Date], a date the database refuses or
      reads in another form) is not embedded; the properties that depend
      on it have [canonicalDate] and the bounds of the start among their
      hypotheses.
    - The rating of a review request is an integer number; a rating sent
      as text is not embedded.
    - E-mails, the payment row and the call into the waitlist controller
      are recorded as events, in the order the handler issues them.
    - Columns that the handlers only store and hand back (comments,
      client notes, prices, timestamps) are left out of the rows.
    - A handler is a function from the tables to a result and the tables
      after it; a thrown [AppError] keeps what was written before it. *)

From Stdlib Require Import ZArith List String Ascii Bool Lia.
From Stdlib Require Import DecimalString SpecFloat.
Import ListNotations.

Local Open Scope string_scope.
Local Open Scope list_scope.
Local Open Scope Z_scope.

(* ================================================================== *)
(** * Strings and numbers as the controller uses them *)
(* ================================================================== *)

Module Js.

(** [s.split(sep)] for a one-character separator. *)
Fixpoint split_from (sep : ascii) (acc s : string) : list string :=
  match s with
  | EmptyString => [acc]
  | String c rest =>
      if Ascii.eqb c sep then acc :: split_from sep EmptyString rest
      else split_from sep (acc ++ String c EmptyString)%string rest
  end.

Definition split (sep : ascii) (s : string) : list string :=
  split_from sep EmptyString s.

Definition digit_of (c : ascii) : option Z :=
  let n := Z.of_nat (nat_of_ascii c) in
  if (48 <=? n) && (n <=? 57) then Some (n - 48) else None.

Fixpoint digits_from (acc : Z) (s : string) : option Z :=
  match s with
  | EmptyString => Some acc
  | String c rest =>
      match digit_of c with
      | Some d => digits_from (10 * acc + d) rest
      | None => None
      end
  end.

(** [Number(s)] on the strings the controller splits out of a time or a
    date: a run of decimal digits is its value and the empty string is 0.
    Any other string is [None] (NaN); numerals with a sign, a fraction, an
    exponent, a radix prefix or surrounding blanks are not modelled. *)
Definition Number (s : string) : option Z := digits_from 0 s.

(** [arr.map(Number)] followed by positional destructuring: a missing
    position is [undefined], which [isNaN] treats like NaN. *)
Definition nth_Number (i : nat) (parts : list string) : option Z :=
  match nth_error parts i with
  | Some p => Number p
  | None => None
  end.

(** [n.toString()] for an integer. *)
Definition toString (n : Z) : string := NilZero.string_of_int (Z.to_int n).

(** [s.padStart(2, '0')]. *)
Definition padStart2 (s : string) : string :=
  match s with
  | EmptyString => "00"
  | String c EmptyString => String "0"%char s
  | _ => s
  end.

(** Comparison operators on numbers that may be NaN: every comparison
    with NaN is false. *)
Definition lt (a b : option Z) : bool :=
  match a, b with Some x, Some y => x <? y | _, _ => false end.

Definition gt (a b : option Z) : bool := lt b a.

(** [Math.ceil(a / b) * b] for a positive integer [b]. *)
Definition ceil_to (a b : Z) : Z := - ((- a) / b) * b.

End Js.

(* ================================================================== *)
(** * Time arithmetic of the booking controller *)
(* ================================================================== *)

(** [_minutesToTimeString]: [Math.floor(minutes / 60)] and [minutes % 60]
    (the remainder takes the sign of the dividend), each padded to two
    characters. *)
Definition _minutesToTimeString (minutes : Z) : string :=
  let hours := minutes / 60 in
  let mins := Z.rem minutes 60 in
  (Js.padStart2 (Js.toString hours) ++ ":" ++ Js.padStart2 (Js.toString mins))%string.

(** [_timeStringToMinutes]: the first two colon-separated fields. *)
Definition _timeStringToMinutes (timeStr : string) : option Z :=
  let parts := Js.split ":"%char timeStr in
  match Js.nth_Number 0 parts, Js.nth_Number 1 parts with
  | Some hours, Some minutes => Some (hours * 60 + minutes)
  | _, _ => None
  end.

(** A [{start_time, end_time}] object: an emitted slot, or the two
    columns selected from a booking row. *)
Record TimeRange := mkRange { start_time : string; end_time : string }.

(** The process clock read by [new Date()]: local calendar date as
    [YYYY-MM-DD], local hours and minutes. *)
Record Clock := mkClock { today : string; localHours : Z; localMinutes : Z }.

Definition slotInterval : Z := 15.

(** The callback of [existingBookings.some(...)]. *)
Definition slotConflicts (currentTime serviceDuration : Z) (booking : TimeRange) : bool :=
  let bookingStart := _timeStringToMinutes (start_time booking) in
  let bookingEnd := _timeStringToMinutes (end_time booking) in
  Js.lt (Some currentTime) bookingEnd
  && Js.gt (Some (currentTime + serviceDuration)) bookingStart.

(** The [while (currentTime + serviceDuration <= endTime)] loop. The
    counter rises by [slotInterval] each turn, so the guard fails after
    finitely many turns; [fuel] bounds the number of turns. *)
Fixpoint walkSlots (fuel : nat) (currentTime serviceDuration endTime : Z)
    (existingBookings : list TimeRange) : list TimeRange :=
  match fuel with
  | O => []
  | S fuel' =>
      if currentTime + serviceDuration <=? endTime then
        let timeStr := _minutesToTimeString currentTime in
        let endTimeStr := _minutesToTimeString (currentTime + serviceDuration) in
        let hasConflict := existsb (slotConflicts currentTime serviceDuration) existingBookings in
        let rest := walkSlots fuel' (currentTime + slotInterval) serviceDuration endTime existingBookings in
        if hasConflict then rest else mkRange timeStr endTimeStr :: rest
      else []
  end.

(** Number of turns after which the guard of the loop is false. *)
Definition walkTurns (currentTime serviceDuration endTime : Z) : nat :=
  Z.to_nat ((endTime - serviceDuration - currentTime) / slotInterval + 1).

(** Normalisation of the [appointmentDate] argument when it is a string:
    [appointmentDate.split('T')[0].split(' ')[0]]. *)
Definition normalizeDate (appointmentDate : string) : string :=
  let beforeT := hd EmptyString (Js.split "T"%char appointmentDate) in
  hd EmptyString (Js.split " "%char beforeT).

(** [_calculateAvailableSlots(openTime, closeTime, serviceDuration,
    existingBookings, appointmentDate = null)]. *)
Definition _calculateAvailableSlots (now : Clock) (openTime closeTime : string)
    (serviceDuration : Z) (existingBookings : list TimeRange)
    (appointmentDate : option string) : list TimeRange :=
  let openParts := Js.split ":"%char openTime in
  let closeParts := Js.split ":"%char closeTime in
  match Js.nth_Number 0 openParts, Js.nth_Number 1 openParts,
        Js.nth_Number 0 closeParts, Js.nth_Number 1 closeParts with
  | Some openHour, Some openMinute, Some closeHour, Some closeMinute =>
      let currentTime := openHour * 60 + openMinute in
      let endTime := closeHour * 60 + closeMinute in
      let walk start :=
        walkSlots (walkTurns start serviceDuration endTime)
                  start serviceDuration endTime existingBookings in
      match appointmentDate with
      | Some d =>
          if String.eqb d EmptyString then walk currentTime
          else if String.eqb (normalizeDate d) (today now) then
            let currentMinutes := localHours now * 60 + localMinutes now in
            let minBookingTime := currentMinutes - 5 in
            let roundedMinBookingTime := Js.ceil_to minBookingTime slotInterval in
            let currentTime' := Z.max currentTime roundedMinBookingTime in
            if currentTime' >=? endTime then [] else walk currentTime'
          else walk currentTime
      | None => walk currentTime
      end
  | _, _, _, _ => []
  end.

(* ================================================================== *)
(** * Calendar: the weekday of a [YYYY-MM-DD] date *)
(* ================================================================== *)

Module Calendar.

(** Day number (days since 1970-01-01) of a proleptic Gregorian date;
    the day of the month enters linearly, so an overflowing day rolls
    into the following months as in [MakeDay]. *)
Definition daysFromCivil (y m d : Z) : Z :=
  let y' := if m <=? 2 then y - 1 else y in
  let era := y' / 400 in
  let yoe := y' - era * 400 in
  let mp := if m >? 2 then m - 3 else m + 9 in
  let doy := (153 * mp + 2) / 5 + d - 1 in
  let doe := yoe * 365 + yoe / 4 - yoe / 100 + doy in
  era * 146097 + doe - 719468.

(** [new Date(year, monthIndex, day)]: a year from 0 to 99 means
    1900 + year; a month index outside 0..11 carries into the year. *)
Definition makeDay (year monthIndex day : Z) : Z :=
  let year' := if (0 <=? year) && (year <=? 99) then 1900 + year else year in
  let ym := year' + monthIndex / 12 in
  let mn := monthIndex mod 12 in
  daysFromCivil ym (mn + 1) 1 + day - 1.

(** [getDay()]: 0 is Sunday; 1970-01-01 was a Thursday. *)
Definition getDay (dayNumber : Z) : Z := (dayNumber + 4) mod 7.

(** [date.split('-').map(Number)] then [new Date(year, month - 1, day)];
    [None] is the invalid date. *)
Definition dayNumberOf (date : string) : option Z :=
  let parts := Js.split "-"%char date in
  match Js.nth_Number 0 parts, Js.nth_Number 1 parts, Js.nth_Number 2 parts with
  | Some year, Some month, Some day => Some (makeDay year (month - 1) day)
  | _, _, _ => None
  end.

Definition days : list string :=
  ["sunday"; "monday"; "tuesday"; "wednesday"; "thursday"; "friday"; "saturday"].

(** [days[dateObj.getDay()]]; [None] when the index is NaN. *)
Definition dayOfWeek (date : string) : option string :=
  match dayNumberOf date with
  | Some n => nth_error days (Z.to_nat (getDay n))
  | None => None
  end.

End Calendar.

(* ================================================================== *)
(** * The tables *)
(* ================================================================== *)

(** A foreign key or request field that is null, undefined or empty. *)
Definition absent (s : string) : bool := String.eqb s EmptyString.

Module Booking.
Record t := mk {
  id : string;
  client_id : string;
  salon_id : string;
  service_id : string;
  staff_id : string;
  appointment_date : string;
  start_time : Z;
  end_time : Z;
  status : string;
  salon_notes : string;
  cancellation_reason : string
}.
End Booking.

Module Service.
Record t := mk { id : string; salon_id : string; name : string; duration : Z }.
End Service.

(** One value of the [business_hours] JSON object of a salon: either the
    text form ["09:00-18:00"] or an object with the fields the controller
    reads; an absent field is the empty string, and [closed] holds when
    the field is [true] or ['true']. *)
Inductive HoursEntry :=
| HoursText (text : string)
| HoursObject (open opening close closing : string) (closed : bool).

Module Salon.
Record t := mk {
  id : string;
  owner_id : string;
  business_hours : option (list (string * HoursEntry));
  rating_average : Z;   (* a decimal with two places, in hundredths *)
  rating_count : Z
}.
End Salon.

Module Staff.
Record t := mk { id : string; salon_id : string; user_id : string }.
End Staff.

Module FamilyMember.
Record t := mk { id : string; parent_id : string }.
End FamilyMember.

Module Review.
Record t := mk {
  id : string;
  client_id : string;
  salon_id : string;
  booking_id : string;
  rating : Z;
  is_visible : bool
}.
End Review.

(** What a handler leaves outside the tables: the e-mails it asks the
    mail service for, the payment row, the call into the waitlist
    controller. *)
Inductive Event :=
| PaymentRecorded (booking_id : string)
| BookingConfirmationEmail (booking_id : string)
| RescheduleNoticeEmail (booking_id previous_date : string) (previous_start : Z)
| CancellationNoticeEmail (booking_id : string)
| WaitlistDispatch (salon_id service_id appointment_date : string) (start_time : Z)
| ReviewNotificationEmail (review_id : string).

Record World := mkWorld {
  bookings : list Booking.t;
  services : list Service.t;
  salons : list Salon.t;
  staff : list Staff.t;
  family_members : list FamilyMember.t;
  reviews : list Review.t;
  events : list Event;          (* oldest first *)
  generated : nat               (* rows inserted so far *)
}.

Definition set_bookings (w : World) (bs : list Booking.t) : World :=
  mkWorld bs (services w) (salons w) (staff w) (family_members w) (reviews w)
          (events w) (generated w).

Definition set_services (w : World) (ss : list Service.t) : World :=
  mkWorld (bookings w) ss (salons w) (staff w) (family_members w) (reviews w)
          (events w) (generated w).

Definition set_salons (w : World) (ss : list Salon.t) : World :=
  mkWorld (bookings w) (services w) ss (staff w) (family_members w) (reviews w)
          (events w) (generated w).

Definition set_reviews (w : World) (rs : list Review.t) : World :=
  mkWorld (bookings w) (services w) (salons w) (staff w) (family_members w) rs
          (events w) (generated w).

Definition add_event (w : World) (e : Event) : World :=
  mkWorld (bookings w) (services w) (salons w) (staff w) (family_members w) (reviews w)
          (events w ++ [e]) (generated w).

Definition bump_generated (w : World) : World :=
  mkWorld (bookings w) (services w) (salons w) (staff w) (family_members w) (reviews w)
          (events w) (S (generated w)).

(** [.single()]: the row when the query matches exactly one, an error
    (no data) otherwise. *)
Definition single {A : Type} (rows : list A) : option A :=
  match rows with
  | [r] => Some r
  | _ => None
  end.

(* ================================================================== *)
(** * Handlers: state and thrown errors *)
(* ================================================================== *)

Record AppError := mkAppError { statusCode : Z; errorCode : string }.

Inductive Result (A : Type) :=
| Ok (a : A)
| Throw (e : AppError).
Arguments Ok {A} a.
Arguments Throw {A} e.

(** A handler runs against the tables; what it wrote before throwing
    stays written. *)
Definition Handler (A : Type) : Type := World -> Result A * World.

Definition ret {A} (a : A) : Handler A := fun w => (Ok a, w).

Definition bind {A B} (m : Handler A) (k : A -> Handler B) : Handler B :=
  fun w =>
    match m w with
    | (Ok a, w') => k a w'
    | (Throw e, w') => (Throw e, w')
    end.

Definition throw {A} (status : Z) (code : string) : Handler A :=
  fun w => (Throw (mkAppError status code), w).

Definition read {A} (f : World -> A) : Handler A := fun w => (Ok (f w), w).

Definition write (f : World -> World) : Handler unit := fun w => (Ok tt, f w).

Definition emit (e : Event) : Handler unit := write (fun w => add_event w e).

(** [if (cond) throw new AppError(...)]. *)
Definition throwIf (cond : bool) (status : Z) (code : string) : Handler unit :=
  if cond then throw status code else ret tt.

(** A value that must be present, else the given error. *)
Definition orThrow {A} (o : option A) (status : Z) (code : string) : Handler A :=
  match o with
  | Some a => ret a
  | None => throw status code
  end.

Declare Scope handler_scope.
Delimit Scope handler_scope with handler.
Notation "x <- m ;; k" := (bind m (fun x => k))
  (at level 61, m at next level, right associativity) : handler_scope.
Notation "m ;;; k" := (bind m (fun _ => k))
  (at level 61, right associativity) : handler_scope.

(* ================================================================== *)
(** * Booking controller *)
(* ================================================================== *)

(** How the awaited [processWaitlistForCancelledBooking] call ends. *)
Inductive Settled :=
| Resolves
| RejectsWith (e : AppError)   (* an [AppError] *)
| Rejects.                     (* any other exception *)

(** Minutes in a day; [toTimeString()] of a [Date] yields the time of day. *)
Definition dayMinutes : Z := 1440.

(** [new Date(start).getTime() + duration * 60000], read back as a time
    of day (no daylight-saving change inside the interval). *)
Definition endTimeOf (start_time duration : Z) : Z :=
  (start_time + duration) mod dayMinutes.

(** A [time] column as the database returns it: [HH:MM:SS]. *)
Definition timeColumnText (t : Z) : string :=
  (_minutesToTimeString t ++ ":00")%string.

Definition validStatuses : list string :=
  ["pending"; "confirmed"; "completed"; "cancelled"; "no_show"].

Definition includes (xs : list string) (x : string) : bool :=
  existsb (String.eqb x) xs.

(** [a || b] on strings: the first when it is truthy. *)
Definition orElse (a b : string) : string := if absent a then b else a.

Module CreateBookingBody.
Record t := mk {
  salon_id : string;
  service_id : string;
  staff_id : string;
  appointment_date : string;
  start_time : option Z;      (* minutes since midnight of ["HH:MM"] *)
  family_member_id : string;
  payment_intent_id : string
}.
End CreateBookingBody.

Section BookingController.

(** Parts of the deployment that are not in the repository. *)

(** Row security of the [bookings] table for a client created by
    [getAuthenticatedClient]: the rows a signed-in user may select. The
    admin client and the base client read every row. *)
Variable rowVisible : string -> Booking.t -> bool.

(** The identifier the database gives the n-th inserted row. *)
Variable gen_random_uuid : nat -> string.

(** The waitlist controller, seen from its caller. *)
Variable processWaitlistForCancelledBooking : string -> string -> string -> Z -> Settled.

Local Open Scope handler_scope.

Definition bookingById (bookingId : string) (w : World) : option Booking.t :=
  single (filter (fun b => String.eqb (Booking.id b) bookingId) (bookings w)).

Definition serviceById (serviceId : string) (w : World) : option Service.t :=
  single (filter (fun s => String.eqb (Service.id s) serviceId) (services w)).

Definition salonById (salonId : string) (w : World) : option Salon.t :=
  single (filter (fun s => String.eqb (Salon.id s) salonId) (salons w)).

(** [.update(f).eq('id', bookingId)]. *)
Definition updateBooking (bookingId : string) (f : Booking.t -> Booking.t) (w : World) : World :=
  set_bookings w
    (map (fun b => if String.eqb (Booking.id b) bookingId then f b else b) (bookings w)).

(** [.insert([row])] with the generated primary key; a key already in
    the table is refused. *)
Definition insertBooking (row : string -> Booking.t) : Handler (option Booking.t) :=
  fun w =>
    let key := gen_random_uuid (generated w) in
    if existsb (fun b => String.eqb (Booking.id b) key) (bookings w)
    then (Ok None, w)
    else (Ok (Some (row key)), bump_generated (set_bookings w (bookings w ++ [row key]))).

(** ** createBooking *)

(** The conflict query of [createBooking]:
    [.eq('salon_id').eq('appointment_date').neq('status','cancelled')
     .lt('start_time', endTimeStr).gt('end_time', start_time)]. *)
Definition creationConflicts (user salon_id appointment_date : string)
    (start_time endTimeStr : Z) (w : World) : list Booking.t :=
  filter (fun b =>
            rowVisible user b
            && String.eqb (Booking.salon_id b) salon_id
            && String.eqb (Booking.appointment_date b) appointment_date
            && negb (String.eqb (Booking.status b) "cancelled")
            && (Booking.start_time b <? endTimeStr)
            && (Booking.end_time b >? start_time))
         (bookings w).

(** The handler, on a request whose start is a time of day and whose
    date the database reads as written (see the conventions); the
    [500 BOOKING_CREATION_FAILED] that other requests end in, at the
    [Date] arithmetic or at the insert, is not embedded. *)
Definition createBooking (user : string) (body : CreateBookingBody.t) : Handler Booking.t :=
  let salon_id := CreateBookingBody.salon_id body in
  let service_id := CreateBookingBody.service_id body in
  let appointment_date := CreateBookingBody.appointment_date body in
  match CreateBookingBody.start_time body with
  | None => throw 400 "MISSING_BOOKING_INFO"
  | Some start_time =>
      throwIf (absent salon_id || absent service_id || absent appointment_date)
              400 "MISSING_BOOKING_INFO" ;;;
      found <- read (serviceById service_id) ;;
      service <- orThrow found 404 "SERVICE_NOT_FOUND" ;;
      throwIf (negb (String.eqb (Service.salon_id service) salon_id))
              404 "SERVICE_NOT_FOUND" ;;;
      foundSalon <- read (salonById salon_id) ;;
      _ <- orThrow foundSalon 404 "SALON_NOT_FOUND" ;;
      let endTimeStr := endTimeOf start_time (Service.duration service) in
      conflicts <- read (creationConflicts user salon_id appointment_date start_time endTimeStr) ;;
      throwIf (0 <? Z.of_nat (List.length conflicts)) 409 "TIME_SLOT_CONFLICT" ;;;
      relatives <- read (fun w =>
        single (filter (fun m =>
                          String.eqb (FamilyMember.id m) (CreateBookingBody.family_member_id body)
                          && String.eqb (FamilyMember.parent_id m) user)
                       (family_members w))) ;;
      throwIf (negb (absent (CreateBookingBody.family_member_id body))
               && match relatives with Some _ => false | None => true end)
              404 "FAMILY_MEMBER_NOT_FOUND" ;;;
      inserted <- insertBooking (fun key =>
        Booking.mk key user salon_id service_id (CreateBookingBody.staff_id body)
                   appointment_date start_time endTimeStr
                   "confirmed" EmptyString EmptyString) ;;
      booking <- orThrow inserted 500 "BOOKING_CREATION_FAILED" ;;
      emit (PaymentRecorded (Booking.id booking)) ;;;
      emit (BookingConfirmationEmail (Booking.id booking)) ;;;
      ret booking
  end.

(** ** rescheduleBooking *)

(** The conflict query of [rescheduleBooking]: after the equality
    filters, two [.or(...)] filters, which the query builder sends as two
    [or=(...)] parameters; the database requires both. *)
Definition rescheduleConflicts (booking : Booking.t) (bookingId appointment_date : string)
    (start_time endTimeStr : Z) (w : World) : list Booking.t :=
  filter (fun b =>
            String.eqb (Booking.salon_id b) (Booking.salon_id booking)
            && String.eqb (Booking.appointment_date b) appointment_date
            && negb (String.eqb (Booking.status b) "cancelled")
            && negb (String.eqb (Booking.id b) bookingId)
            && ((Booking.start_time b <=? start_time) || (Booking.end_time b >=? endTimeStr))
            && ((Booking.start_time b <? endTimeStr) || (Booking.end_time b >? start_time)))
         (bookings w).

(** The handler, on the same requests as [createBooking]; the
    [500 RESCHEDULE_FAILED] of a start or a date that cannot be read is
    not embedded. *)
Definition rescheduleBooking (user bookingId appointment_date : string)
    (start_time : option Z) : Handler Booking.t :=
  match start_time with
  | None => throw 400 "MISSING_FIELDS"
  | Some start_time =>
      throwIf (absent appointment_date) 400 "MISSING_FIELDS" ;;;
      found <- read (bookingById bookingId) ;;
      booking <- orThrow found 404 "BOOKING_NOT_FOUND" ;;
      throwIf (negb (String.eqb (Booking.client_id booking) user))
              403 "INSUFFICIENT_PERMISSIONS" ;;;
      throwIf (negb (includes ["pending"; "confirmed"] (Booking.status booking)))
              400 "INVALID_STATUS" ;;;
      joined <- read (serviceById (Booking.service_id booking)) ;;
      service <- orThrow joined 500 "RESCHEDULE_FAILED" ;;
      let endTimeStr := endTimeOf start_time (Service.duration service) in
      conflicts <- read (rescheduleConflicts booking bookingId appointment_date start_time endTimeStr) ;;
      throwIf (0 <? Z.of_nat (List.length conflicts)) 409 "TIME_SLOT_CONFLICT" ;;;
      write (updateBooking bookingId (fun b =>
        Booking.mk (Booking.id b) (Booking.client_id b) (Booking.salon_id b)
                   (Booking.service_id b) (Booking.staff_id b)
                   appointment_date start_time endTimeStr
                   "pending" (Booking.salon_notes b) (Booking.cancellation_reason b))) ;;;
      reread <- read (bookingById bookingId) ;;
      updatedBooking <- orThrow reread 500 "RESCHEDULE_FAILED" ;;
      emit (RescheduleNoticeEmail bookingId (Booking.appointment_date booking)
                                  (Booking.start_time booking)) ;;;
      ret updatedBooking
  end.

(** ** updateBookingStatus *)

Definition isStaffOf (user salon_id : string) (w : World) : bool :=
  match single (filter (fun m => String.eqb (Staff.salon_id m) salon_id
                                 && String.eqb (Staff.user_id m) user) (staff w)) with
  | Some _ => true
  | None => false
  end.

(** The call into the waitlist controller, awaited without a handler of
    its own: an [AppError] passes through, any other exception becomes
    the [fallback] error of the enclosing [catch]. *)
Definition awaitWaitlist (booking : Booking.t) (fallback : string) : Handler unit :=
  emit (WaitlistDispatch (Booking.salon_id booking) (Booking.service_id booking)
                         (Booking.appointment_date booking) (Booking.start_time booking)) ;;;
  match processWaitlistForCancelledBooking
          (Booking.salon_id booking) (Booking.service_id booking)
          (Booking.appointment_date booking) (Booking.start_time booking) with
  | Resolves => ret tt
  | RejectsWith e => fun w => (Throw e, w)
  | Rejects => throw 500 fallback
  end.

Definition updateBookingStatus (user bookingId status staff_notes cancellation_reason : string)
    : Handler Booking.t :=
  throwIf (negb (includes validStatuses status)) 400 "INVALID_STATUS" ;;;
  found <- read (bookingById bookingId) ;;
  booking <- orThrow found 404 "BOOKING_NOT_FOUND" ;;
  joinedSalon <- read (salonById (Booking.salon_id booking)) ;;
  salon <- orThrow joinedSalon 500 "BOOKING_UPDATE_FAILED" ;;
  let isOwner := String.eqb (Salon.owner_id salon) user in
  let isClient := String.eqb (Booking.client_id booking) user in
  isStaff <- read (fun w =>
    if negb isOwner && negb isClient
    then isStaffOf user (Booking.salon_id booking) w else false) ;;
  throwIf (negb isOwner && negb isClient && negb isStaff)
          403 "INSUFFICIENT_PERMISSIONS" ;;;
  throwIf (isClient && negb isOwner && negb isStaff
           && negb (String.eqb status "cancelled"))
          403 "CLIENT_CAN_ONLY_CANCEL" ;;;
  write (updateBooking bookingId (fun b =>
    Booking.mk (Booking.id b) (Booking.client_id b) (Booking.salon_id b)
               (Booking.service_id b) (Booking.staff_id b)
               (Booking.appointment_date b) (Booking.start_time b) (Booking.end_time b)
               status
               (if negb (absent staff_notes) && (isOwner || isStaff)
                then staff_notes else Booking.salon_notes b)
               (if String.eqb status "cancelled" && negb (absent cancellation_reason)
                then cancellation_reason else Booking.cancellation_reason b))) ;;;
  reread <- read (bookingById bookingId) ;;
  updatedBooking <- orThrow reread 500 "BOOKING_UPDATE_FAILED" ;;
  (if String.eqb status "cancelled" then
     joinedService <- read (serviceById (Booking.service_id booking)) ;;
     _ <- orThrow joinedService 500 "BOOKING_UPDATE_FAILED" ;;
     emit (CancellationNoticeEmail bookingId) ;;;
     awaitWaitlist booking "BOOKING_UPDATE_FAILED"
   else ret tt) ;;;
  ret updatedBooking.

(** ** cancelBookingAsSalonOwner *)

Definition cancelBookingAsSalonOwner (user bookingId cancellation_reason : string)
    : Handler Booking.t :=
  found <- read (bookingById bookingId) ;;
  booking <- orThrow found 404 "BOOKING_NOT_FOUND" ;;
  joinedSalon <- read (salonById (Booking.salon_id booking)) ;;
  salon <- orThrow joinedSalon 500 "BOOKING_CANCEL_FAILED" ;;
  throwIf (negb (String.eqb (Salon.owner_id salon) user))
          403 "INSUFFICIENT_PERMISSIONS" ;;;
  throwIf (String.eqb (Booking.status booking) "cancelled")
          400 "BOOKING_ALREADY_CANCELLED" ;;;
  write (updateBooking bookingId (fun b =>
    Booking.mk (Booking.id b) (Booking.client_id b) (Booking.salon_id b)
               (Booking.service_id b) (Booking.staff_id b)
               (Booking.appointment_date b) (Booking.start_time b) (Booking.end_time b)
               "cancelled" (Booking.salon_notes b)
               (orElse cancellation_reason "Cancelled by salon"))) ;;;
  reread <- read (bookingById bookingId) ;;
  updatedBooking <- orThrow reread 500 "BOOKING_CANCEL_FAILED" ;;
  (* try { sendCancellationNotice(... booking.services.name ...) } catch { log } *)
  joinedService <- read (serviceById (Booking.service_id booking)) ;;
  match joinedService with
  | Some _ => emit (CancellationNoticeEmail bookingId)
  | None => ret tt
  end ;;;
  (* try { processWaitlistForCancelledBooking(...) } catch { log } *)
  emit (WaitlistDispatch (Booking.salon_id booking) (Booking.service_id booking)
                         (Booking.appointment_date booking) (Booking.start_time booking)) ;;;
  ret updatedBooking.

(** ** getAvailableSlots *)

(** [salon.business_hours?.[dayOfWeek]]. *)
Definition hoursFor (salon : Salon.t) (dayOfWeek : option string) : option HoursEntry :=
  match Salon.business_hours salon, dayOfWeek with
  | Some table, Some day =>
      match find (fun kv => String.eqb (fst kv) day) table with
      | Some kv => Some (snd kv)
      | None => None
      end
  | _, _ => None
  end.

(** The existing bookings handed to the slot walk: the query with its
    optional [staff_id] filter, cut off at 1000 rows. *)
Definition bookedRanges (user salon_id date staff_id : string) (w : World) : list TimeRange :=
  let rows :=
    firstn 1000
      (filter (fun b =>
                 rowVisible user b
                 && String.eqb (Booking.salon_id b) salon_id
                 && String.eqb (Booking.appointment_date b) date
                 && negb (String.eqb (Booking.status b) "cancelled")
                 && (absent staff_id || String.eqb (Booking.staff_id b) staff_id))
              (bookings w)) in
  map (fun b => mkRange (timeColumnText (Booking.start_time b))
                        (timeColumnText (Booking.end_time b))) rows.

(** The handler. The stored hours and the [date] parameter are text
    here; the catch-all [500 AVAILABLE_SLOTS_FETCH_FAILED] of the
    source, reached by a [TypeError] on values of another type, is not
    embedded. *)
Definition getAvailableSlots (now : Clock) (user salon_id service_id date staff_id : string)
    : Handler (list TimeRange) :=
  throwIf (absent salon_id || absent service_id || absent date)
          400 "MISSING_PARAMETERS" ;;;
  found <- read (serviceById service_id) ;;
  service <- orThrow found 404 "SERVICE_NOT_FOUND" ;;
  foundSalon <- read (salonById salon_id) ;;
  salon <- orThrow foundSalon 404 "SALON_NOT_FOUND" ;;
  existing <- read (bookedRanges user salon_id date staff_id) ;;
  match hoursFor salon (Calendar.dayOfWeek date) with
  | None => ret []
  | Some (HoursText text) =>
      if absent text then ret []
      else
        let parts := Js.split "-"%char text in
        let openTime := nth 0 parts EmptyString in
        let closeTime := nth 1 parts EmptyString in
        if absent openTime || absent closeTime then ret []
        else ret (_calculateAvailableSlots now openTime closeTime
                    (Service.duration service) existing (Some date))
  | Some (HoursObject open opening close closing closed) =>
      if closed then ret []
      else
        let openTime := orElse open opening in
        let closeTime := orElse close closing in
        if absent openTime || absent closeTime then ret []
        else ret (_calculateAvailableSlots now openTime closeTime
                    (Service.duration service) existing (Some date))
  end.

(** ** updateService (service controller) *)

Definition updateService (salonId serviceId : string) (name : option string)
    (duration : option Z) : Handler Service.t :=
  throwIf (absent salonId) 404 "SALON_NOT_FOUND" ;;;
  let matches s := String.eqb (Service.id s) serviceId
                   && String.eqb (Service.salon_id s) salonId in
  let change s :=
    Service.mk (Service.id s) (Service.salon_id s)
               (match name with Some n => n | None => Service.name s end)
               (match duration with Some d => d | None => Service.duration s end) in
  target <- read (fun w => single (filter matches (services w))) ;;
  service <- orThrow target 404 "SERVICE_NOT_FOUND" ;;
  write (fun w => set_services w
                    (map (fun s => if matches s then change s else s) (services w))) ;;;
  ret (change service).

End BookingController.

(* ================================================================== *)
(** * Numbers of the rating summary *)
(* ================================================================== *)

Module Float64.

(** A positive finite binary64 value [mantissa * 2 ^ exponent]. *)
Definition t : Type := (Z * Z)%type.

(** [s / c] for integers [0 < s] and [0 < c] below [2 ^ 53], both exact
    as binary64 numbers: the quotient rounded to 53 significant bits, to
    nearest and to the even mantissa on a tie (IEEE 754 division, which
    the language prescribes for [/]). The exponent [e] is the one that
    puts the quotient between [2 ^ 52] and [2 ^ 53] units of [2 ^ e]. *)
Definition div (s c : Z) : t :=
  let a := Z.log2 s in
  let b := Z.log2 c in
  let e := a - b - 52 - (if s * 2 ^ b <? c * 2 ^ a then 1 else 0) in
  let N := s * 2 ^ Z.max 0 (- e) in
  let D := c * 2 ^ Z.max 0 e in
  let q := N / D in
  let r := N mod D in
  let m := if 2 * r <? D then q
           else if D <? 2 * r then q + 1
           else if Z.even q then q else q + 1 in
  (m, e).

(** [x.toFixed(2)] read as a number of hundredths: the integer [n] with
    [n / 100] nearest to the exact value of [x], the larger one when two
    are equally near. *)
Definition toFixed2 (x : t) : Z :=
  let (m, e) := x in
  if e <? 0 then (200 * m + 2 ^ (- e)) / 2 ^ (- e + 1)
  else 100 * m * 2 ^ e.

(** The same quotient by the Standard Library's specification of
    binary64 division, to compare [div] with. *)
Definition divBySpecFloat (s c : Z) : spec_float :=
  SFdiv 53 1024 (binary_normalize 53 1024 s 0 false) (binary_normalize 53 1024 c 0 false).

(** Both denote the same number. *)
Definition sameValue (x : t) (y : spec_float) : bool :=
  let (m, e) := x in
  match y with
  | S754_finite false m' e' =>
      let low := Z.min e e' in
      m * 2 ^ (e - low) =? Z.pos m' * 2 ^ (e' - low)
  | _ => false
  end.

(** Average ratings [s / c] with [1 <= c <= counts] and [c <= s <= 5 c]. *)
Definition averagesUpTo (counts : nat) : list (Z * Z) :=
  flat_map (fun c => map (fun s => (Z.of_nat s, Z.of_nat c)) (seq c (4 * c + 1)))
           (seq 1 counts).

End Float64.

(** [parseFloat((sum / reviewCount).toFixed(2))] in hundredths, for a
    positive [reviewCount]; a negative sum rounds like its magnitude and
    a zero sum is zero. *)
Definition roundedAverage (sum reviewCount : Z) : Z :=
  match sum with
  | Z0 => 0
  | Zpos _ => Float64.toFixed2 (Float64.div sum reviewCount)
  | Zneg _ => - Float64.toFixed2 (Float64.div (- sum) reviewCount)
  end.

(* ================================================================== *)
(** * Review controller *)
(* ================================================================== *)

Module CreateReviewBody.
Record t := mk { salon_id : string; booking_id : string; rating : Z }.
End CreateReviewBody.

Section ReviewController.

Variable gen_random_uuid : nat -> string.

Local Open Scope handler_scope.

(** The [rating] column of the visible reviews of a salon. *)
Definition visibleRatings (salonId : string) (w : World) : list Z :=
  map Review.rating
      (filter (fun r => String.eqb (Review.salon_id r) salonId && Review.is_visible r)
              (reviews w)).

(** [reviews.reduce((acc, review) => acc + review.rating, 0)]. *)
Definition sumRatings (ratings : list Z) : Z := fold_left Z.add ratings 0.

(** The two values [_updateSalonRating] writes. *)
Definition ratingSummary (ratings : list Z) : Z * Z :=
  let reviewCount := Z.of_nat (List.length ratings) in
  if 0 <? reviewCount
  then (roundedAverage (sumRatings ratings) reviewCount, reviewCount)
  else (0, 0).

Definition _updateSalonRating (salonId : string) : Handler unit :=
  ratings <- read (visibleRatings salonId) ;;
  let (average, reviewCount) := ratingSummary ratings in
  write (fun w => set_salons w
    (map (fun s => if String.eqb (Salon.id s) salonId
                   then Salon.mk (Salon.id s) (Salon.owner_id s) (Salon.business_hours s)
                                 average reviewCount
                   else s)
         (salons w))).

(** [new Date(date + 'T' + start_time) > new Date()] at the resolution of
    the stored time; an unreadable date compares false. *)
Definition startsAfter (now : Clock) (date : string) (start : Z) : bool :=
  match Calendar.dayNumberOf date, Calendar.dayNumberOf (today now) with
  | Some d, Some t =>
      (t <? d) || ((d =? t) && (localHours now * 60 + localMinutes now <? start))
  | _, _ => false
  end.

Definition insertReview (row : string -> Review.t) : Handler (option Review.t) :=
  fun w =>
    let key := gen_random_uuid (generated w) in
    if existsb (fun r => String.eqb (Review.id r) key) (reviews w)
    then (Ok None, w)
    else (Ok (Some (row key)), bump_generated (set_reviews w (reviews w ++ [row key]))).

Definition createReview (now : Clock) (user : string) (body : CreateReviewBody.t)
    : Handler Review.t :=
  let salon_id := CreateReviewBody.salon_id body in
  let booking_id := CreateReviewBody.booking_id body in
  let rating := CreateReviewBody.rating body in
  throwIf (absent salon_id || (rating =? 0)) 400 "MISSING_REQUIRED_FIELDS" ;;;
  throwIf ((rating <? 1) || (rating >? 5)) 400 "INVALID_RATING" ;;;
  (if negb (absent booking_id) then
     found <- read (fun w =>
       single (filter (fun b => String.eqb (Booking.id b) booking_id
                                && String.eqb (Booking.client_id b) user) (bookings w))) ;;
     booking <- orThrow found 404 "BOOKING_NOT_FOUND" ;;
     throwIf (startsAfter now (Booking.appointment_date booking) (Booking.start_time booking)
              && negb (String.eqb (Booking.status booking) "completed"))
             400 "BOOKING_NOT_COMPLETED" ;;;
     existingReview <- read (fun w =>
       single (filter (fun r => String.eqb (Review.booking_id r) booking_id) (reviews w))) ;;
     throwIf (match existingReview with Some _ => true | None => false end)
             409 "REVIEW_ALREADY_EXISTS" ;;;
     throwIf (negb (String.eqb (Booking.salon_id booking) salon_id)) 400 "INVALID_SALON"
   else
     pastBookings <- read (fun w =>
       firstn 1 (filter (fun b => String.eqb (Booking.salon_id b) salon_id
                                  && String.eqb (Booking.client_id b) user
                                  && String.eqb (Booking.status b) "completed")
                        (bookings w))) ;;
     throwIf (Nat.eqb (List.length pastBookings) 0) 400 "NO_COMPLETED_BOOKINGS") ;;;
  inserted <- insertReview (fun key =>
    Review.mk key user salon_id booking_id rating true) ;;
  review <- orThrow inserted 500 "REVIEW_CREATION_FAILED" ;;
  _updateSalonRating salon_id ;;;
  emit (ReviewNotificationEmail (Review.id review)) ;;;
  ret review.

Definition updateReview (user reviewId : string) (rating : option Z) : Handler Review.t :=
  throwIf (absent reviewId) 400 "MISSING_REVIEW_ID" ;;;
  found <- read (fun w =>
    single (filter (fun r => String.eqb (Review.id r) reviewId
                             && String.eqb (Review.client_id r) user) (reviews w))) ;;
  existingReview <- orThrow found 404 "REVIEW_NOT_FOUND" ;;
  throwIf (match rating with
           | Some r => (r <? 1) || (r >? 5)
           | None => false
           end) 400 "INVALID_RATING" ;;;
  let change r :=
    Review.mk (Review.id r) (Review.client_id r) (Review.salon_id r) (Review.booking_id r)
              (match rating with Some v => v | None => Review.rating r end)
              (Review.is_visible r) in
  target <- read (fun w =>
    single (filter (fun r => String.eqb (Review.id r) reviewId) (reviews w))) ;;
  review <- orThrow target 500 "REVIEW_UPDATE_FAILED" ;;
  write (fun w => set_reviews w
    (map (fun r => if String.eqb (Review.id r) reviewId then change r else r) (reviews w))) ;;;
  _updateSalonRating (Review.salon_id existingReview) ;;;
  ret (change review).

Definition deleteReview (user reviewId : string) : Handler unit :=
  throwIf (absent reviewId) 400 "MISSING_REVIEW_ID" ;;;
  found <- read (fun w =>
    single (filter (fun r => String.eqb (Review.id r) reviewId
                             && String.eqb (Review.client_id r) user) (reviews w))) ;;
  existingReview <- orThrow found 404 "REVIEW_NOT_FOUND" ;;
  write (fun w => set_reviews w
    (map (fun r => if String.eqb (Review.id r) reviewId
                   then Review.mk (Review.id r) (Review.client_id r) (Review.salon_id r)
                                  (Review.booking_id r) (Review.rating r) false
                   else r)
         (reviews w))) ;;;
  _updateSalonRating (Review.salon_id existingReview).

End ReviewController.

(* ================================================================== *)
(** * Vocabulary of the properties *)
(* ================================================================== *)

(** The same-day cutoff does not apply: no date was passed, or the date
    passed is not the clock's date. *)
Definition noCutoff (now : Clock) (appointmentDate : option string) : Prop :=
  match appointmentDate with
  | Some d => absent d = true \/ normalizeDate d <> today now
  | None => True
  end.



(** The half-open overlap test of the specification. *)
Definition overlaps (start finish : Z) (b : Booking.t) : Prop :=
  Booking.start_time b < finish /\ start < Booking.end_time b.

(** The row [createBooking] inserts, and the tables after it. *)
Definition createdRow (gen_random_uuid : nat -> string) (user : string)
    (body : CreateBookingBody.t) (start duration : Z) (w : World) : Booking.t :=
  Booking.mk (gen_random_uuid (generated w)) user
             (CreateBookingBody.salon_id body) (CreateBookingBody.service_id body)
             (CreateBookingBody.staff_id body) (CreateBookingBody.appointment_date body)
             start (endTimeOf start duration) "confirmed" EmptyString EmptyString.

Definition afterCreation (row : Booking.t) (w : World) : World :=
  add_event
    (add_event (bump_generated (set_bookings w (bookings w ++ [row])))
               (PaymentRecorded (Booking.id row)))
    (BookingConfirmationEmail (Booking.id row)).

(** What a creation request needs besides a free slot. *)
Record creatable (gen_random_uuid : nat -> string) (user : string)
    (body : CreateBookingBody.t) (start : Z) (service : Service.t) (w : World) : Prop := {
  has_start : CreateBookingBody.start_time body = Some start;
  has_salon_id : absent (CreateBookingBody.salon_id body) = false;
  has_service_id : absent (CreateBookingBody.service_id body) = false;
  has_date : absent (CreateBookingBody.appointment_date body) = false;
  service_found : serviceById (CreateBookingBody.service_id body) w = Some service;
  service_of_salon : Service.salon_id service = CreateBookingBody.salon_id body;
  salon_found : exists salon, salonById (CreateBookingBody.salon_id body) w = Some salon;
  for_oneself : absent (CreateBookingBody.family_member_id body) = true;
  key_is_new :
    existsb (fun b => String.eqb (Booking.id b) (gen_random_uuid (generated w)))
            (bookings w) = false
}.

(** The freed slots handed to the waitlist controller, oldest first. *)
Fixpoint waitlistDispatches (log : list Event) : list (string * string * string * Z) :=
  match log with
  | [] => []
  | WaitlistDispatch salon_id service_id date start :: rest =>
      (salon_id, service_id, date, start) :: waitlistDispatches rest
  | _ :: rest => waitlistDispatches rest
  end.

Definition freedSlot (b : Booking.t) : string * string * string * Z :=
  (Booking.salon_id b, Booking.service_id b, Booking.appointment_date b,
   Booking.start_time b).

Definition terminalStatuses : list string := ["completed"; "cancelled"; "no_show"].

(** The rating summary stored on every row of the salon is the
    recompute over the salon's visible reviews. *)
Definition summaryStored (salonId : string) (w : World) : Prop :=
  forall s, In s (salons w) -> Salon.id s = salonId ->
            (Salon.rating_average s, Salon.rating_count s)
            = ratingSummary (visibleRatings salonId w).

(** [n] hundredths is [sum / count] rounded to two decimals: no other
    number of hundredths is nearer to the quotient. *)
Definition nearestHundredth (sum count n : Z) : Prop :=
  2 * Z.abs (100 * sum - n * count) <= count.

(** [round(sum / count, 2)] as the specification words it, in
    hundredths and for a positive count: the hundredth nearest to the
    exact quotient, a tie going up ([roundHalfUp]) or to the even
    hundredth ([roundHalfEven]). *)
Definition roundHalfUp (sum count : Z) : Z := (200 * sum + count) / (2 * count).

Definition roundHalfEven (sum count : Z) : Z :=
  let q := (100 * sum) / count in
  let r := (100 * sum) mod count in
  if 2 * r <? count then q
  else if count <? 2 * r then q + 1
  else if Z.even q then q else q + 1.

(** The number of days of a month of the Gregorian calendar. *)
Definition daysInMonth (year month : Z) : Z :=
  if month =? 2 then
    if ((year mod 4 =? 0) && negb (year mod 100 =? 0)) || (year mod 400 =? 0)
    then 29 else 28
  else if (month =? 4) || (month =? 6) || (month =? 9) || (month =? 11) then 30
  else 31.

(** A date written as the database prints a [date] column: [YYYY-MM-DD]
    with four, two and two digits, naming a day of the calendar. On such
    a text the [split('-').map(Number)] of the controller, the [Date]
    constructor and the database read the same day, and the database
    compares it with a stored date as the texts compare. *)
Definition canonicalDate (date : string) : bool :=
  match Js.split "-"%char date with
  | [y; m; d] =>
      Nat.eqb (String.length y) 4 && Nat.eqb (String.length m) 2
      && Nat.eqb (String.length d) 2
      && match Js.Number y, Js.Number m, Js.Number d with
         | Some year, Some month, Some day =>
             (1 <=? year) && (1 <=? month) && (month <=? 12)
             && (1 <=? day) && (day <=? daysInMonth year month)
         | _, _, _ => false
         end
  | _ => false
  end.

(** The review row with a key, when exactly one row carries it, and the
    caller's own review with that key: the two lookups of
    [updateReview] and [deleteReview]. *)
Definition reviewById (reviewId : string) (w : World) : option Review.t :=
  single (filter (fun r => String.eqb (Review.id r) reviewId) (reviews w)).

Definition ownReview (user reviewId : string) (w : World) : option Review.t :=
  single (filter (fun r => String.eqb (Review.id r) reviewId
                           && String.eqb (Review.client_id r) user) (reviews w)).

(* ================================================================== *)
(** * A salon for the worked examples *)
(* ================================================================== *)

(** The clock, and the parts of the deployment left open above: every
    booking row is readable, keys are numbered, the waitlist controller
    returns normally. *)
Definition noon : Clock := mkClock "2025-03-01" 12 0.

Definition everyRow : string -> Booking.t -> bool := fun _ _ => true.

Definition uuidOf (n : nat) : string := ("row-" ++ Js.toString (Z.of_nat n))%string.

Definition alwaysResolves : string -> string -> string -> Z -> Settled :=
  fun _ _ _ _ => Resolves.

(** One salon, open from 09:00 to 18:00 every day, with three services. *)
Definition weekdays_9_to_18 : list (string * HoursEntry) :=
  map (fun d => (d, HoursObject "09:00" "" "18:00" "" false)) Calendar.days.

Definition salonOne : Salon.t :=
  Salon.mk "salon-1" "owner-1" (Some weekdays_9_to_18) 0 0.

Definition haircut60 : Service.t := Service.mk "svc-cut" "salon-1" "Haircut" 60.
Definition trim30 : Service.t := Service.mk "svc-trim" "salon-1" "Trim" 30.
Definition zeroLength : Service.t := Service.mk "svc-zero" "salon-1" "Consultation" 0.

(** A booking of [salonOne] on Monday 2025-03-03. *)
Definition booked (id client service staff : string) (start finish : Z) (status : string)
    : Booking.t :=
  Booking.mk id client "salon-1" service staff "2025-03-03" start finish status "" "".

Definition worldWith (rows : list Booking.t) : World :=
  mkWorld rows [haircut60; trim30; zeroLength] [salonOne] [] [] [] [] 0.

Definition request (service staff : string) (start : Z) : CreateBookingBody.t :=
  CreateBookingBody.mk "salon-1" service staff "2025-03-03" (Some start) "" "".

(** The 10:00-11:00 visit of client-1 in each status used below. *)
Definition pendingVisit : Booking.t :=
  booked "b-1" "client-1" "svc-cut" "" 600 660 "pending".

Definition completedVisit : Booking.t :=
  booked "b-1" "client-1" "svc-cut" "" 600 660 "completed".

Definition cancelledVisit : Booking.t :=
  booked "b-1" "client-1" "svc-cut" "" 600 660 "cancelled".

Definition morningVisit : Booking.t :=
  booked "b-1" "client-1" "svc-cut" "" 600 660 "confirmed".

(** A confirmed visit of another client, 14:00-15:00, and a half-hour
    visit inside that hour. *)
Definition afternoonVisit : Booking.t :=
  booked "b-2" "client-2" "svc-cut" "" 840 900 "confirmed".

Definition shortVisit : Booking.t :=
  booked "b-3" "client-2" "svc-trim" "" 855 885 "confirmed".

(** The 10:00-11:00 visit, booked with one member of staff. *)
Definition visitWithStaffA : Booking.t :=
  booked "b-1" "client-1" "svc-cut" "staff-A" 600 660 "confirmed".

(** Four visible reviews of [salonOne] and one hidden one, written by a
    client with a completed visit. *)
Definition reviewOf (id : string) (rating : Z) (visible : bool) : Review.t :=
  Review.mk id "client-1" "salon-1" "" rating visible.

Definition reviewedWorld : World :=
  mkWorld [completedVisit] [haircut60] [salonOne] [] []
          [reviewOf "r-1" 5 true; reviewOf "r-2" 4 true; reviewOf "r-3" 3 true;
           reviewOf "r-4" 5 true; reviewOf "r-5" 1 false]
          [] 0.

(** Thirty-nine visible reviews of [salonOne]: thirty-seven with one
    star and two with two stars. *)
Definition tiedWorld : World :=
  mkWorld [completedVisit] [haircut60] [salonOne] [] []
          (map (fun n => reviewOf (uuidOf n) 1 true) (seq 100 37)
           ++ [reviewOf "r-a" 2 true; reviewOf "r-b" 2 true])
          [] 0.

From Stdlib Require Import DecimalPos Sorted.

(* ================================================================== *)
(** * Further vocabulary: the slot walk *)
(* ================================================================== *)

(** A string of decimal digits. *)
Fixpoint allDigits (s : string) : bool :=
  match s with
  | EmptyString => true
  | String c rest =>
      match Js.digit_of c with Some _ => allDigits rest | None => false end
  end.

(** Opening and closing time in minutes, when all four fields read as
    numbers. *)
Definition parsedHours (openTime closeTime : string) : option (Z * Z) :=
  let openParts := Js.split ":"%char openTime in
  let closeParts := Js.split ":"%char closeTime in
  match Js.nth_Number 0 openParts, Js.nth_Number 1 openParts,
        Js.nth_Number 0 closeParts, Js.nth_Number 1 closeParts with
  | Some openHour, Some openMinute, Some closeHour, Some closeMinute =>
      Some (openHour * 60 + openMinute, closeHour * 60 + closeMinute)
  | _, _, _, _ => None
  end.

(** The slot that starts at a candidate minute. *)
Definition slotAt (serviceDuration candidate : Z) : TimeRange :=
  mkRange (_minutesToTimeString candidate)
          (_minutesToTimeString (candidate + serviceDuration)).

(** The first [turns] candidates of the grid that starts at [start]. *)
Definition gridFrom (start : Z) (turns : nat) : list Z :=
  map (fun k => start + Z.of_nat k * slotInterval) (seq 0 turns).

(** A booked range with readable times that overlaps the half-open
    candidate interval. *)
Definition overlapsRange (candidate serviceDuration : Z) (booked : TimeRange) : Prop :=
  exists bookingStart bookingEnd,
    _timeStringToMinutes (start_time booked) = Some bookingStart
    /\ _timeStringToMinutes (end_time booked) = Some bookingEnd
    /\ candidate < bookingEnd
    /\ bookingStart < candidate + serviceDuration.

(** The request is for the clock's own date. *)
Definition isToday (now : Clock) (appointmentDate : option string) : Prop :=
  exists d, appointmentDate = Some d /\ absent d = false /\ normalizeDate d = today now.

(** Minutes since midnight on the clock. *)
Definition currentMinutes (now : Clock) : Z := localHours now * 60 + localMinutes now.


(** Where the loop starts and where it must end, when it runs at all:
    the parsed hours, moved forward by the same-day cutoff. *)
Definition walkBounds (now : Clock) (openTime closeTime : string)
    (appointmentDate : option string) : option (Z * Z) :=
  match parsedHours openTime closeTime with
  | Some (opening, closing) =>
      match appointmentDate with
      | Some d =>
          if String.eqb d EmptyString then Some (opening, closing)
          else if String.eqb (normalizeDate d) (today now) then
            let start := Z.max opening (Js.ceil_to (currentMinutes now - 5) slotInterval) in
            if start >=? closing then None else Some (start, closing)
          else Some (opening, closing)
      | None => Some (opening, closing)
      end
  | None => None
  end.

(** No existing booking overlaps the candidate. *)
Definition freeOf (serviceDuration : Z) (existingBookings : list TimeRange) (candidate : Z)
    : bool :=
  negb (existsb (slotConflicts candidate serviceDuration) existingBookings).

(** Later by a positive multiple of the slot interval. *)
Definition laterOnGrid (a b : Z) : Prop := a < b /\ (b - a) mod slotInterval = 0.

(* ================================================================== *)
(** * Further vocabulary: the handlers *)
(* ================================================================== *)

(** The opening and closing text [getAvailableSlots] takes from the
    salon's hours of the weekday, when the salon is open that day and
    both are given. *)
Definition openingHours (salon : Salon.t) (date : string) : option (string * string) :=
  match hoursFor salon (Calendar.dayOfWeek date) with
  | None => None
  | Some (HoursText text) =>
      if absent text then None
      else
        let parts := Js.split "-"%char text in
        let openTime := nth 0 parts EmptyString in
        let closeTime := nth 1 parts EmptyString in
        if absent openTime || absent closeTime then None else Some (openTime, closeTime)
  | Some (HoursObject open opening close closing closed) =>
      if closed then None
      else
        let openTime := orElse open opening in
        let closeTime := orElse close closing in
        if absent openTime || absent closeTime then None else Some (openTime, closeTime)
  end.

(** The columns that place a booking: all but status, notes and reason. *)
Definition placement (b : Booking.t)
    : string * string * string * string * string * string * Z * Z :=
  (Booking.id b, Booking.client_id b, Booking.salon_id b, Booking.service_id b,
   Booking.staff_id b, Booking.appointment_date b, Booking.start_time b, Booking.end_time b).

(** Everything but the booking rows and the event log. *)
Definition otherTables (w : World)
    : list Service.t * list Salon.t * list Staff.t * list FamilyMember.t * list Review.t :=
  (services w, salons w, staff w, family_members w, reviews w).

(** A row after a status change of the booking [bookingId]: the row
    itself, or the addressed row at the same place with the new status. *)
Definition restatused (bookingId status : string) (before after : Booking.t) : Prop :=
  after = before
  \/ (Booking.id before = bookingId
      /\ placement after = placement before
      /\ Booking.status after = status).

(** The booking row after a cancellation with the given reason. *)
Definition cancelledWith (reason : string) (b : Booking.t) : Booking.t :=
  Booking.mk (Booking.id b) (Booking.client_id b) (Booking.salon_id b)
             (Booking.service_id b) (Booking.staff_id b)
             (Booking.appointment_date b) (Booking.start_time b) (Booking.end_time b)
             "cancelled" (Booking.salon_notes b) reason.

(** How the waitlist controller ends for the slot of a booking. *)
Definition waitlistOutcome
    (processWaitlistForCancelledBooking : string -> string -> string -> Z -> Settled)
    (b : Booking.t) : Settled :=
  processWaitlistForCancelledBooking (Booking.salon_id b) (Booking.service_id b)
                                     (Booking.appointment_date b) (Booking.start_time b).

(** The row [updateBookingStatus] writes over a booking: the status
    always, the notes when given by somebody who may note, the reason
    when the status is [cancelled] and a reason is given. *)
Definition statusWritten (status staff_notes cancellation_reason : string) (mayNote : bool)
    (b : Booking.t) : Booking.t :=
  Booking.mk (Booking.id b) (Booking.client_id b) (Booking.salon_id b)
             (Booking.service_id b) (Booking.staff_id b)
             (Booking.appointment_date b) (Booking.start_time b) (Booking.end_time b)
             status
             (if negb (absent staff_notes) && mayNote
              then staff_notes else Booking.salon_notes b)
             (if String.eqb status "cancelled" && negb (absent cancellation_reason)
              then cancellation_reason else Booking.cancellation_reason b).

(** Owner of the booking's salon, or a member of its staff who is not
    the booking's client. *)
Definition mayNoteOn (user : string) (booking : Booking.t) (salon : Salon.t) (w : World)
    : bool :=
  let isOwner := String.eqb (Salon.owner_id salon) user in
  let isClient := String.eqb (Booking.client_id booking) user in
  isOwner || (if negb isOwner && negb isClient
              then isStaffOf user (Booking.salon_id booking) w else false).

(** The family-member check of [createBooking] passes: no family
    member is named, or the named one is the caller's. *)
Definition knownRelative (user : string) (body : CreateBookingBody.t) (w : World) : bool :=
  absent (CreateBookingBody.family_member_id body)
  || match single (filter (fun m =>
                             String.eqb (FamilyMember.id m)
                                        (CreateBookingBody.family_member_id body)
                             && String.eqb (FamilyMember.parent_id m) user)
                          (family_members w)) with
     | Some _ => true
     | None => false
     end.

(** The errors [createBooking] and [rescheduleBooking] end in. *)
Definition creationErrors : list AppError :=
  [mkAppError 400 "MISSING_BOOKING_INFO"; mkAppError 404 "SERVICE_NOT_FOUND";
   mkAppError 404 "SALON_NOT_FOUND"; mkAppError 409 "TIME_SLOT_CONFLICT";
   mkAppError 404 "FAMILY_MEMBER_NOT_FOUND"; mkAppError 500 "BOOKING_CREATION_FAILED"].

Definition rescheduleErrors : list AppError :=
  [mkAppError 400 "MISSING_FIELDS"; mkAppError 404 "BOOKING_NOT_FOUND";
   mkAppError 403 "INSUFFICIENT_PERMISSIONS"; mkAppError 400 "INVALID_STATUS";
   mkAppError 500 "RESCHEDULE_FAILED"; mkAppError 409 "TIME_SLOT_CONFLICT"].

(** No booking row carries the key the next insert will get. *)
Definition nextKeyIsNew (gen_random_uuid : nat -> string) (w : World) : Prop :=
  existsb (fun b => String.eqb (Booking.id b) (gen_random_uuid (generated w))) (bookings w)
  = false.

(** A visit of an hour that starts at 23:30, and the tables after its
    creation in the empty example salon. *)
Definition lateRequest : CreateBookingBody.t := request "svc-cut" "" 1410.

Definition lateVisit : Booking.t :=
  createdRow uuidOf "client-1" lateRequest 1410 60 (worldWith []).

Definition afterLateVisit : World := afterCreation lateVisit (worldWith []).

(** The row [rescheduleBooking] writes over a booking. *)
Definition movedTo (appointment_date : string) (start_time endTimeStr : Z) (b : Booking.t)
    : Booking.t :=
  Booking.mk (Booking.id b) (Booking.client_id b) (Booking.salon_id b)
             (Booking.service_id b) (Booking.staff_id b)
             appointment_date start_time endTimeStr
             "pending" (Booking.salon_notes b) (Booking.cancellation_reason b).

(** Requests to the booking controller, one after another. *)
Section BookingRequests.

Variable rowVisible : string -> Booking.t -> bool.
Variable gen_random_uuid : nat -> string.
Variable processWaitlistForCancelledBooking : string -> string -> string -> Z -> Settled.

(** The tables before and after one request, however it ends. *)
Inductive bookingRequest : World -> World -> Prop :=
| create_request user body w :
    bookingRequest w (snd (createBooking rowVisible gen_random_uuid user body w))
| reschedule_request user bookingId appointment_date start_time w :
    bookingRequest w (snd (rescheduleBooking user bookingId appointment_date start_time w))
| status_request user bookingId status staff_notes cancellation_reason w :
    bookingRequest w (snd (updateBookingStatus processWaitlistForCancelledBooking user
                             bookingId status staff_notes cancellation_reason w))
| cancel_request user bookingId cancellation_reason w :
    bookingRequest w (snd (cancelBookingAsSalonOwner user bookingId cancellation_reason w))
| listing_request now user salon_id service_id date staff_id w :
    bookingRequest w (snd (getAvailableSlots rowVisible now user salon_id service_id date
                                             staff_id w)).

Inductive afterRequests : World -> World -> Prop :=
| no_request w : afterRequests w w
| one_more_request w w1 w2 :
    afterRequests w w1 -> bookingRequest w1 w2 -> afterRequests w w2.

End BookingRequests.

(** The second tables come from the first by in-place changes of
    booking rows and by appending: booking keys in the same order with
    new ones at the end, the event log with new events at the end, the
    other tables as they were. *)
Definition onlyAppends (w w' : World) : Prop :=
  otherTables w' = otherTables w
  /\ (exists more, map Booking.id (bookings w') = map Booking.id (bookings w) ++ more)
  /\ (exists more, events w' = events w ++ more)
  /\ (generated w <= generated w')%nat.

Definition uniqueKeys (w : World) : Prop := NoDup (map Booking.id (bookings w)).

(** The tables after the owner has cancelled that visit. *)
Definition afterVisitAndCancel : World :=
  snd (cancelBookingAsSalonOwner "owner-1" "row-0" "" afterLateVisit).

(** The tables after [_updateSalonRating]. *)
Definition withSummary (salonId : string) (w : World) : World :=
  snd (_updateSalonRating salonId w).

(** The review row after a soft delete. *)
Definition hidden (r : Review.t) : Review.t :=
  Review.mk (Review.id r) (Review.client_id r) (Review.salon_id r) (Review.booking_id r)
            (Review.rating r) false.

(** Every stored rating is one of 1 to 5. *)
Definition ratingsInRange (w : World) : Prop :=
  forall r, In r (reviews w) -> 1 <= Review.rating r <= 5.

(** The errors a review request for a booking that already has a
    review can end in. *)
Definition repeatedReviewErrors : list AppError :=
  [mkAppError 400 "MISSING_REQUIRED_FIELDS"; mkAppError 400 "INVALID_RATING";
   mkAppError 404 "BOOKING_NOT_FOUND"; mkAppError 400 "BOOKING_NOT_COMPLETED";
   mkAppError 409 "REVIEW_ALREADY_EXISTS"].

(** The reviews written for a booking. *)
Definition reviewsOfBooking (bookingId : string) (w : World) : list Review.t :=
  filter (fun r => String.eqb (Review.booking_id r) bookingId) (reviews w).

(* ================================================================== *)
(** * Review eligibility (review controller) *)
(* ================================================================== *)

(** The [data] object of the [canReviewBooking] response. *)
Record ReviewEligibility := mkEligibility {
  can_review : bool;
  has_review : bool;
  is_past : bool;
  booking_status : string
}.

(** [new Date(date + 'T' + start_time) < new Date()]. The stored start
    is a whole minute; [pastTheMinute] tells whether the clock has gone
    beyond the first millisecond of its minute. An unreadable date
    compares false. *)
Definition startsBefore (now : Clock) (pastTheMinute : bool) (date : string) (start : Z)
    : bool :=
  match Calendar.dayNumberOf date, Calendar.dayNumberOf (today now) with
  | Some d, Some t =>
      let currentMinutes := localHours now * 60 + localMinutes now in
      (d <? t)
      || ((d =? t)
          && ((start <? currentMinutes) || ((start =? currentMinutes) && pastTheMinute)))
  | _, _ => false
  end.

Definition canReviewBooking (now : Clock) (pastTheMinute : bool) (user bookingId : string)
    : Handler ReviewEligibility :=
  (throwIf (absent bookingId) 400 "MISSING_BOOKING_ID" ;;;
   found <- read (fun w =>
     single (filter (fun b => String.eqb (Booking.id b) bookingId
                              && String.eqb (Booking.client_id b) user) (bookings w))) ;;
   booking <- orThrow found 404 "BOOKING_NOT_FOUND" ;;
   let isPast :=
     startsBefore now pastTheMinute (Booking.appointment_date booking)
                  (Booking.start_time booking)
     || String.eqb (Booking.status booking) "completed" in
   existingReview <- read (fun w =>
     single (filter (fun r => String.eqb (Review.booking_id r) bookingId) (reviews w))) ;;
   let hasReview := match existingReview with Some _ => true | None => false end in
   ret (mkEligibility (isPast && negb hasReview) hasReview isPast
                      (Booking.status booking)))%handler.

(** No review row carries the key the next insert will get. *)
Definition nextReviewKeyIsNew (gen_random_uuid : nat -> string) (w : World) : Prop :=
  existsb (fun r => String.eqb (Review.id r) (gen_random_uuid (generated w))) (reviews w)
  = false.

(* ================================================================== *)
(** * The recalculation script *)
(* ================================================================== *)

(** One turn of the loop of [recalculateSalonRatings] over the salons
    read at its start: the salon as it was read, the tables as they are
    now, and the two counters. *)
Definition recalculateOne (state : World * (nat * nat)) (salon : Salon.t)
    : World * (nat * nat) :=
  let w := fst state in
  let updated := fst (snd state) in
  let unchanged := snd (snd state) in
  let (newRatingAverage, newRatingCount) :=
    ratingSummary (visibleRatings (Salon.id salon) w) in
  let currentAvg := Salon.rating_average salon in
  let currentCount := Salon.rating_count salon in
  if negb (currentAvg =? newRatingAverage) || negb (currentCount =? newRatingCount)
  then (set_salons w
          (map (fun s => if String.eqb (Salon.id s) (Salon.id salon)
                         then Salon.mk (Salon.id s) (Salon.owner_id s)
                                       (Salon.business_hours s)
                                       newRatingAverage newRatingCount
                         else s)
               (salons w)),
        (S updated, unchanged))
  else (w, (updated, S unchanged)).

(** The tables after the script, with the numbers of salons it reports
    as updated and as unchanged. *)
Definition recalculateSalonRatings (w : World) : World * (nat * nat) :=
  fold_left recalculateOne (salons w) (w, (O, O)).

(** The summary a salon row carries is the recompute for its key. *)
Definition summaryIsCurrent (w : World) (s : Salon.t) : Prop :=
  (Salon.rating_average s, Salon.rating_count s)
  = ratingSummary (visibleRatings (Salon.id s) w).

(* ================================================================== *)
(** * Booking statistics *)
(* ================================================================== *)

Section BookingStatistics.

(** The database's comparison [appointment_date >= today] on the date
    column. *)
Variable dateNotBefore : string -> string -> bool.

(** The three booking counts of the [getBookingStats] response, in the
    order total, upcoming, completed; [todayUtc] is
    [new Date().toISOString().split('T')[0]]. The count of favourites,
    read from a table of its own, is left out. *)
Definition getBookingStats (todayUtc user : string) : Handler (nat * nat * nat) :=
  read (fun w =>
    let mine := filter (fun b => String.eqb (Booking.client_id b) user) (bookings w) in
    (List.length mine,
     List.length (filter (fun b => dateNotBefore (Booking.appointment_date b) todayUtc) mine),
     List.length (filter (fun b => String.eqb (Booking.status b) "completed") mine))).

End BookingStatistics.


(** The reviewed example salon after client-1 has reviewed the visit
    b-1 with four stars. *)
Definition afterFirstReview : World :=
  snd (createReview uuidOf noon "client-1" (CreateReviewBody.mk "salon-1" "b-1" 4)
                    reviewedWorld).

(** A salon that lists hours for Mondays only, with one service. *)
Definition mondaySalon : Salon.t :=
  Salon.mk "salon-2" "owner-2" (Some [("monday", HoursText "09:00-17:00")]) 0 0.

Definition mondayWorld : World :=
  mkWorld [] [Service.mk "svc-wash" "salon-2" "Wash" 30] [mondaySalon] [] [] [] [] 0.

(* ================================================================== *)
(** * Time strings and weekdays *)
(* ================================================================== *)

Example minutes_of_half_past_two : _timeStringToMinutes "14:30" = Some 870.
Proof. reflexivity. Qed.

Example minutes_of_a_time_column : _timeStringToMinutes "14:30:00" = Some 870.
Proof. reflexivity. Qed.

Example text_of_870_minutes : _minutesToTimeString 870 = "14:30".
Proof. reflexivity. Qed.

Example weekday_of_epoch : Calendar.dayOfWeek "1970-01-01" = Some "thursday".
Proof. reflexivity. Qed.

Example weekday_of_leap_day : Calendar.dayOfWeek "2024-02-29" = Some "thursday".
Proof. reflexivity. Qed.

Example weekday_of_2000 : Calendar.dayOfWeek "2000-01-01" = Some "saturday".
Proof. reflexivity. Qed.

Example weekday_of_the_examples : Calendar.dayOfWeek "2025-03-03" = Some "monday".
Proof. reflexivity. Qed.

Example weekday_of_garbage : Calendar.dayOfWeek "next monday" = None.
Proof. reflexivity. Qed.

(** Dates as the database prints them, and texts that are not. *)
Example leap_day_is_canonical : canonicalDate "2024-02-29" = true.
Proof. reflexivity. Qed.

Example no_thirtieth_of_february : canonicalDate "2025-02-30" = false.
Proof. reflexivity. Qed.

Example unpadded_date_is_not_canonical : canonicalDate "2025-3-3" = false.
Proof. reflexivity. Qed.


(* ================================================================== *)
(** * The slot walk *)
(* ================================================================== *)

Section SlotWalk.

Variables (serviceDuration endTime : Z) (existingBookings : list TimeRange).

Lemma walkTurns_stop (currentTime : Z) :
  endTime < currentTime + serviceDuration ->
  walkTurns currentTime serviceDuration endTime = O.
Proof.
  intros Hlt. unfold walkTurns, slotInterval.
  assert ((endTime - serviceDuration - currentTime) / 15 < 0)
    by (apply Z.div_lt_upper_bound; lia).
  lia.
Qed.

Lemma walkTurns_step (currentTime : Z) :
  currentTime + serviceDuration <= endTime ->
  walkTurns currentTime serviceDuration endTime
  = S (walkTurns (currentTime + slotInterval) serviceDuration endTime).
Proof.
  intros Hle. unfold walkTurns, slotInterval.
  set (x := endTime - serviceDuration - currentTime).
  replace (endTime - serviceDuration - (currentTime + 15)) with (x + (-1) * 15)
    by (unfold x; lia).
  rewrite Z.div_add by lia.
  assert (0 <= x / 15) by (apply Z.div_pos; unfold x; lia).
  lia.
Qed.

(** The loop leaves through its guard: turns beyond [walkTurns] are
    never taken, so the walk with that many turns is the loop's result. *)
Lemma walkSlots_enough (fuel : nat) :
  forall currentTime,
    (walkTurns currentTime serviceDuration endTime <= fuel)%nat ->
    walkSlots fuel currentTime serviceDuration endTime existingBookings
    = walkSlots (walkTurns currentTime serviceDuration endTime)
                currentTime serviceDuration endTime existingBookings.
Proof.
  induction fuel as [|fuel IH]; intros currentTime Hfuel.
  - replace (walkTurns currentTime serviceDuration endTime) with O by lia.
    reflexivity.
  - destruct (Z.leb_spec (currentTime + serviceDuration) endTime) as [Hle|Hgt].
    + rewrite (walkTurns_step _ Hle) in *. simpl.
      apply Z.leb_le in Hle. rewrite Hle.
      rewrite IH by lia. reflexivity.
    + rewrite (walkTurns_stop _ Hgt). simpl.
      apply Z.leb_gt in Hgt. rewrite Hgt. reflexivity.
Qed.

(** One turn of the loop, on the walk with exactly enough turns. *)
Lemma walk_unfold (currentTime : Z) :
  currentTime + serviceDuration <= endTime ->
  walkSlots (walkTurns currentTime serviceDuration endTime)
            currentTime serviceDuration endTime existingBookings
  = let rest := walkSlots (walkTurns (currentTime + slotInterval) serviceDuration endTime)
                          (currentTime + slotInterval) serviceDuration endTime
                          existingBookings in
    if existsb (slotConflicts currentTime serviceDuration) existingBookings
    then rest
    else mkRange (_minutesToTimeString currentTime)
                 (_minutesToTimeString (currentTime + serviceDuration)) :: rest.
Proof.
  intros Hle. rewrite (walkTurns_step _ Hle). simpl.
  apply Z.leb_le in Hle. rewrite Hle. reflexivity.
Qed.

(** A candidate on the grid that fits before closing and conflicts with
    no existing booking is emitted. *)
Lemma walk_emits (k : nat) :
  forall start,
    let candidate := start + Z.of_nat k * slotInterval in
    candidate + serviceDuration <= endTime ->
    existsb (slotConflicts candidate serviceDuration) existingBookings = false ->
    In (mkRange (_minutesToTimeString candidate)
                (_minutesToTimeString (candidate + serviceDuration)))
       (walkSlots (walkTurns start serviceDuration endTime)
                  start serviceDuration endTime existingBookings).
Proof.
  induction k as [|k IH]; intros start candidate Hfit Hfree; subst candidate.
  - rewrite Z.mul_0_l, Z.add_0_r in *.
    rewrite walk_unfold by assumption. cbv zeta. rewrite Hfree. left. reflexivity.
  - assert (Hstart : start + serviceDuration <= endTime)
      by (unfold slotInterval in *; lia).
    rewrite walk_unfold by assumption. cbv zeta.
    replace (start + Z.of_nat (S k) * slotInterval)
      with ((start + slotInterval) + Z.of_nat k * slotInterval) in * by lia.
    specialize (IH (start + slotInterval) Hfit Hfree).
    destruct (existsb (slotConflicts start serviceDuration) existingBookings);
      [assumption | right; assumption].
Qed.

(** Conversely, every emitted slot is such a candidate. *)
Lemma walk_sound (turns : nat) :
  forall start slot,
    turns = walkTurns start serviceDuration endTime ->
    In slot (walkSlots turns start serviceDuration endTime existingBookings) ->
    exists k : nat,
      let candidate := start + Z.of_nat k * slotInterval in
      slot = mkRange (_minutesToTimeString candidate)
                     (_minutesToTimeString (candidate + serviceDuration))
      /\ candidate + serviceDuration <= endTime
      /\ existsb (slotConflicts candidate serviceDuration) existingBookings = false.
Proof.
  induction turns as [|turns IH]; intros start slot Hturns Hin; [contradiction|].
  destruct (Z.leb_spec (start + serviceDuration) endTime) as [Hle|Hgt];
    [|rewrite (walkTurns_stop _ Hgt) in Hturns; discriminate Hturns].
  rewrite (walkTurns_step _ Hle) in Hturns. injection Hturns as Hturns.
  cbn [walkSlots] in Hin. apply Z.leb_le in Hle. rewrite Hle in Hin. apply Z.leb_le in Hle.
  cbv zeta in Hin.
  assert (Hlater : In slot (walkSlots turns (start + slotInterval) serviceDuration endTime
                                      existingBookings) ->
                   exists k : nat,
                     let candidate := start + Z.of_nat k * slotInterval in
                     slot = mkRange (_minutesToTimeString candidate)
                                    (_minutesToTimeString (candidate + serviceDuration))
                     /\ candidate + serviceDuration <= endTime
                     /\ existsb (slotConflicts candidate serviceDuration) existingBookings
                        = false).
  { intros Hrest. destruct (IH _ _ Hturns Hrest) as (k & Hk). exists (S k). cbv zeta in *.
    replace (start + Z.of_nat (S k) * slotInterval)
      with (start + slotInterval + Z.of_nat k * slotInterval) by lia.
    exact Hk. }
  destruct (existsb (slotConflicts start serviceDuration) existingBookings) eqn:Hfree;
    [exact (Hlater Hin)|].
  destruct Hin as [<-|Hin]; [|exact (Hlater Hin)].
  exists O. cbv zeta. rewrite Z.mul_0_l, Z.add_0_r.
  split; [reflexivity|]. split; [exact Hle | exact Hfree].
Qed.

End SlotWalk.

Lemma calculate_noCutoff now openTime closeTime serviceDuration existingBookings
      appointmentDate openHour openMinute closeHour closeMinute :
  noCutoff now appointmentDate ->
  Js.nth_Number 0 (Js.split ":"%char openTime) = Some openHour ->
  Js.nth_Number 1 (Js.split ":"%char openTime) = Some openMinute ->
  Js.nth_Number 0 (Js.split ":"%char closeTime) = Some closeHour ->
  Js.nth_Number 1 (Js.split ":"%char closeTime) = Some closeMinute ->
  _calculateAvailableSlots now openTime closeTime serviceDuration existingBookings
                           appointmentDate
  = walkSlots (walkTurns (openHour * 60 + openMinute) serviceDuration
                         (closeHour * 60 + closeMinute))
              (openHour * 60 + openMinute) serviceDuration
              (closeHour * 60 + closeMinute) existingBookings.
Proof.
  intros Hcut H1 H2 H3 H4. unfold _calculateAvailableSlots.
  rewrite H1, H2, H3, H4.
  destruct appointmentDate as [d|]; [|reflexivity].
  destruct Hcut as [Habs|Hne].
  - unfold absent in Habs. rewrite Habs. reflexivity.
  - destruct (String.eqb d EmptyString); [reflexivity|].
    destruct (String.eqb_spec (normalizeDate d) (today now)); [contradiction|reflexivity].
Qed.

(* ================================================================== *)
(** * Running handlers *)
(* ================================================================== *)

Section HandlerLaws.

Context {A B : Type}.

Lemma bind_Ok_inv (m : Handler A) (k : A -> Handler B) w b w' :
  bind m k w = (Ok b, w') ->
  exists a w1, m w = (Ok a, w1) /\ k a w1 = (Ok b, w').
Proof.
  unfold bind. destruct (m w) as [[a|e] w1]; cbn; intros H.
  - exists a, w1. split; [reflexivity | assumption].
  - discriminate H.
Qed.

Lemma bind_Throw_inv (m : Handler A) (k : A -> Handler B) w e w' :
  bind m k w = (Throw e, w') ->
  m w = (Throw e, w')
  \/ exists a w1, m w = (Ok a, w1) /\ k a w1 = (Throw e, w').
Proof.
  unfold bind. destruct (m w) as [[a|e0] w1]; cbn; intros H.
  - right. exists a, w1. split; [reflexivity | assumption].
  - left. inversion H. reflexivity.
Qed.

End HandlerLaws.

Lemma throwIf_Ok_inv cond status code w u w' :
  throwIf cond status code w = (Ok u, w') -> cond = false /\ w' = w.
Proof.
  unfold throwIf. destruct cond; cbn; intros H; inversion H. split; reflexivity.
Qed.

Lemma throwIf_Throw_inv cond status code w e w' :
  throwIf cond status code w = (Throw e, w') ->
  cond = true /\ e = mkAppError status code /\ w' = w.
Proof.
  unfold throwIf. destruct cond; cbn; intros H; inversion H. repeat split.
Qed.

Lemma orThrow_Ok_inv {A} (o : option A) status code w a w' :
  orThrow o status code w = (Ok a, w') -> o = Some a /\ w' = w.
Proof.
  unfold orThrow. destruct o; cbn; intros H; inversion H. split; reflexivity.
Qed.

Lemma orThrow_Throw_inv {A} (o : option A) status code w e w' :
  orThrow o status code w = (@Throw A e, w') ->
  o = None /\ e = mkAppError status code /\ w' = w.
Proof.
  unfold orThrow. destruct o; cbn; intros H; inversion H. repeat split.
Qed.

Lemma read_inv {A} (f : World -> A) w r w' :
  read f w = (r, w') -> r = Ok (f w) /\ w' = w.
Proof. unfold read. intros H. inversion H. split; reflexivity. Qed.

Lemma write_inv (f : World -> World) w r w' :
  write f w = (r, w') -> r = Ok tt /\ w' = f w.
Proof. unfold write. intros H. inversion H. split; reflexivity. Qed.

Lemma ret_inv {A} (a : A) w r w' :
  ret a w = (r, w') -> r = Ok a /\ w' = w.
Proof. unfold ret. intros H. inversion H. split; reflexivity. Qed.

(** Laws for running a handler forwards, one statement at a time. *)
Lemma run_throwIf_false {B} cond status code (k : unit -> Handler B) w :
  cond = false -> bind (throwIf cond status code) k w = k tt w.
Proof. intros ->. reflexivity. Qed.

Lemma run_throwIf_true {B} cond status code (k : unit -> Handler B) w :
  cond = true ->
  bind (throwIf cond status code) k w = (Throw (mkAppError status code), w).
Proof. intros ->. reflexivity. Qed.

Lemma run_read {A B} (f : World -> A) (k : A -> Handler B) w :
  bind (read f) k w = k (f w) w.
Proof. reflexivity. Qed.

Lemma run_write {B} (f : World -> World) (k : unit -> Handler B) w :
  bind (write f) k w = k tt (f w).
Proof. reflexivity. Qed.

Lemma run_emit {B} (e : Event) (k : unit -> Handler B) w :
  bind (emit e) k w = k tt (add_event w e).
Proof. reflexivity. Qed.

Lemma run_found {A B} (a : A) status code (k : A -> Handler B) w :
  bind (orThrow (Some a) status code) k w = k a w.
Proof. reflexivity. Qed.

Lemma run_missing {A B} status code (k : A -> Handler B) w :
  bind (orThrow None status code) k w = (Throw (mkAppError status code), w).
Proof. reflexivity. Qed.

Lemma run_ret {A B} (a : A) (k : A -> Handler B) w :
  bind (ret a) k w = k a w.
Proof. reflexivity. Qed.

Lemma run_nested {A B C} (m : Handler A) (k : A -> Handler B) (h : B -> Handler C) w :
  bind (bind m k) h w = bind m (fun a => bind (k a) h) w.
Proof. unfold bind. destruct (m w) as [[a|e] w1]; reflexivity. Qed.

(** Peel a successful run apart, one statement at a time. *)
Ltac peel H :=
  let a := fresh "v" in
  let w1 := fresh "w" in
  let H1 := fresh "Hstep" in
  let H2 := fresh "Hrest" in
  apply bind_Ok_inv in H; destruct H as (a & w1 & H1 & H2);
  first
    [ apply throwIf_Ok_inv in H1; destruct H1 as [H1 ->]
    | apply orThrow_Ok_inv in H1; destruct H1 as [H1 ->]
    | apply read_inv in H1; destruct H1 as [H1 ->]; injection H1 as H1
    | apply write_inv in H1; destruct H1 as [_ ->]
    | idtac ].

Lemma single_In {A} (rows : list A) (r : A) : single rows = Some r -> In r rows.
Proof.
  destruct rows as [|x [|y rest]]; cbn; intros H; inversion H. left. reflexivity.
Qed.

Lemma single_filter {A} (p : A -> bool) (rows : list A) (r : A) :
  single (filter p rows) = Some r -> In r rows /\ p r = true.
Proof. intros H. apply single_In in H. apply filter_In in H. exact H. Qed.

(* ================================================================== *)
(** * Creating a booking *)
(* ================================================================== *)

Section Creation.

Variable rowVisible : string -> Booking.t -> bool.
Variable gen_random_uuid : nat -> string.


Lemma createBooking_Ok_inv user body w row w' :
  createBooking rowVisible gen_random_uuid user body w = (Ok row, w') ->
  exists start service,
    CreateBookingBody.start_time body = Some start
    /\ serviceById (CreateBookingBody.service_id body) w = Some service
    /\ creationConflicts rowVisible user (CreateBookingBody.salon_id body)
                         (CreateBookingBody.appointment_date body)
                         start (endTimeOf start (Service.duration service)) w = []
    /\ row = createdRow gen_random_uuid user body start (Service.duration service) w
    /\ w' = afterCreation row w.
Proof.
  unfold createBooking. intros H.
  destruct (CreateBookingBody.start_time body) as [start|]; [|discriminate H].
  peel H. peel Hrest. peel Hrest0. peel Hrest. peel Hrest0. peel Hrest.
  peel Hrest0. peel Hrest. peel Hrest0. peel Hrest.
  peel Hrest0. peel Hrest. peel Hrest0. peel Hrest.
  apply ret_inv in Hrest0. destruct Hrest0 as [Hrow ->]. injection Hrow as <-.
  unfold insertBooking in Hstep9.
  destruct (existsb _ (bookings w)) eqn:Hkey; injection Hstep9 as <- <-;
    [discriminate Hstep10|].
  injection Hstep10 as <-. subst v0 v5.
  exists start, v1. repeat split; try assumption.
  destruct (creationConflicts _ _ _ _ _ _ w) as [|c cs] eqn:Hc; [reflexivity|].
  cbn [List.length] in Hstep6. rewrite Nat2Z.inj_succ in Hstep6.
  apply Z.ltb_ge in Hstep6. lia.
Qed.

End Creation.

(* ================================================================== *)
(** * Availability scenario (C4) *)
(* ================================================================== *)

(** C4, as the code has it. For business hours 09:00-18:00, a service of
    60 minutes, the 15-minute grid, no existing reservations and no
    same-day cutoff, the availability calculation returns a list whose
    first slot is 09:00-10:00, whose last slot is 17:00-18:00 and whose
    length is 33 (one start every quarter of an hour from 09:00 to 17:00). *)
Theorem nine_to_six_hourly_slots :
  forall (now : Clock) (appointmentDate : option string),
    noCutoff now appointmentDate ->
    let slots := _calculateAvailableSlots now "09:00" "18:00" 60 [] appointmentDate in
    hd_error slots = Some (mkRange "09:00" "10:00")
    /\ last slots (mkRange "" "") = mkRange "17:00" "18:00"
    /\ List.length slots = 33%nat.
Proof.
  intros now appointmentDate Hcut slots. subst slots.
  rewrite (calculate_noCutoff now "09:00" "18:00" 60 [] appointmentDate 9 0 18 0 Hcut)
    by reflexivity.
  vm_compute. repeat split.
Qed.

Lemma nine_to_six_hourly_slots_witness :
  noCutoff noon None
  /\ List.length (_calculateAvailableSlots noon "09:00" "18:00" 60 [] None) = 33%nat.
Proof.
  split; [exact I|].
  exact (proj2 (proj2 (nine_to_six_hourly_slots noon None I))).
Defined.

(** C4 as stated fails: the list does not have 37 slots. *)
Lemma nine_to_six_not_37_slots :
  ~ (let slots := _calculateAvailableSlots noon "09:00" "18:00" 60 [] None in
     hd_error slots = Some (mkRange "09:00" "10:00")
     /\ last slots (mkRange "" "") = mkRange "17:00" "18:00"
     /\ List.length slots = 37%nat).
Proof.
  intros [_ [_ Hlen]]. vm_compute in Hlen. discriminate Hlen.
Qed.

(* ================================================================== *)
(** * Half-open intervals (C5) *)
(* ================================================================== *)

(** The test of the slot walk is the half-open overlap test. *)
Lemma slotConflicts_spec currentTime serviceDuration booked bookingStart bookingEnd :
  _timeStringToMinutes (start_time booked) = Some bookingStart ->
  _timeStringToMinutes (end_time booked) = Some bookingEnd ->
  (slotConflicts currentTime serviceDuration booked = true
   <-> currentTime < bookingEnd /\ bookingStart < currentTime + serviceDuration).
Proof.
  intros Hs He. unfold slotConflicts, Js.gt, Js.lt. rewrite Hs, He.
  rewrite andb_true_iff, !Z.ltb_lt. tauto.
Qed.


Lemma creationConflicts_spec rowVisible user salon_id date start finish w b :
  In b (creationConflicts rowVisible user salon_id date start finish w)
  <-> In b (bookings w)
      /\ rowVisible user b = true
      /\ Booking.salon_id b = salon_id
      /\ Booking.appointment_date b = date
      /\ Booking.status b <> "cancelled"
      /\ Booking.start_time b < finish
      /\ start < Booking.end_time b.
Proof.
  unfold creationConflicts. rewrite filter_In.
  rewrite !andb_true_iff, negb_true_iff, !String.eqb_eq, String.eqb_neq,
    Z.ltb_lt, Z.gtb_lt.
  tauto.
Qed.





(* ================================================================== *)
(** * Service durations that are not positive (C9) *)
(* ================================================================== *)

(** The listing, as one expression. *)
Lemma getAvailableSlots_run rowVisible now user salon_id service_id date staff_id w :
  getAvailableSlots rowVisible now user salon_id service_id date staff_id w
  = if absent salon_id || absent service_id || absent date
    then (Throw (mkAppError 400 "MISSING_PARAMETERS"), w)
    else match serviceById service_id w with
         | None => (Throw (mkAppError 404 "SERVICE_NOT_FOUND"), w)
         | Some service =>
             match salonById salon_id w with
             | None => (Throw (mkAppError 404 "SALON_NOT_FOUND"), w)
             | Some salon =>
                 (Ok match openingHours salon date with
                     | Some (openTime, closeTime) =>
                         _calculateAvailableSlots now openTime closeTime
                           (Service.duration service)
                           (bookedRanges rowVisible user salon_id date staff_id w)
                           (Some date)
                     | None => []
                     end, w)
             end
         end.
Proof.
  unfold getAvailableSlots, openingHours.
  destruct (absent salon_id || absent service_id || absent date); [reflexivity|].
  rewrite run_throwIf_false by reflexivity. rewrite run_read.
  destruct (serviceById service_id w) as [service|]; [|reflexivity].
  rewrite run_found, run_read.
  destruct (salonById salon_id w) as [salon|]; [|reflexivity].
  rewrite run_found, run_read.
  destruct (hoursFor salon (Calendar.dayOfWeek date)) as [[text|o1 o2 c1 c2 closed]|];
    [| |reflexivity].
  - destruct (absent text); [reflexivity|]. cbv zeta.
    destruct (absent _ || absent _); reflexivity.
  - destruct closed; [reflexivity|]. cbv zeta.
    destruct (absent _ || absent _); reflexivity.
Qed.

Lemma canonicalDate_present (date : string) :
  canonicalDate date = true -> absent date = false.
Proof. destruct date; [discriminate | reflexivity]. Qed.

(** The weekday of a date written [YYYY-MM-DD] can be read. *)
Lemma canonicalDate_weekday (date : string) :
  canonicalDate date = true -> exists day, Calendar.dayOfWeek date = Some day.
Proof.
  unfold canonicalDate, Calendar.dayOfWeek, Calendar.dayNumberOf, Js.nth_Number.
  destruct (Js.split "-" date) as [|y [|m [|d [|extra rest]]]]; try discriminate.
  cbn [nth_error].
  destruct (Js.Number y) as [year|]; [|rewrite andb_false_r; discriminate].
  destruct (Js.Number m) as [month|]; [|rewrite andb_false_r; discriminate].
  destruct (Js.Number d) as [day|]; [|rewrite andb_false_r; discriminate].
  intros _. unfold Calendar.getDay.
  set (n := Calendar.makeDay year (month - 1) day).
  pose proof (Z.mod_pos_bound (n + 4) 7 ltac:(lia)) as Hbound.
  assert (Hlt : (Z.to_nat ((n + 4) mod 7) < List.length Calendar.days)%nat)
    by (cbn [List.length Calendar.days]; lia).
  apply nth_error_Some in Hlt.
  destruct (nth_error Calendar.days (Z.to_nat ((n + 4) mod 7))) as [name|];
    [exists name; reflexivity | contradiction].
Qed.




(* ================================================================== *)
(** * Status updates *)
(* ================================================================== *)

Lemma filter_map_same {A} (p : A -> bool) (g : A -> A) (rows : list A) :
  (forall x, p (g x) = p x) ->
  filter p (map g rows) = map g (filter p rows).
Proof.
  intros Hp. induction rows as [|x rows IH]; [reflexivity|].
  cbn. rewrite Hp. destruct (p x); cbn; rewrite IH; reflexivity.
Qed.

Lemma single_map {A} (g : A -> A) (rows : list A) :
  single (map g rows) = option_map g (single rows).
Proof. destruct rows as [|x [|y rest]]; reflexivity. Qed.

(** After [.update(...).eq('id', bookingId)] with a change that keeps
    the key, the row read back is the changed row. *)
Lemma bookingById_updateBooking bookingId f w :
  (forall b, Booking.id (f b) = Booking.id b) ->
  bookingById bookingId (updateBooking bookingId f w)
  = option_map f (bookingById bookingId w).
Proof.
  intros Hid. unfold bookingById, updateBooking. cbn [bookings set_bookings].
  rewrite filter_map_same.
  - rewrite single_map.
    destruct (single (filter _ (bookings w))) as [b|] eqn:Hb; [|reflexivity].
    apply single_filter in Hb. destruct Hb as [_ Hb]. cbn. rewrite Hb. reflexivity.
  - intros b. destruct (String.eqb (Booking.id b) bookingId) eqn:Hb;
      [rewrite Hid|]; exact Hb.
Qed.

Lemma waitlistDispatches_app log1 log2 :
  waitlistDispatches (log1 ++ log2) = waitlistDispatches log1 ++ waitlistDispatches log2.
Proof.
  induction log1 as [|e log1 IH]; [reflexivity|].
  destruct e; cbn; rewrite IH; reflexivity.
Qed.

Lemma includes_In xs x : includes xs x = true <-> In x xs.
Proof.
  unfold includes. rewrite existsb_exists. split.
  - intros (y & Hy & Heq). apply String.eqb_eq in Heq. subst. exact Hy.
  - intros Hx. exists x. split; [exact Hx | apply String.eqb_refl].
Qed.

Section StatusUpdates.

Variable processWaitlistForCancelledBooking : string -> string -> string -> Z -> Settled.

(** The client of a booking, who does not own the salon, asking for
    anything but a cancellation. *)
Lemma client_other_than_cancel user bookingId status staff_notes reason w booking salon :
  bookingById bookingId w = Some booking ->
  salonById (Booking.salon_id booking) w = Some salon ->
  Booking.client_id booking = user ->
  Salon.owner_id salon <> user ->
  In status validStatuses ->
  status <> "cancelled" ->
  updateBookingStatus processWaitlistForCancelledBooking
                      user bookingId status staff_notes reason w
  = (Throw (mkAppError 403 "CLIENT_CAN_ONLY_CANCEL"), w).
Proof.
  intros Hb Hs Hclient Howner Hvalid Hne. unfold updateBookingStatus.
  apply includes_In in Hvalid.
  apply String.eqb_neq in Howner. apply String.eqb_neq in Hne.
  rewrite run_throwIf_false by (rewrite Hvalid; reflexivity).
  rewrite run_read, Hb, run_found, run_read, Hs, run_found.
  rewrite Howner, Hclient, String.eqb_refl, Hne. cbn [negb andb].
  rewrite run_read.
  rewrite run_throwIf_false by reflexivity.
  rewrite run_throwIf_true by reflexivity.
  reflexivity.
Qed.

(** Somebody who is neither owner, client nor staff. *)
Lemma outsider_is_refused user bookingId status staff_notes reason w booking salon :
  bookingById bookingId w = Some booking ->
  salonById (Booking.salon_id booking) w = Some salon ->
  Booking.client_id booking <> user ->
  Salon.owner_id salon <> user ->
  isStaffOf user (Booking.salon_id booking) w = false ->
  In status validStatuses ->
  updateBookingStatus processWaitlistForCancelledBooking
                      user bookingId status staff_notes reason w
  = (Throw (mkAppError 403 "INSUFFICIENT_PERMISSIONS"), w).
Proof.
  intros Hb Hs Hclient Howner Hstaff Hvalid. unfold updateBookingStatus.
  apply includes_In in Hvalid.
  apply String.eqb_neq in Howner. apply String.eqb_neq in Hclient.
  rewrite run_throwIf_false by (rewrite Hvalid; reflexivity).
  rewrite run_read, Hb, run_found, run_read, Hs, run_found.
  rewrite Howner, Hclient. cbn [negb andb].
  rewrite run_read, Hstaff.
  rewrite run_throwIf_true by reflexivity.
  reflexivity.
Qed.

Lemma unknown_status_is_refused user bookingId status staff_notes reason w :
  ~ In status validStatuses ->
  updateBookingStatus processWaitlistForCancelledBooking
                      user bookingId status staff_notes reason w
  = (Throw (mkAppError 400 "INVALID_STATUS"), w).
Proof.
  intros Hno. unfold updateBookingStatus.
  destruct (includes validStatuses status) eqn:Hin.
  - apply includes_In in Hin. contradiction.
  - reflexivity.
Qed.

(** The owner's request reaches the [update] whatever the current
    status is: whatever happens after it, the row then carries the
    requested status. *)
Lemma owner_request_is_applied user bookingId status staff_notes reason w booking salon :
  bookingById bookingId w = Some booking ->
  salonById (Booking.salon_id booking) w = Some salon ->
  Salon.owner_id salon = user ->
  In status validStatuses ->
  exists result w' updated,
    updateBookingStatus processWaitlistForCancelledBooking
                        user bookingId status staff_notes reason w = (result, w')
    /\ bookingById bookingId w' = Some updated
    /\ Booking.status updated = status
    /\ (status <> "cancelled" -> result = Ok updated).
Proof.
  intros Hb Hs Howner Hvalid. unfold updateBookingStatus.
  apply includes_In in Hvalid.
  rewrite run_throwIf_false by (rewrite Hvalid; reflexivity).
  rewrite run_read, Hb, run_found, run_read, Hs, run_found.
  rewrite Howner, String.eqb_refl. cbn [negb andb].
  rewrite run_read.
  rewrite run_throwIf_false by reflexivity.
  rewrite run_throwIf_false by (rewrite andb_false_r; reflexivity).
  rewrite run_write, run_read.
  rewrite bookingById_updateBooking by reflexivity. rewrite Hb. cbn [option_map].
  rewrite run_found.
  set (updated := Booking.mk _ _ _ _ _ _ _ _ _ _ _).
  set (w1 := updateBooking bookingId _ w).
  assert (Hread : bookingById bookingId w1 = Some updated).
  { unfold w1. rewrite bookingById_updateBooking by reflexivity. rewrite Hb. reflexivity. }
  destruct (String.eqb status "cancelled") eqn:Hc.
  - apply String.eqb_eq in Hc.
    rewrite run_nested, run_read.
    destruct (serviceById (Booking.service_id booking) w1) as [svc|].
    + rewrite run_nested, run_found, run_nested, run_emit.
      unfold awaitWaitlist. rewrite run_nested, run_emit.
      destruct (processWaitlistForCancelledBooking _ _ _ _);
        eexists; eexists; exists updated;
        (split; [reflexivity|]); (split; [exact Hread|]);
        (split; [reflexivity|]); intros Hne; contradiction.
    + rewrite run_nested, run_missing.
      eexists; eexists; exists updated.
      split; [reflexivity|]. split; [exact Hread|].
      split; [reflexivity|]. intros Hne; contradiction.
  - rewrite run_ret.
    eexists; eexists; exists updated.
    split; [reflexivity|]. split; [exact Hread|].
    split; [reflexivity|]. reflexivity.
Qed.

End StatusUpdates.

Lemma owner_cancel_of_cancelled user bookingId reason w booking salon :
  bookingById bookingId w = Some booking ->
  salonById (Booking.salon_id booking) w = Some salon ->
  Salon.owner_id salon = user ->
  Booking.status booking = "cancelled" ->
  cancelBookingAsSalonOwner user bookingId reason w
  = (Throw (mkAppError 400 "BOOKING_ALREADY_CANCELLED"), w).
Proof.
  intros Hb Hs Howner Hstatus. unfold cancelBookingAsSalonOwner.
  rewrite run_read, Hb, run_found, run_read, Hs, run_found.
  rewrite run_throwIf_false by (rewrite Howner, String.eqb_refl; reflexivity).
  rewrite run_throwIf_true by (rewrite Hstatus; reflexivity).
  reflexivity.
Qed.

(* ================================================================== *)
(** * The waitlist is dispatched by cancellations only (C8) *)
(* ================================================================== *)

Section WaitlistDispatch.

Variable processWaitlistForCancelledBooking : string -> string -> string -> Z -> Settled.

(** Every way a status update can end, with the events it added. *)
Lemma updateBookingStatus_events user bookingId status staff_notes reason w result w' :
  updateBookingStatus processWaitlistForCancelledBooking
                      user bookingId status staff_notes reason w = (result, w') ->
  (status <> "cancelled" -> events w' = events w)
  /\ (status = "cancelled" ->
      forall updated, result = Ok updated ->
        exists booking,
          bookingById bookingId w = Some booking
          /\ bookingById bookingId w' = Some updated
          /\ Booking.status updated = "cancelled"
          /\ freedSlot updated = freedSlot booking
          /\ events w' = events w ++ [CancellationNoticeEmail bookingId;
                                      WaitlistDispatch (Booking.salon_id booking)
                                                       (Booking.service_id booking)
                                                       (Booking.appointment_date booking)
                                                       (Booking.start_time booking)]).
Proof.
  unfold updateBookingStatus. intros Hrun.
  destruct (includes validStatuses status) eqn:Hvalid;
    [rewrite run_throwIf_false in Hrun by reflexivity
    |rewrite run_throwIf_true in Hrun by reflexivity; injection Hrun as <- <-;
     split; [reflexivity | discriminate]].
  rewrite run_read in Hrun.
  destruct (bookingById bookingId w) as [booking|] eqn:Hb;
    [rewrite run_found in Hrun
    |rewrite run_missing in Hrun; injection Hrun as <- <-;
     split; [reflexivity | discriminate]].
  rewrite run_read in Hrun.
  destruct (salonById (Booking.salon_id booking) w) as [salon|] eqn:Hs;
    [rewrite run_found in Hrun
    |rewrite run_missing in Hrun; injection Hrun as <- <-;
     split; [reflexivity | discriminate]].
  rewrite run_read in Hrun.
  match type of Hrun with
  | bind (throwIf ?c _ _) _ _ = _ =>
      destruct c eqn:Hrole;
        [rewrite run_throwIf_true in Hrun by reflexivity; injection Hrun as <- <-;
         split; [reflexivity | discriminate]
        |rewrite run_throwIf_false in Hrun by reflexivity]
  end.
  match type of Hrun with
  | bind (throwIf ?c _ _) _ _ = _ =>
      destruct c eqn:Hclient;
        [rewrite run_throwIf_true in Hrun by reflexivity; injection Hrun as <- <-;
         split; [reflexivity | discriminate]
        |rewrite run_throwIf_false in Hrun by reflexivity]
  end.
  rewrite run_write, run_read in Hrun.
  rewrite bookingById_updateBooking in Hrun by reflexivity.
  rewrite Hb in Hrun. cbn [option_map] in Hrun. rewrite run_found in Hrun.
  match type of Hrun with
  | context [updateBooking bookingId ?f w] =>
      set (w1 := updateBooking bookingId f w) in *;
      assert (Hread : bookingById bookingId w1 = Some (f booking))
        by (unfold w1; rewrite bookingById_updateBooking by reflexivity;
            rewrite Hb; reflexivity)
  end.
  destruct (String.eqb status "cancelled") eqn:Hc.
  - apply String.eqb_eq in Hc.
    split; [intros Hne; contradiction|]. intros _ updated Hok.
    rewrite run_nested, run_read in Hrun.
    destruct (serviceById (Booking.service_id booking) w1) as [svc|];
      [|rewrite run_nested, run_missing in Hrun; injection Hrun as <- <-;
        discriminate Hok].
    rewrite run_nested, run_found, run_nested, run_emit in Hrun.
    unfold awaitWaitlist in Hrun. rewrite run_nested, run_emit in Hrun.
    destruct (processWaitlistForCancelledBooking _ _ _ _);
      cbn in Hrun; injection Hrun as <- <-; try discriminate Hok.
    injection Hok as <-.
    exists booking. split; [reflexivity|]. split; [exact Hread|].
    split; [exact Hc|]. split; [reflexivity|].
    cbn. rewrite <- app_assoc. reflexivity.
  - apply String.eqb_neq in Hc.
    split; [|intros Heq; contradiction]. intros _.
    rewrite run_ret in Hrun. cbn in Hrun. injection Hrun as <- <-. reflexivity.
Qed.

(** The owner cancels a booking whose service row exists while the
    waitlist controller does its work without an exception. *)
Lemma owner_cancellation_succeeds user bookingId staff_notes reason w booking salon service :
  bookingById bookingId w = Some booking ->
  salonById (Booking.salon_id booking) w = Some salon ->
  Salon.owner_id salon = user ->
  serviceById (Booking.service_id booking) w = Some service ->
  processWaitlistForCancelledBooking
    (Booking.salon_id booking) (Booking.service_id booking)
    (Booking.appointment_date booking) (Booking.start_time booking) = Resolves ->
  exists updated w',
    updateBookingStatus processWaitlistForCancelledBooking
                        user bookingId "cancelled" staff_notes reason w = (Ok updated, w').
Proof.
  intros Hb Hs Howner Hsvc Hdone. unfold updateBookingStatus.
  rewrite run_throwIf_false by reflexivity.
  rewrite run_read, Hb, run_found, run_read, Hs, run_found.
  rewrite Howner, String.eqb_refl. cbn [negb andb].
  rewrite run_read.
  rewrite run_throwIf_false by reflexivity.
  rewrite run_throwIf_false by (rewrite andb_false_r; reflexivity).
  rewrite run_write, run_read.
  rewrite bookingById_updateBooking by reflexivity. rewrite Hb. cbn [option_map].
  rewrite run_found. cbn [String.eqb Ascii.eqb Bool.eqb].
  rewrite run_nested, run_read.
  change (serviceById (Booking.service_id booking) (updateBooking bookingId _ w))
    with (serviceById (Booking.service_id booking) w).
  rewrite Hsvc, run_nested, run_found, run_nested, run_emit.
  unfold awaitWaitlist. rewrite run_nested, run_emit, Hdone.
  eexists. eexists. reflexivity.
Qed.

End WaitlistDispatch.

Lemma rescheduleBooking_events user bookingId date start w result w' :
  rescheduleBooking user bookingId date start w = (result, w') ->
  waitlistDispatches (events w') = waitlistDispatches (events w).
Proof.
  unfold rescheduleBooking. intros Hrun.
  destruct start as [start|]; [|injection Hrun as <- <-; reflexivity].
  repeat
    match type of Hrun with
    | bind (throwIf ?c _ _) _ _ = _ =>
        destruct c;
        [rewrite run_throwIf_true in Hrun by reflexivity; injection Hrun as <- <-;
         reflexivity
        |rewrite run_throwIf_false in Hrun by reflexivity]
    | bind (read _) _ _ = _ => rewrite run_read in Hrun
    | bind (write _) _ _ = _ => rewrite run_write in Hrun
    | bind (emit _) _ _ = _ => rewrite run_emit in Hrun
    | bind (orThrow ?o _ _) _ _ = _ =>
        destruct o;
        [rewrite run_found in Hrun
        |rewrite run_missing in Hrun; injection Hrun as <- <-; reflexivity]
    end.
  cbn in Hrun. injection Hrun as <- <-. cbn.
  rewrite waitlistDispatches_app. cbn. apply app_nil_r.
Qed.

Lemma cancelBookingAsSalonOwner_Ok user bookingId reason w updated w' :
  cancelBookingAsSalonOwner user bookingId reason w = (Ok updated, w') ->
  exists booking,
    bookingById bookingId w = Some booking
    /\ bookingById bookingId w' = Some updated
    /\ Booking.status updated = "cancelled"
    /\ freedSlot updated = freedSlot booking
    /\ waitlistDispatches (events w')
       = waitlistDispatches (events w) ++ [freedSlot booking].
Proof.
  unfold cancelBookingAsSalonOwner. intros Hrun.
  rewrite run_read in Hrun.
  destruct (bookingById bookingId w) as [booking|] eqn:Hb;
    [rewrite run_found in Hrun | rewrite run_missing in Hrun; discriminate Hrun].
  rewrite run_read in Hrun.
  destruct (salonById (Booking.salon_id booking) w) as [salon|];
    [rewrite run_found in Hrun | rewrite run_missing in Hrun; discriminate Hrun].
  repeat
    match type of Hrun with
    | bind (throwIf ?c _ _) _ _ = _ =>
        destruct c;
        [rewrite run_throwIf_true in Hrun by reflexivity; discriminate Hrun
        |rewrite run_throwIf_false in Hrun by reflexivity]
    end.
  rewrite run_write, run_read in Hrun.
  rewrite bookingById_updateBooking in Hrun by reflexivity.
  rewrite Hb in Hrun. cbn [option_map] in Hrun.
  rewrite run_found, run_read in Hrun.
  exists booking. split; [reflexivity|].
  destruct (serviceById _ _) as [service|];
    repeat (rewrite run_emit in Hrun || rewrite run_ret in Hrun);
    cbn in Hrun; injection Hrun as <- <-.
  - split.
    + change (bookingById bookingId (add_event (add_event ?v _) _))
        with (bookingById bookingId v).
      rewrite bookingById_updateBooking by reflexivity. rewrite Hb. reflexivity.
    + split; [reflexivity|]. split; [reflexivity|].
      cbn. rewrite !waitlistDispatches_app. cbn. rewrite app_nil_r. reflexivity.
  - split.
    + change (bookingById bookingId (add_event ?v _)) with (bookingById bookingId v).
      rewrite bookingById_updateBooking by reflexivity. rewrite Hb. reflexivity.
    + split; [reflexivity|]. split; [reflexivity|].
      cbn. rewrite !waitlistDispatches_app. reflexivity.
Qed.

(** C8. A status update to [cancelled] that succeeds hands the waitlist
    controller exactly one freed slot, the (salon, service, date, start
    time) of the cancelled reservation, and so does a successful owner
    cancel; a status update to any other status hands it none, however it
    ends, and neither does a reschedule. *)
Theorem cancellation_dispatches_waitlist_once :
  forall (processWaitlistForCancelledBooking : string -> string -> string -> Z -> Settled)
         (user bookingId status staff_notes reason : string)
         (w w' : World) (result : Result Booking.t),
    updateBookingStatus processWaitlistForCancelledBooking
                        user bookingId status staff_notes reason w = (result, w') ->
    (status = "cancelled" ->
     forall updated, result = Ok updated ->
       exists booking,
         bookingById bookingId w = Some booking
         /\ bookingById bookingId w' = Some updated
         /\ Booking.status updated = "cancelled"
         /\ waitlistDispatches (events w')
            = waitlistDispatches (events w) ++ [freedSlot updated]
         /\ freedSlot updated = freedSlot booking)
    /\ (status <> "cancelled" ->
        waitlistDispatches (events w') = waitlistDispatches (events w))
    /\ (forall who id date start v r v',
          rescheduleBooking who id date start v = (r, v') ->
          waitlistDispatches (events v') = waitlistDispatches (events v))
    /\ (forall who id why v updated v',
          cancelBookingAsSalonOwner who id why v = (Ok updated, v') ->
          Booking.status updated = "cancelled"
          /\ waitlistDispatches (events v')
             = waitlistDispatches (events v) ++ [freedSlot updated]).
Proof.
  intros dispatch user bookingId status staff_notes reason w w' result Hrun.
  destruct (updateBookingStatus_events dispatch user bookingId status staff_notes reason
              w result w' Hrun) as [Hother Hcancel].
  split; [|split; [|split]].
  - intros Hc updated Hok.
    destruct (Hcancel Hc updated Hok) as (booking & Hb & Hb' & Hst & Hslot & Hev).
    exists booking. repeat split; try assumption.
    rewrite Hev, waitlistDispatches_app, Hslot. reflexivity.
  - intros Hne. rewrite (Hother Hne). reflexivity.
  - intros who id date start v r v' Hres.
    exact (rescheduleBooking_events who id date start v r v' Hres).
  - intros who id why v updated v' Hres.
    destruct (cancelBookingAsSalonOwner_Ok who id why v updated v' Hres)
      as (booking & _ & _ & Hst & Hslot & Hev).
    split; [exact Hst|]. rewrite Hev, Hslot. reflexivity.
Qed.

Lemma cancellation_dispatches_waitlist_once_witness :
  exists updated w',
    updateBookingStatus alwaysResolves "owner-1" "b-1" "cancelled" "" ""
                        (worldWith [pendingVisit]) = (Ok updated, w')
    /\ Booking.status updated = "cancelled"
    /\ waitlistDispatches (events w') = [("salon-1", "svc-cut", "2025-03-03", 600)].
Proof.
  destruct (updateBookingStatus alwaysResolves "owner-1" "b-1" "cancelled" "" ""
                                (worldWith [pendingVisit])) as [result w'] eqn:Hrun.
  pose proof (cancellation_dispatches_waitlist_once alwaysResolves
                "owner-1" "b-1" "cancelled" "" "" (worldWith [pendingVisit]) w' result Hrun)
    as [Hcancel _].
  vm_compute in Hrun. injection Hrun as <- <-.
  destruct (Hcancel eq_refl _ eq_refl) as (booking & _ & _ & Hst & Hd & _).
  eexists. eexists. split; [reflexivity|]. split; [exact Hst | exact Hd].
Defined.

(* ================================================================== *)
(** * What a client may ask for (C7) *)
(* ================================================================== *)

(** C7. The client of a reservation who does not own the salon may only
    cancel: for a reservation that is pending or confirmed, a status
    update to any of the other four statuses is refused with the 403
    error CLIENT_CAN_ONLY_CANCEL and the tables are left as they were. *)
Theorem client_may_only_cancel :
  forall (processWaitlistForCancelledBooking : string -> string -> string -> Z -> Settled)
         (user bookingId status staff_notes reason : string)
         (w : World) (booking : Booking.t) (salon : Salon.t),
    bookingById bookingId w = Some booking ->
    salonById (Booking.salon_id booking) w = Some salon ->
    Booking.status booking = "pending" \/ Booking.status booking = "confirmed" ->
    Booking.client_id booking = user ->
    Salon.owner_id salon <> user ->
    In status validStatuses ->
    status <> "cancelled" ->
    updateBookingStatus processWaitlistForCancelledBooking
                        user bookingId status staff_notes reason w
    = (Throw (mkAppError 403 "CLIENT_CAN_ONLY_CANCEL"), w).
Proof.
  intros dispatch user bookingId status staff_notes reason w booking salon
         Hb Hs _ Hclient Howner Hvalid Hne.
  exact (client_other_than_cancel dispatch user bookingId status staff_notes reason
           w booking salon Hb Hs Hclient Howner Hvalid Hne).
Qed.

(** The case singled out by the specification: a client asking for
    [confirmed] on a pending reservation. *)
Lemma client_may_only_cancel_witness :
  bookingById "b-1" (worldWith [pendingVisit]) = Some pendingVisit
  /\ updateBookingStatus alwaysResolves "client-1" "b-1" "confirmed" "" ""
                         (worldWith [pendingVisit])
     = (Throw (mkAppError 403 "CLIENT_CAN_ONLY_CANCEL"), worldWith [pendingVisit]).
Proof.
  split; [reflexivity|].
  apply (client_may_only_cancel alwaysResolves "client-1" "b-1" "confirmed" "" ""
           (worldWith [pendingVisit]) pendingVisit salonOne).
  - reflexivity.
  - reflexivity.
  - left. reflexivity.
  - reflexivity.
  - discriminate.
  - right. left. reflexivity.
  - discriminate.
Defined.

(* ================================================================== *)
(** * Terminal statuses (C2) *)
(* ================================================================== *)

(** C2, as the code has it. For a reservation that is completed,
    cancelled or no_show, a status update is refused, and the tables are
    left as they were, when the target is not one of the five statuses,
    when the actor is neither owner, client nor staff, and when the actor
    is the client, not being the owner, and the target is not
    [cancelled]. The owner-cancel operation refuses a reservation that is
    already cancelled and leaves the tables as they were. *)
Theorem terminal_status_refusals :
  forall (processWaitlistForCancelledBooking : string -> string -> string -> Z -> Settled)
         (user bookingId status staff_notes reason : string)
         (w : World) (booking : Booking.t) (salon : Salon.t),
    bookingById bookingId w = Some booking ->
    salonById (Booking.salon_id booking) w = Some salon ->
    In (Booking.status booking) terminalStatuses ->
    let run := updateBookingStatus processWaitlistForCancelledBooking
                                   user bookingId status staff_notes reason w in
    (~ In status validStatuses ->
     run = (Throw (mkAppError 400 "INVALID_STATUS"), w))
    /\ (In status validStatuses ->
        Salon.owner_id salon <> user -> Booking.client_id booking <> user ->
        isStaffOf user (Booking.salon_id booking) w = false ->
        run = (Throw (mkAppError 403 "INSUFFICIENT_PERMISSIONS"), w))
    /\ (In status validStatuses ->
        Salon.owner_id salon <> user -> Booking.client_id booking = user ->
        status <> "cancelled" ->
        run = (Throw (mkAppError 403 "CLIENT_CAN_ONLY_CANCEL"), w))
    /\ (Booking.status booking = "cancelled" ->
        Salon.owner_id salon = user ->
        cancelBookingAsSalonOwner user bookingId reason w
        = (Throw (mkAppError 400 "BOOKING_ALREADY_CANCELLED"), w)).
Proof.
  intros dispatch user bookingId status staff_notes reason w booking salon
         Hb Hs _ run. subst run.
  split; [|split; [|split]].
  - intros Hno. apply unknown_status_is_refused, Hno.
  - intros Hvalid Howner Hclient Hstaff.
    exact (outsider_is_refused dispatch user bookingId status staff_notes reason
             w booking salon Hb Hs Hclient Howner Hstaff Hvalid).
  - intros Hvalid Howner Hclient Hne.
    exact (client_other_than_cancel dispatch user bookingId status staff_notes reason
             w booking salon Hb Hs Hclient Howner Hvalid Hne).
  - intros Hcancelled Howner.
    exact (owner_cancel_of_cancelled user bookingId reason w booking salon
             Hb Hs Howner Hcancelled).
Qed.

Lemma terminal_status_refusals_witness :
  In (Booking.status cancelledVisit) terminalStatuses
  /\ updateBookingStatus alwaysResolves "client-1" "b-1" "confirmed" "" ""
                         (worldWith [cancelledVisit])
     = (Throw (mkAppError 403 "CLIENT_CAN_ONLY_CANCEL"), worldWith [cancelledVisit])
  /\ cancelBookingAsSalonOwner "owner-1" "b-1" "" (worldWith [cancelledVisit])
     = (Throw (mkAppError 400 "BOOKING_ALREADY_CANCELLED"), worldWith [cancelledVisit]).
Proof.
  assert (Hterminal : In (Booking.status cancelledVisit) terminalStatuses)
    by (right; left; reflexivity).
  pose proof (terminal_status_refusals alwaysResolves
                "client-1" "b-1" "confirmed" "" "" (worldWith [cancelledVisit])
                cancelledVisit salonOne eq_refl eq_refl Hterminal)
    as (_ & _ & Hclient & _).
  pose proof (terminal_status_refusals alwaysResolves
                "owner-1" "b-1" "confirmed" "" "" (worldWith [cancelledVisit])
                cancelledVisit salonOne eq_refl eq_refl Hterminal)
    as (_ & _ & _ & Hcancel).
  split; [exact Hterminal|]. split.
  - apply Hclient; [right; left; reflexivity | discriminate | reflexivity | discriminate].
  - apply Hcancel; reflexivity.
Defined.

(** C2 as stated fails: the owner moves a completed reservation back to
    [pending]; the update succeeds and the status changes. *)
Lemma completed_reservation_can_be_reopened :
  exists updated w',
    updateBookingStatus alwaysResolves "owner-1" "b-1" "pending" "" ""
                        (worldWith [completedVisit]) = (Ok updated, w')
    /\ bookingById "b-1" (worldWith [completedVisit]) = Some completedVisit
    /\ Booking.status completedVisit = "completed"
    /\ bookingById "b-1" w' = Some updated
    /\ Booking.status updated = "pending".
Proof.
  eexists. eexists. split; [vm_compute; reflexivity|]. repeat split.
Qed.

(* ================================================================== *)
(** * The conflict query of a reschedule (C1) *)
(* ================================================================== *)

Lemma rescheduleConflicts_spec booking bookingId date start finish w b :
  In b (rescheduleConflicts booking bookingId date start finish w)
  <-> In b (bookings w)
      /\ Booking.salon_id b = Booking.salon_id booking
      /\ Booking.appointment_date b = date
      /\ Booking.status b <> "cancelled"
      /\ Booking.id b <> bookingId
      /\ (Booking.start_time b <= start \/ finish <= Booking.end_time b)
      /\ (Booking.start_time b < finish \/ start < Booking.end_time b).
Proof.
  unfold rescheduleConflicts. rewrite filter_In.
  rewrite !andb_true_iff, !orb_true_iff, !negb_true_iff, !String.eqb_eq, !String.eqb_neq,
    Z.leb_le, Z.geb_le, Z.ltb_lt, Z.gtb_lt.
  tauto.
Qed.

(** For a proper booked interval and a proper new interval, the two
    filters together select every row except one lying strictly inside
    the new interval: the query is not the overlap test. *)
Lemma rescheduleConflicts_selects booking bookingId date start finish w b :
  Booking.start_time b < Booking.end_time b ->
  start < finish ->
  In b (bookings w) ->
  Booking.salon_id b = Booking.salon_id booking ->
  Booking.appointment_date b = date ->
  Booking.status b <> "cancelled" ->
  Booking.id b <> bookingId ->
  (In b (rescheduleConflicts booking bookingId date start finish w)
   <-> ~ (start < Booking.start_time b /\ Booking.end_time b < finish)).
Proof.
  intros Hb Hnew Hin Hsalon Hdate Hstatus Hid.
  rewrite rescheduleConflicts_spec. split.
  - intros (_ & _ & _ & _ & _ & Hfirst & _). lia.
  - intros Hinside. repeat split; try assumption; lia.
Qed.

(** Hence a reschedule is refused whenever some other live booking of
    the salon on the new date starts no later than the new start time,
    even when that booking has ended long before. *)
Lemma earlier_booking_blocks_reschedule user bookingId date start w booking service other :
  absent date = false ->
  bookingById bookingId w = Some booking ->
  Booking.client_id booking = user ->
  In (Booking.status booking) ["pending"; "confirmed"] ->
  serviceById (Booking.service_id booking) w = Some service ->
  In other (bookings w) ->
  Booking.salon_id other = Booking.salon_id booking ->
  Booking.appointment_date other = date ->
  Booking.status other <> "cancelled" ->
  Booking.id other <> bookingId ->
  Booking.start_time other <= start ->
  Booking.start_time other < endTimeOf start (Service.duration service) ->
  rescheduleBooking user bookingId date (Some start) w
  = (Throw (mkAppError 409 "TIME_SLOT_CONFLICT"), w).
Proof.
  intros Hdate Hb Hclient Hstatus Hsvc Hin Hsalon Hday Hlive Hid Hle Hlt.
  unfold rescheduleBooking.
  rewrite run_throwIf_false by (rewrite Hdate; reflexivity).
  rewrite run_read, Hb, run_found.
  rewrite run_throwIf_false by (rewrite Hclient, String.eqb_refl; reflexivity).
  rewrite run_throwIf_false
    by (apply negb_false_iff, includes_In; exact Hstatus).
  rewrite run_read, Hsvc, run_found, run_read.
  rewrite run_throwIf_true; [reflexivity|].
  apply Z.ltb_lt.
  destruct (rescheduleConflicts booking bookingId date start _ w) as [|c cs] eqn:Hc.
  - exfalso.
    assert (Hmem : In other (rescheduleConflicts booking bookingId date start
                               (endTimeOf start (Service.duration service)) w))
      by (apply rescheduleConflicts_spec; repeat split; try assumption;
          left; assumption).
    rewrite Hc in Hmem. exact Hmem.
  - cbn [List.length]. lia.
Qed.

(** C1 fails on the code in both directions. Moving the 10:00 visit to
    16:00-17:00, which overlaps no other reservation, is refused with
    TIME_SLOT_CONFLICT because of the 14:00-15:00 visit; moving it to
    14:00-15:00 while a 14:15-14:45 visit exists is accepted. *)
Theorem reschedule_conflict_query_is_not_the_overlap_test :
  ~ overlaps 960 1020 afternoonVisit
  /\ rescheduleBooking "client-1" "b-1" "2025-03-03" (Some 960)
                       (worldWith [morningVisit; afternoonVisit])
     = (Throw (mkAppError 409 "TIME_SLOT_CONFLICT"),
        worldWith [morningVisit; afternoonVisit])
  /\ overlaps 840 900 shortVisit
  /\ exists moved w',
       rescheduleBooking "client-1" "b-1" "2025-03-03" (Some 840)
                         (worldWith [morningVisit; shortVisit]) = (Ok moved, w')
       /\ Booking.start_time moved = 840 /\ Booking.end_time moved = 900
       /\ In shortVisit (bookings w').
Proof.
  split; [|split; [|split]].
  - unfold overlaps. cbn. lia.
  - vm_compute. reflexivity.
  - unfold overlaps. cbn. lia.
  - eexists. eexists. split; [vm_compute; reflexivity|].
    split; [reflexivity|]. split; [reflexivity|].
    right. left. reflexivity.
Qed.

(* ================================================================== *)
(** * The scope of the conflict check at creation (C3) *)
(* ================================================================== *)

(** A live row of the salon on the requested date that overlaps the
    requested interval blocks the creation, whichever staff the row and
    the request name. *)
Lemma overlapping_row_blocks_creation rowVisible gen_random_uuid user body start service w b :
  creatable gen_random_uuid user body start service w ->
  In b (bookings w) ->
  rowVisible user b = true ->
  Booking.salon_id b = CreateBookingBody.salon_id body ->
  Booking.appointment_date b = CreateBookingBody.appointment_date body ->
  Booking.status b <> "cancelled" ->
  overlaps start (endTimeOf start (Service.duration service)) b ->
  createBooking rowVisible gen_random_uuid user body w
  = (Throw (mkAppError 409 "TIME_SLOT_CONFLICT"), w).
Proof.
  intros [Hs H1 H2 H3 Hsvc Hsal [salon Hsalon] _ _] Hin Hvis Hsid Hdate Hst [Hlt Hgt].
  unfold createBooking. rewrite Hs.
  rewrite run_throwIf_false by (rewrite H1, H2, H3; reflexivity).
  rewrite run_read, Hsvc, run_found.
  rewrite run_throwIf_false by (rewrite Hsal, String.eqb_refl; reflexivity).
  rewrite run_read, Hsalon, run_found, run_read.
  rewrite run_throwIf_true; [reflexivity|].
  apply Z.ltb_lt.
  destruct (creationConflicts rowVisible user _ _ start _ w) as [|c cs] eqn:Hc.
  - exfalso.
    assert (Hb : In b (creationConflicts rowVisible user (CreateBookingBody.salon_id body)
                         (CreateBookingBody.appointment_date body) start
                         (endTimeOf start (Service.duration service)) w))
      by (apply creationConflicts_spec; repeat split; assumption).
    rewrite Hc in Hb. exact Hb.
  - cbn [List.length]. lia.
Qed.

(** C3 fails on the code. With a 10:00-11:00 visit booked for staff A,
    the availability listing for staff B offers 10:00-11:00, yet the
    creation request for staff B at 10:00 is refused with
    TIME_SLOT_CONFLICT: the conflict check of [createBooking] covers the
    whole salon whatever staff is requested. *)
Theorem creation_conflict_ignores_the_requested_staff :
  Booking.staff_id visitWithStaffA <> "staff-B"
  /\ (exists slots,
        getAvailableSlots everyRow noon "client-2" "salon-1" "svc-cut" "2025-03-03" "staff-B"
                          (worldWith [visitWithStaffA])
        = (Ok slots, worldWith [visitWithStaffA])
        /\ In (mkRange "10:00" "11:00") slots)
  /\ createBooking everyRow uuidOf "client-2" (request "svc-cut" "staff-B" 600)
                   (worldWith [visitWithStaffA])
     = (Throw (mkAppError 409 "TIME_SLOT_CONFLICT"), worldWith [visitWithStaffA]).
Proof.
  split; [discriminate|]. split.
  - eexists. split; [vm_compute; reflexivity|].
    do 4 right. left. reflexivity.
  - vm_compute. reflexivity.
Qed.

(* ================================================================== *)
(** * Where the end time comes from (C6) *)
(* ================================================================== *)

Lemma endTimeOf_same_day start duration :
  0 <= start + duration < dayMinutes ->
  endTimeOf start duration = start + duration.
Proof. intros H. unfold endTimeOf. apply Z.mod_small. exact H. Qed.

Lemma updateService_keeps_bookings salonId serviceId name duration w result w' :
  updateService salonId serviceId name duration w = (result, w') ->
  bookings w' = bookings w.
Proof.
  unfold updateService. intros Hrun.
  destruct (absent salonId);
    [rewrite run_throwIf_true in Hrun by reflexivity; injection Hrun as <- <-; reflexivity
    |rewrite run_throwIf_false in Hrun by reflexivity].
  rewrite run_read in Hrun.
  destruct (single _) as [service|];
    [rewrite run_found in Hrun
    |rewrite run_missing in Hrun; injection Hrun as <- <-; reflexivity].
  rewrite run_write in Hrun. cbn in Hrun. injection Hrun as <- <-. reflexivity.
Qed.

Lemma rescheduleBooking_Ok_inv user bookingId date newStart w moved w' :
  rescheduleBooking user bookingId date newStart w = (Ok moved, w') ->
  exists start booking service,
    newStart = Some start
    /\ bookingById bookingId w = Some booking
    /\ serviceById (Booking.service_id booking) w = Some service
    /\ rescheduleConflicts booking bookingId date start
                           (endTimeOf start (Service.duration service)) w = []
    /\ bookingById bookingId w' = Some moved
    /\ Booking.id moved = Booking.id booking
    /\ Booking.appointment_date moved = date
    /\ Booking.start_time moved = start
    /\ Booking.end_time moved = endTimeOf start (Service.duration service)
    /\ Booking.status moved = "pending".
Proof.
  unfold rescheduleBooking. intros Hrun.
  destruct newStart as [start|]; [|discriminate Hrun].
  destruct (absent date);
    [rewrite run_throwIf_true in Hrun by reflexivity; discriminate Hrun
    |rewrite run_throwIf_false in Hrun by reflexivity].
  rewrite run_read in Hrun.
  destruct (bookingById bookingId w) as [booking|] eqn:Hb;
    [rewrite run_found in Hrun | rewrite run_missing in Hrun; discriminate Hrun].
  repeat
    match type of Hrun with
    | bind (throwIf ?c _ _) _ _ = _ =>
        destruct c;
        [rewrite run_throwIf_true in Hrun by reflexivity; discriminate Hrun
        |rewrite run_throwIf_false in Hrun by reflexivity]
    end.
  rewrite run_read in Hrun.
  destruct (serviceById (Booking.service_id booking) w) as [service|] eqn:Hsvc;
    [rewrite run_found in Hrun | rewrite run_missing in Hrun; discriminate Hrun].
  rewrite run_read in Hrun.
  destruct (rescheduleConflicts booking bookingId date start _ w) as [|c cs] eqn:Hfree;
    [rewrite run_throwIf_false in Hrun by reflexivity
    |rewrite run_throwIf_true in Hrun
       by (apply Z.ltb_lt; cbn [List.length]; lia);
     discriminate Hrun].
  rewrite run_write, run_read in Hrun.
  rewrite bookingById_updateBooking in Hrun by reflexivity.
  rewrite Hb in Hrun. cbn [option_map] in Hrun.
  rewrite run_found, run_emit in Hrun. cbn in Hrun. injection Hrun as <- <-.
  exists start, booking, service.
  split; [reflexivity|]. split; [reflexivity|]. split; [exact Hsvc|].
  split; [exact Hfree|]. split.
  - change (bookingById bookingId (add_event ?v ?e)) with (bookingById bookingId v).
    rewrite bookingById_updateBooking by reflexivity. rewrite Hb. reflexivity.
  - repeat split.
Qed.

(** C6, as the code has it. A reservation stores its own end time. At
    creation it is the start time plus the duration the service has at
    that moment, as a time of day (equal to start plus duration when
    that stays within the day). A later change of the service's duration
    leaves every stored reservation as it was. A reschedule recomputes
    the end time from the new start time and the duration the service
    has at the time of the reschedule. *)
Theorem end_time_follows_the_duration_at_write_time :
  forall (rowVisible : string -> Booking.t -> bool) (gen_random_uuid : nat -> string),
    (forall user body w row w',
        createBooking rowVisible gen_random_uuid user body w = (Ok row, w') ->
        exists start service,
          CreateBookingBody.start_time body = Some start
          /\ serviceById (CreateBookingBody.service_id body) w = Some service
          /\ In row (bookings w')
          /\ Booking.start_time row = start
          /\ Booking.end_time row = endTimeOf start (Service.duration service)
          /\ (0 <= start + Service.duration service < dayMinutes ->
              Booking.end_time row = Booking.start_time row + Service.duration service))
    /\ (forall salonId serviceId name duration w result w',
          updateService salonId serviceId name duration w = (result, w') ->
          bookings w' = bookings w)
    /\ (forall user bookingId date newStart w moved w',
          rescheduleBooking user bookingId date newStart w = (Ok moved, w') ->
          exists start booking service,
            newStart = Some start
            /\ bookingById bookingId w = Some booking
            /\ serviceById (Booking.service_id booking) w = Some service
            /\ bookingById bookingId w' = Some moved
            /\ Booking.start_time moved = start
            /\ Booking.end_time moved = endTimeOf start (Service.duration service)).
Proof.
  intros rowVisible gen. split; [|split].
  - intros user body w row w' Hrun.
    destruct (createBooking_Ok_inv rowVisible gen user body w row w' Hrun)
      as (start & service & Hs & Hsvc & _ & Hrow & Hw).
    exists start, service. split; [exact Hs|]. split; [exact Hsvc|].
    subst row w'. split.
    + cbn. apply in_or_app. right. left. reflexivity.
    + split; [reflexivity|]. split; [reflexivity|].
      intros Hday. cbn. apply endTimeOf_same_day, Hday.
  - exact updateService_keeps_bookings.
  - intros user bookingId date newStart w moved w' Hrun.
    destruct (rescheduleBooking_Ok_inv user bookingId date newStart w moved w' Hrun)
      as (start & booking & service & H1 & H2 & H3 & _ & H5 & _ & _ & H8 & H9 & _).
    exists start, booking, service. repeat split; assumption.
Qed.

Lemma end_time_follows_the_duration_at_write_time_witness :
  (exists row w1,
      createBooking everyRow uuidOf "client-1" (request "svc-cut" "" 600) (worldWith [])
      = (Ok row, w1)
      /\ Booking.start_time row = 600 /\ Booking.end_time row = 660)
  /\ bookings (snd (updateService "salon-1" "svc-cut" None (Some 30)
                                  (worldWith [morningVisit])))
     = [morningVisit]
  /\ (exists moved w3,
        rescheduleBooking "client-1" "b-1" "2025-03-04" (Some 720) (worldWith [morningVisit])
        = (Ok moved, w3)
        /\ Booking.start_time moved = 720 /\ Booking.end_time moved = 780).
Proof.
  destruct (end_time_follows_the_duration_at_write_time everyRow uuidOf)
    as (Hcreate & Hservice & Hmove).
  split; [|split].
  - destruct (createBooking everyRow uuidOf "client-1" (request "svc-cut" "" 600)
                            (worldWith [])) as [[row|e] w1] eqn:Hrun;
      [|vm_compute in Hrun; discriminate Hrun].
    destruct (Hcreate _ _ _ _ _ Hrun) as (start & service & Hs & Hsvc & _ & H1 & H2 & _).
    injection Hs as <-. vm_compute in Hsvc. injection Hsvc as <-.
    exists row, w1. split; [reflexivity|]. split; [exact H1 | exact H2].
  - destruct (updateService "salon-1" "svc-cut" None (Some 30) (worldWith [morningVisit]))
      as [result w2] eqn:Hrun.
    exact (Hservice _ _ _ _ _ _ _ Hrun).
  - destruct (rescheduleBooking "client-1" "b-1" "2025-03-04" (Some 720)
                                (worldWith [morningVisit])) as [[moved|e] w3] eqn:Hrun;
      [|vm_compute in Hrun; discriminate Hrun].
    destruct (Hmove _ _ _ _ _ _ _ Hrun)
      as (start & booking & service & Hs & Hb & Hsvc & _ & H1 & H2).
    injection Hs as <-. vm_compute in Hb. injection Hb as <-.
    vm_compute in Hsvc. injection Hsvc as <-.
    exists moved, w3. split; [reflexivity|]. split; [exact H1 | exact H2].
Defined.

(** C6 as stated fails: a visit created with a 60-minute service is
    rescheduled after the service was shortened to 30 minutes, and its
    interval becomes 30 minutes long. *)
Lemma reschedule_uses_the_changed_duration :
  exists row w1 changed w2 moved w3,
    createBooking everyRow uuidOf "client-1" (request "svc-cut" "" 600) (worldWith [])
    = (Ok row, w1)
    /\ Booking.end_time row - Booking.start_time row = 60
    /\ updateService "salon-1" "svc-cut" None (Some 30) w1 = (Ok changed, w2)
    /\ rescheduleBooking "client-1" (Booking.id row) "2025-03-04" (Some 720) w2
       = (Ok moved, w3)
    /\ Booking.id moved = Booking.id row
    /\ Booking.end_time moved - Booking.start_time moved = 30.
Proof.
  eexists. eexists. eexists. eexists. eexists. eexists.
  split; [vm_compute; reflexivity|].
  split; [reflexivity|].
  split; [vm_compute; reflexivity|].
  split; [vm_compute; reflexivity|].
  split; reflexivity.
Qed.

(* ================================================================== *)
(** * The rating summary (C10) *)
(* ================================================================== *)

(** On the averages of up to 40 ratings, [Float64.div] is the binary64
    quotient of the Standard Library's specification of floating-point
    arithmetic. *)
Lemma div_agrees_with_SpecFloat :
  forallb (fun sc => Float64.sameValue (Float64.div (fst sc) (snd sc))
                                       (Float64.divBySpecFloat (fst sc) (snd sc)))
          (Float64.averagesUpTo 40) = true.
Proof. vm_compute. reflexivity. Qed.

(** The exponent of an average of ratings between 1 and 5. *)
Lemma div_exponent s c :
  0 < c -> c <= s -> s <= 5 * c ->
  -53 <= snd (Float64.div s c) <= -50.
Proof.
  intros Hc Hlo Hhi. unfold Float64.div. cbn [snd].
  assert (Hs : 0 < s) by lia.
  pose proof (Z.log2_spec s Hs) as [Ha1 Ha2].
  pose proof (Z.log2_spec c Hc) as [Hb1 Hb2].
  pose proof (Z.log2_nonneg s) as Ha0. pose proof (Z.log2_nonneg c) as Hb0.
  set (a := Z.log2 s) in *. set (b := Z.log2 c) in *.
  rewrite Z.pow_succ_r in Ha2, Hb2 by assumption.
  assert (Hab : b <= a) by (apply Z.log2_le_mono; lia).
  assert (Hpow : 2 ^ a = 2 ^ (a - b) * 2 ^ b)
    by (rewrite <- Z.pow_add_r by lia; f_equal; lia).
  assert (Hpb : 0 < 2 ^ b) by (apply Z.pow_pos_nonneg; lia).
  assert (Hd : a - b <= 3).
  { destruct (Z.le_gt_cases (a - b) 3) as [H|H]; [exact H|]. exfalso.
    assert (2 ^ 4 <= 2 ^ (a - b)) by (apply Z.pow_le_mono_r; lia).
    change (2 ^ 4) with 16 in H0. nia. }
  destruct (Z.ltb_spec (s * 2 ^ b) (c * 2 ^ a)) as [Hlt|Hge].
  - lia.
  - assert (a - b <> 3).
    { intros E. rewrite E in Hpow. change (2 ^ 3) with 8 in Hpow. nia. }
    lia.
Qed.

(** The mantissa is the scaled quotient rounded to a nearest integer. *)
Lemma div_mantissa s c :
  0 < c -> 0 < s -> snd (Float64.div s c) <= 0 ->
  let (m, e) := Float64.div s c in
  2 * Z.abs (m * c - s * 2 ^ (- e)) <= c.
Proof.
  intros Hc Hs. unfold Float64.div. cbn [snd].
  set (e := Z.log2 s - Z.log2 c - 52 - _). intros He.
  rewrite (Z.max_r 0 (- e)) by lia. rewrite (Z.max_l 0 e) by lia.
  rewrite Z.pow_0_r, Z.mul_1_r.
  set (N := s * 2 ^ (- e)).
  pose proof (Z.div_mod N c ltac:(lia)) as Hdm.
  pose proof (Z.mod_pos_bound N c Hc) as Hr.
  set (q := N / c) in *. set (r := N mod c) in *.
  destruct (Z.ltb_spec (2 * r) c); [lia|].
  destruct (Z.ltb_spec c (2 * r)); [lia|].
  destruct (Z.even q); lia.
Qed.

Lemma toFixed2_bounds m e :
  e < 0 ->
  let n := Float64.toFixed2 (m, e) in
  2 * 2 ^ (- e) * n <= 200 * m + 2 ^ (- e) < 2 * 2 ^ (- e) * n + 2 * 2 ^ (- e).
Proof.
  intros He. unfold Float64.toFixed2.
  apply Z.ltb_lt in He. rewrite He. apply Z.ltb_lt in He.
  rewrite Z.pow_add_r by lia. rewrite Z.pow_1_r.
  assert (HP : 0 < 2 ^ (- e)) by (apply Z.pow_pos_nonneg; lia).
  set (P := 2 ^ (- e)) in *.
  pose proof (Z.div_mod (200 * m + P) (P * 2) ltac:(lia)) as Hdm.
  pose proof (Z.mod_pos_bound (200 * m + P) (P * 2) ltac:(lia)) as Hr.
  cbv zeta. lia.
Qed.

Lemma rounded_positive_average s c :
  0 < c -> c <= s -> s <= 5 * c -> c <= 10 ^ 13 ->
  nearestHundredth s c (roundedAverage s c).
Proof.
  intros Hc Hlo Hhi Hbig.
  unfold roundedAverage. destruct s as [|p|p]; try lia.
  set (s := Z.pos p) in *.
  pose proof (div_exponent s c Hc Hlo Hhi) as He.
  pose proof (div_mantissa s c Hc ltac:(lia) ltac:(lia)) as Hm.
  destruct (Float64.div s c) as [m e] eqn:Hdiv. cbn [snd] in He.
  pose proof (toFixed2_bounds m e ltac:(lia)) as Hn. cbv zeta in Hn.
  set (n := Float64.toFixed2 (m, e)) in *.
  assert (HP : 2 ^ 50 <= 2 ^ (- e)) by (apply Z.pow_le_mono_r; lia).
  set (P := 2 ^ (- e)) in *.
  assert (Hc100 : 100 * c < P).
  { apply Z.lt_le_trans with (2 ^ 50); [|exact HP].
    change (10 ^ 13) with 10000000000000 in Hbig.
    change (2 ^ 50) with 1125899906842624. lia. }
  unfold nearestHundredth.
  assert (Hm' : - c <= 2 * (m * c - s * P) <= c) by lia.
  destruct Hm' as [Hm1 Hm2]. destruct Hn as [Hn1 Hn2].
  cut (- c <= 2 * (100 * s - n * c) <= c); [lia|]. split.
  - destruct (Z.le_gt_cases (- c) (2 * (100 * s - n * c))) as [H|H]; [lia|exfalso].
    assert (H1 : 1 <= (2 * n - 1) * c - 200 * s) by lia.
    assert (H2 : P * ((2 * n - 1) * c) <= 200 * (m * c)) by nia.
    assert (H3 : 200 * (m * c) <= 200 * (s * P) + 100 * c) by lia.
    assert (H4 : P * 1 <= P * ((2 * n - 1) * c - 200 * s))
      by (apply Z.mul_le_mono_nonneg_l; lia).
    nia.
  - destruct (Z.le_gt_cases (2 * (100 * s - n * c)) c) as [H|H]; [lia|exfalso].
    assert (H1 : 1 <= 200 * s - (2 * n + 1) * c) by lia.
    assert (H2 : 200 * (m * c) < P * ((2 * n + 1) * c)) by nia.
    assert (H3 : 200 * (s * P) - 100 * c <= 200 * (m * c)) by lia.
    assert (H4 : P * 1 <= P * (200 * s - (2 * n + 1) * c))
      by (apply Z.mul_le_mono_nonneg_l; lia).
    nia.
Qed.

Lemma fold_left_add_shift (l : list Z) (acc : Z) :
  fold_left Z.add l acc = acc + fold_left Z.add l 0.
Proof.
  revert acc. induction l as [|x l IH]; intros acc; cbn; [lia|].
  rewrite (IH (acc + x)), (IH x). lia.
Qed.

Lemma sumRatings_bounds (ratings : list Z) :
  (forall r, In r ratings -> 1 <= r <= 5) ->
  Z.of_nat (List.length ratings) <= sumRatings ratings <= 5 * Z.of_nat (List.length ratings).
Proof.
  unfold sumRatings. induction ratings as [|x l IH]; intros Hall; [cbn; lia|].
  cbn [fold_left List.length]. rewrite fold_left_add_shift, Nat2Z.inj_succ.
  assert (1 <= x <= 5) by (apply Hall; left; reflexivity).
  assert (Hl : forall r, In r l -> 1 <= r <= 5) by (intros r Hr; apply Hall; right; exact Hr).
  specialize (IH Hl). lia.
Qed.

Lemma ratingSummary_count ratings :
  snd (ratingSummary ratings) = Z.of_nat (List.length ratings).
Proof.
  unfold ratingSummary. destruct ratings as [|x l]; [reflexivity|].
  cbn [List.length]. rewrite Nat2Z.inj_succ.
  destruct (Z.ltb_spec 0 (Z.succ (Z.of_nat (List.length l)))); [reflexivity | lia].
Qed.

Lemma ratingSummary_nearest ratings :
  ratings <> [] ->
  (forall r, In r ratings -> 1 <= r <= 5) ->
  Z.of_nat (List.length ratings) <= 10 ^ 13 ->
  nearestHundredth (sumRatings ratings) (Z.of_nat (List.length ratings))
                   (fst (ratingSummary ratings)).
Proof.
  intros Hne Hall Hbig. pose proof (sumRatings_bounds ratings Hall) as [Hlo Hhi].
  assert (Hpos : 0 < Z.of_nat (List.length ratings))
    by (destruct ratings; [contradiction | cbn [List.length]; lia]).
  unfold ratingSummary. apply Z.ltb_lt in Hpos. rewrite Hpos. apply Z.ltb_lt in Hpos.
  cbn [fst]. apply rounded_positive_average; assumption.
Qed.

Lemma summaryStored_add_event salonId w e :
  summaryStored salonId w -> summaryStored salonId (add_event w e).
Proof. intros H. exact H. Qed.

Lemma _updateSalonRating_run salonId w :
  exists w',
    _updateSalonRating salonId w = (Ok tt, w')
    /\ reviews w' = reviews w
    /\ bookings w' = bookings w
    /\ events w' = events w
    /\ summaryStored salonId w'.
Proof.
  unfold _updateSalonRating. rewrite run_read.
  destruct (ratingSummary (visibleRatings salonId w)) as [average reviewCount] eqn:Hsum.
  eexists. split; [reflexivity|]. split; [reflexivity|]. split; [reflexivity|].
  split; [reflexivity|].
  intros s Hs Hid. cbn [salons set_salons] in Hs.
  apply in_map_iff in Hs. destruct Hs as (s0 & Hs0 & _).
  change (visibleRatings salonId (set_salons w ?l)) with (visibleRatings salonId w).
  rewrite Hsum.
  destruct (String.eqb_spec (Salon.id s0) salonId) as [Heq|Hneq].
  - subst s. reflexivity.
  - subst s. contradiction.
Qed.

Section ReviewWrites.

Variable gen_random_uuid : nat -> string.

Lemma createReview_Ok now user body w review w' :
  createReview gen_random_uuid now user body w = (Ok review, w') ->
  summaryStored (CreateReviewBody.salon_id body) w'
  /\ reviews w' = reviews w ++ [review]
  /\ Review.salon_id review = CreateReviewBody.salon_id body
  /\ Review.rating review = CreateReviewBody.rating body
  /\ Review.is_visible review = true
  /\ 1 <= CreateReviewBody.rating body <= 5.
Proof.
  unfold createReview. intros Hrun.
  peel Hrun. peel Hrest. rename Hstep0 into Hrange.
  apply bind_Ok_inv in Hrest0. destruct Hrest0 as (u & w1 & Hcheck & Hrest).
  assert (Hsame : w1 = w).
  { destruct (negb (absent (CreateReviewBody.booking_id body))).
    - peel Hcheck. peel Hrest0. peel Hrest1. peel Hrest0. peel Hrest1.
      apply throwIf_Ok_inv in Hrest0. destruct Hrest0 as [_ ->]. reflexivity.
    - peel Hcheck. apply throwIf_Ok_inv in Hrest0. destruct Hrest0 as [_ ->]. reflexivity. }
  subst w1. clear Hcheck.
  apply bind_Ok_inv in Hrest. destruct Hrest as (inserted & w2 & Hins & Hrest).
  peel Hrest. rename Hstep0 into Hsome.
  apply bind_Ok_inv in Hrest0. destruct Hrest0 as ([] & w3 & Hupd & Hrest).
  peel Hrest. apply ret_inv in Hrest0. destruct Hrest0 as [Hret ->]. injection Hret as ->.
  unfold insertReview in Hins.
  destruct (existsb _ (reviews w)); injection Hins as <- <-; [discriminate Hsome|].
  injection Hsome as <-.
  destruct (_updateSalonRating_run (CreateReviewBody.salon_id body)
              (bump_generated (set_reviews w (reviews w ++
                 [Review.mk (gen_random_uuid (generated w)) user
                    (CreateReviewBody.salon_id body) (CreateReviewBody.booking_id body)
                    (CreateReviewBody.rating body) true]))))
    as (w4 & Hrun4 & Hrev & _ & _ & Hstored).
  rewrite Hrun4 in Hupd. injection Hupd as <-.
  split; [exact Hstored|]. split; [exact Hrev|].
  split; [reflexivity|]. split; [reflexivity|]. split; [reflexivity|].
  apply orb_false_iff in Hrange. destruct Hrange as [H1 H2].
  apply Z.ltb_ge in H1. rewrite Z.gtb_ltb in H2. apply Z.ltb_ge in H2. lia.
Qed.

End ReviewWrites.

Lemma single_singleton {A} (rows : list A) (r : A) : single rows = Some r -> rows = [r].
Proof. destruct rows as [|x [|y rest]]; cbn; intros H; inversion H. reflexivity. Qed.

Lemma updateReview_Ok user reviewId rating w review w' :
  updateReview user reviewId rating w = (Ok review, w') ->
  exists existing,
    In existing (reviews w)
    /\ Review.id existing = reviewId
    /\ Review.client_id existing = user
    /\ Review.salon_id review = Review.salon_id existing
    /\ Review.rating review
       = match rating with Some v => v | None => Review.rating existing end
    /\ In review (reviews w')
    /\ summaryStored (Review.salon_id existing) w'.
Proof.
  unfold updateReview. intros Hrun.
  peel Hrun. peel Hrest. peel Hrest0. peel Hrest. peel Hrest0. peel Hrest. peel Hrest0.
  apply bind_Ok_inv in Hrest. destruct Hrest as ([] & w3 & Hupd & Hrest).
  apply ret_inv in Hrest. destruct Hrest as [Hret ->]. injection Hret as Hret.
  subst review v0 v3. rename v1 into existing. rename v4 into target.
  pose proof (single_filter _ _ _ Hstep1) as [Hin Hprop].
  apply andb_true_iff in Hprop. destruct Hprop as [Hid Hclient].
  apply String.eqb_eq in Hid. apply String.eqb_eq in Hclient.
  assert (Htarget : target = existing).
  { apply single_singleton in Hstep4.
    assert (Hmem : In existing (filter (fun r => String.eqb (Review.id r) reviewId)
                                       (reviews w)))
      by (apply filter_In; split; [exact Hin | apply String.eqb_eq; exact Hid]).
    rewrite Hstep4 in Hmem. destruct Hmem as [<-|[]]. reflexivity. }
  subst target.
  match type of Hupd with
  | _updateSalonRating ?sid ?v = _ =>
      destruct (_updateSalonRating_run sid v) as (w4 & Hrun4 & Hrev & _ & _ & Hstored)
  end.
  rewrite Hrun4 in Hupd. injection Hupd as <-.
  exists existing. split; [exact Hin|]. split; [exact Hid|]. split; [exact Hclient|].
  split; [reflexivity|]. split; [reflexivity|]. split; [|exact Hstored].
  rewrite Hrev. cbn [reviews set_reviews].
  apply in_map_iff. exists existing. split; [|exact Hin].
  rewrite Hid, String.eqb_refl. reflexivity.
Qed.

Lemma deleteReview_Ok user reviewId w w' :
  deleteReview user reviewId w = (Ok tt, w') ->
  exists existing,
    In existing (reviews w)
    /\ Review.id existing = reviewId
    /\ Review.client_id existing = user
    /\ (forall r, In r (reviews w') -> Review.id r = reviewId -> Review.is_visible r = false)
    /\ summaryStored (Review.salon_id existing) w'.
Proof.
  unfold deleteReview. intros Hrun.
  peel Hrun. peel Hrest. peel Hrest0. peel Hrest.
  subst v0. rename v1 into existing.
  pose proof (single_filter _ _ _ Hstep1) as [Hin Hprop].
  apply andb_true_iff in Hprop. destruct Hprop as [Hid Hclient].
  apply String.eqb_eq in Hid. apply String.eqb_eq in Hclient.
  match type of Hrest0 with
  | _updateSalonRating ?sid ?v = _ =>
      destruct (_updateSalonRating_run sid v) as (w4 & Hrun4 & Hrev & _ & _ & Hstored)
  end.
  rewrite Hrun4 in Hrest0. injection Hrest0 as <-.
  exists existing. split; [exact Hin|]. split; [exact Hid|]. split; [exact Hclient|].
  split; [|exact Hstored].
  intros r Hr Hrid. rewrite Hrev in Hr. cbn [reviews set_reviews] in Hr.
  apply in_map_iff in Hr. destruct Hr as (r0 & Hr0 & _).
  destruct (String.eqb_spec (Review.id r0) reviewId) as [Heq|Hneq].
  - subst r. reflexivity.
  - subst r. contradiction.
Qed.

(** When an update and a soft delete go through. *)
Lemma updateReview_succeeds user reviewId rating w existing :
  absent reviewId = false ->
  ownReview user reviewId w = Some existing ->
  reviewById reviewId w = Some existing ->
  match rating with Some r => 1 <= r <= 5 | None => True end ->
  exists review w', updateReview user reviewId rating w = (Ok review, w').
Proof.
  unfold ownReview, reviewById, updateReview. intros Hid Hown Hrow Hvalid.
  rewrite run_throwIf_false by exact Hid.
  rewrite run_read, Hown, run_found.
  rewrite run_throwIf_false.
  2:{ destruct rating as [r|]; [|reflexivity].
      apply orb_false_iff. split; [apply Z.ltb_ge; lia|].
      rewrite Z.gtb_ltb. apply Z.ltb_ge. lia. }
  rewrite run_read, Hrow, run_found, run_write.
  match goal with
  | |- exists _ _, bind (_updateSalonRating ?sid) _ ?v = _ =>
      destruct (_updateSalonRating_run sid v) as (w4 & Hrun4 & _)
  end.
  unfold bind at 1. rewrite Hrun4. eexists. eexists. reflexivity.
Qed.

Lemma deleteReview_succeeds user reviewId w existing :
  absent reviewId = false ->
  ownReview user reviewId w = Some existing ->
  exists w', deleteReview user reviewId w = (Ok tt, w').
Proof.
  unfold ownReview, deleteReview. intros Hid Hown.
  rewrite run_throwIf_false by exact Hid.
  rewrite run_read, Hown, run_found, run_write.
  match goal with
  | |- exists _, _updateSalonRating ?sid ?v = _ =>
      destruct (_updateSalonRating_run sid v) as (w4 & Hrun4 & _)
  end.
  exists w4. exact Hrun4.
Qed.

(** C10, as the code has it. After every successful create, update or
    soft delete of a review, the rating summary stored for its salon is
    the recompute over the salon's visible reviews; an update of the
    caller's own review with no rating or a rating from 1 to 5, and a
    soft delete of the caller's own review, are successful. The count is
    the number of visible reviews, and the summary is 0 and 0 when there
    are none. The average is the binary64 quotient of sum and count
    written with two decimals: for ratings from 1 to 5 and at most 10^13
    reviews it is a hundredth nearest to sum / count, and on a tie
    between two hundredths the direction follows the binary64 value
    (43/40 gives 1.07, 9/8 gives 1.13). For the ratings 5, 4, 3, 5, 2
    the summary is 3.80 and 5. *)
Theorem rating_summary_is_the_full_recompute :
  forall (gen_random_uuid : nat -> string) (now : Clock) (user : string)
         (body : CreateReviewBody.t) (reviewId : string) (rating : option Z) (w : World),
    (forall review w',
        createReview gen_random_uuid now user body w = (Ok review, w') ->
        Review.salon_id review = CreateReviewBody.salon_id body
        /\ In review (reviews w')
        /\ summaryStored (Review.salon_id review) w')
    /\ (forall review w',
          updateReview user reviewId rating w = (Ok review, w') ->
          Review.id review = reviewId
          /\ In review (reviews w')
          /\ summaryStored (Review.salon_id review) w')
    /\ (forall w',
          deleteReview user reviewId w = (Ok tt, w') ->
          exists existing,
            In existing (reviews w)
            /\ Review.id existing = reviewId
            /\ (forall r, In r (reviews w') -> Review.id r = reviewId ->
                          Review.is_visible r = false)
            /\ summaryStored (Review.salon_id existing) w')
    /\ (forall existing,
          absent reviewId = false ->
          ownReview user reviewId w = Some existing ->
          reviewById reviewId w = Some existing ->
          match rating with Some r => 1 <= r <= 5 | None => True end ->
          exists review w', updateReview user reviewId rating w = (Ok review, w'))
    /\ (forall existing,
          absent reviewId = false ->
          ownReview user reviewId w = Some existing ->
          exists w', deleteReview user reviewId w = (Ok tt, w'))
    /\ (forall ratings,
          snd (ratingSummary ratings) = Z.of_nat (List.length ratings))
    /\ ratingSummary [] = (0, 0)
    /\ (forall ratings,
          ratings <> [] ->
          (forall r, In r ratings -> 1 <= r <= 5) ->
          Z.of_nat (List.length ratings) <= 10 ^ 13 ->
          nearestHundredth (sumRatings ratings) (Z.of_nat (List.length ratings))
                           (fst (ratingSummary ratings)))
    /\ roundedAverage 43 40 = 107
    /\ roundedAverage 9 8 = 113
    /\ ratingSummary [5; 4; 3; 5; 2] = (380, 5).
Proof.
  intros gen now user body reviewId rating w.
  split; [|split; [|split; [|split; [|split; [|split; [|split; [|split;
    [|split; [|split]]]]]]]]].
  - intros review w' Hrun.
    destruct (createReview_Ok gen now user body w review w' Hrun)
      as (Hstored & Hrev & Hsalon & _).
    split; [exact Hsalon|]. split.
    + rewrite Hrev. apply in_or_app. right. left. reflexivity.
    + rewrite Hsalon. exact Hstored.
  - intros review w' Hrun.
    destruct (updateReview_Ok user reviewId rating w review w' Hrun)
      as (existing & _ & Hid & _ & Hsalon & _ & Hin & Hstored).
    split; [|split; [exact Hin | rewrite Hsalon; exact Hstored]].
    unfold updateReview in Hrun.
    peel Hrun. peel Hrest. peel Hrest0. peel Hrest. peel Hrest0. peel Hrest. peel Hrest0.
    apply bind_Ok_inv in Hrest. destruct Hrest as ([] & w3 & _ & Hrest).
    apply ret_inv in Hrest. destruct Hrest as [Hret _]. injection Hret as Hret.
    subst review v3. apply single_filter in Hstep4. destruct Hstep4 as [_ Hkey].
    apply String.eqb_eq in Hkey. exact Hkey.
  - intros w' Hrun.
    destruct (deleteReview_Ok user reviewId w w' Hrun)
      as (existing & Hin & Hid & _ & Hhidden & Hstored).
    exists existing. repeat split; assumption.
  - intros existing. apply updateReview_succeeds.
  - intros existing. apply deleteReview_succeeds.
  - exact ratingSummary_count.
  - reflexivity.
  - exact ratingSummary_nearest.
  - vm_compute. reflexivity.
  - vm_compute. reflexivity.
  - vm_compute. reflexivity.
Qed.

(** In the reviewed example salon: a fifth visible review with two
    stars, the review r-2 changed from four stars to two, and the
    review r-3 soft-deleted. *)
Lemma rating_summary_is_the_full_recompute_witness :
  (exists review w',
      createReview uuidOf noon "client-1" (CreateReviewBody.mk "salon-1" "" 2) reviewedWorld
      = (Ok review, w')
      /\ visibleRatings "salon-1" w' = [5; 4; 3; 5; 2]
      /\ summaryStored "salon-1" w'
      /\ option_map (fun s => (Salon.rating_average s, Salon.rating_count s))
                    (salonById "salon-1" w') = Some (380, 5))
  /\ (exists review w',
        updateReview "client-1" "r-2" (Some 2) reviewedWorld = (Ok review, w')
        /\ visibleRatings "salon-1" w' = [5; 2; 3; 5]
        /\ summaryStored "salon-1" w'
        /\ option_map (fun s => (Salon.rating_average s, Salon.rating_count s))
                      (salonById "salon-1" w') = Some (375, 4))
  /\ (exists w',
        deleteReview "client-1" "r-3" reviewedWorld = (Ok tt, w')
        /\ visibleRatings "salon-1" w' = [5; 4; 5]
        /\ summaryStored "salon-1" w'
        /\ option_map (fun s => (Salon.rating_average s, Salon.rating_count s))
                      (salonById "salon-1" w') = Some (467, 3))
  /\ nearestHundredth 19 5 380.
Proof.
  split; [|split; [|split]].
  - destruct (createReview uuidOf noon "client-1" (CreateReviewBody.mk "salon-1" "" 2)
                           reviewedWorld) as [[review|e] w'] eqn:Hrun;
      [|vm_compute in Hrun; discriminate Hrun].
    destruct (rating_summary_is_the_full_recompute uuidOf noon "client-1"
                (CreateReviewBody.mk "salon-1" "" 2) "r-2" (Some 2) reviewedWorld)
      as (Hcreate & _).
    destruct (Hcreate review w' Hrun) as (Hsalon & _ & Hstored).
    cbn in Hsalon. rewrite Hsalon in Hstored.
    vm_compute in Hrun. injection Hrun as <- <-.
    eexists. eexists. split; [reflexivity|]. split; [reflexivity|].
    split; [exact Hstored | reflexivity].
  - destruct (rating_summary_is_the_full_recompute uuidOf noon "client-1"
                (CreateReviewBody.mk "salon-1" "" 2) "r-2" (Some 2) reviewedWorld)
      as (_ & Hupdate & _ & Hupdated & _).
    destruct (Hupdated (reviewOf "r-2" 4 true) eq_refl eq_refl eq_refl
                       ltac:(cbv beta iota; lia))
      as (review & w' & Hrun).
    destruct (Hupdate review w' Hrun) as (_ & _ & Hstored).
    vm_compute in Hrun. injection Hrun as <- <-.
    eexists. eexists. split; [vm_compute; reflexivity|]. split; [reflexivity|].
    split; [exact Hstored | reflexivity].
  - destruct (rating_summary_is_the_full_recompute uuidOf noon "client-1"
                (CreateReviewBody.mk "salon-1" "" 2) "r-3" None reviewedWorld)
      as (_ & _ & Hdelete & _ & Hdeleted & _).
    destruct (Hdeleted (reviewOf "r-3" 3 true) eq_refl eq_refl) as (w' & Hrun).
    destruct (Hdelete w' Hrun) as (existing & Hin & _ & _ & Hstored).
    assert (Hsalon : Review.salon_id existing = "salon-1")
      by (cbn in Hin; repeat (destruct Hin as [<-|Hin]; [reflexivity|]); contradiction).
    rewrite Hsalon in Hstored.
    vm_compute in Hrun. injection Hrun as <-.
    eexists. split; [vm_compute; reflexivity|]. split; [reflexivity|].
    split; [exact Hstored | reflexivity].
  - destruct (rating_summary_is_the_full_recompute uuidOf noon "client-1"
                (CreateReviewBody.mk "salon-1" "" 2) "r-2" (Some 2) reviewedWorld)
      as (_ & _ & _ & _ & _ & _ & _ & Hnear & _).
    apply (Hnear [5; 4; 3; 5; 2]).
    + discriminate.
    + intros r Hr. cbn in Hr. lia.
    + vm_compute. discriminate.
Defined.

(** C10 as stated fails on a tie. With thirty-seven visible one-star
    reviews and two visible two-star reviews, one more two-star review
    makes sum / count 43/40 = 1.075; the average stored is 1.07, where
    1.075 rounded to two decimals is 1.08, whether a tie goes up or to
    the even hundredth. *)
Lemma tied_average_is_not_rounded_up :
  exists review w',
    createReview uuidOf noon "client-1" (CreateReviewBody.mk "salon-1" "" 2) tiedWorld
    = (Ok review, w')
    /\ sumRatings (visibleRatings "salon-1" w') = 43
    /\ List.length (visibleRatings "salon-1" w') = 40%nat
    /\ option_map (fun s => (Salon.rating_average s, Salon.rating_count s))
                  (salonById "salon-1" w') = Some (107, 40)
    /\ roundHalfUp 43 40 = 108
    /\ roundHalfEven 43 40 = 108.
Proof.
  eexists. eexists. split; [vm_compute; reflexivity|].
  repeat split.
Qed.

(* ================================================================== *)
(** * Further properties of the code

    The properties below are read off the code itself: the slot walk in
    general, what the handlers write and what they leave alone, how
    they compose, the review handlers, the recalculation script and the
    booking statistics. *)

(* ================================================================== *)
(** * Time strings, in general *)
(* ================================================================== *)

Lemma digits_from_pos (d : Decimal.uint) :
  forall acc : positive,
    Js.digits_from (Z.pos acc) (NilEmpty.string_of_uint d)
    = Some (Z.pos (Pos.of_uint_acc d acc)).
Proof.
  induction d; intros acc; cbn [NilEmpty.string_of_uint Js.digits_from Pos.of_uint_acc];
    try reflexivity;
    (match goal with
     | |- context [Js.digit_of ?c] =>
         let v := eval vm_compute in (Js.digit_of c) in
         change (Js.digit_of c) with v
     end; cbv iota beta;
     match goal with
     | |- Js.digits_from ?z _ = _ =>
         match goal with
         | |- _ = Some (Z.pos (Pos.of_uint_acc _ ?p)) =>
             replace z with (Z.pos p) by lia
         end
     end; apply IHd).
Qed.

Lemma digits_from_zero (d : Decimal.uint) :
  Js.digits_from 0 (NilEmpty.string_of_uint d) = Some (Z.of_N (Pos.of_uint d)).
Proof.
  induction d; cbn [NilEmpty.string_of_uint Js.digits_from Pos.of_uint];
    try reflexivity;
    match goal with
    | |- context [Js.digit_of ?c] =>
        let v := eval vm_compute in (Js.digit_of c) in
        change (Js.digit_of c) with v
    end; cbv iota beta;
    first [ exact IHd | exact (digits_from_pos d _) ].
Qed.

Lemma toString_pos (p : positive) :
  Js.toString (Z.pos p) = NilEmpty.string_of_uint (Pos.to_uint p).
Proof.
  unfold Js.toString. cbn [Z.to_int NilZero.string_of_int].
  pose proof (Unsigned.to_uint_nonnil p) as Hnil.
  unfold NilZero.string_of_uint. destruct (Pos.to_uint p); [contradiction|..]; reflexivity.
Qed.

Lemma Number_toString (n : Z) : 0 <= n -> Js.Number (Js.toString n) = Some n.
Proof.
  intros Hn. destruct n as [|p|p]; [reflexivity| |lia].
  unfold Js.Number. rewrite toString_pos, digits_from_zero, Unsigned.of_to. reflexivity.
Qed.

(** The characters of a decimal numeral are digits. *)
Lemma string_of_uint_digits (d : Decimal.uint) :
  allDigits (NilEmpty.string_of_uint d) = true.
Proof. induction d; cbn; try reflexivity; exact IHd. Qed.

Lemma toString_digits (n : Z) : 0 <= n -> allDigits (Js.toString n) = true.
Proof.
  intros Hn. destruct n as [|p|p]; [reflexivity| |lia].
  rewrite toString_pos. apply string_of_uint_digits.
Qed.

Lemma padStart2_digits (s : string) :
  allDigits s = true -> allDigits (Js.padStart2 s) = true.
Proof. destruct s as [|c [|c' s]]; cbn; intros H; try exact H; reflexivity. Qed.

Lemma Number_padStart2 (s : string) (n : Z) :
  s <> EmptyString -> Js.Number s = Some n -> Js.Number (Js.padStart2 s) = Some n.
Proof.
  unfold Js.Number. destruct s as [|c [|c' s]]; intros Hne H; [contradiction| |exact H].
  exact H.
Qed.

Lemma toString_nonempty (n : Z) : Js.toString n <> EmptyString.
Proof.
  destruct n as [|p|p]; [discriminate| |discriminate].
  rewrite toString_pos. pose proof (Unsigned.to_uint_nonnil p) as Hnil.
  destruct (Pos.to_uint p); [contradiction|..]; discriminate.
Qed.

(** Splitting at a separator that the first field does not contain. *)
Lemma split_from_digits (sep : ascii) (field rest acc : string) :
  Js.digit_of sep = None ->
  allDigits field = true ->
  Js.split_from sep acc (field ++ String sep rest)
  = (acc ++ field)%string :: Js.split_from sep EmptyString rest.
Proof.
  intros Hsep. revert acc. induction field as [|c field IH]; intros acc Hfield.
  - cbn. rewrite Ascii.eqb_refl.
    replace (acc ++ "")%string with acc; [reflexivity|].
    clear. induction acc; cbn; [reflexivity | f_equal; assumption].
  - cbn in Hfield. destruct (Js.digit_of c) eqn:Hc; [|discriminate Hfield].
    cbn [String.append Js.split_from].
    destruct (Ascii.eqb_spec c sep) as [->|_]; [congruence|].
    rewrite IH by exact Hfield. f_equal.
    clear. induction acc; cbn; [reflexivity | f_equal; assumption].
Qed.

Lemma split_from_last (sep : ascii) (field acc : string) :
  Js.digit_of sep = None ->
  allDigits field = true ->
  Js.split_from sep acc field = [(acc ++ field)%string].
Proof.
  intros Hsep. revert acc. induction field as [|c field IH]; intros acc Hfield.
  - cbn. f_equal. clear. induction acc; cbn; [reflexivity | f_equal; assumption].
  - cbn in Hfield. destruct (Js.digit_of c) eqn:Hc; [|discriminate Hfield].
    cbn [Js.split_from].
    destruct (Ascii.eqb_spec c sep) as [->|_]; [congruence|].
    rewrite IH by exact Hfield. f_equal.
    clear. induction acc; cbn; [reflexivity | f_equal; assumption].
Qed.

Lemma time_text_round_trip_general (minutes : Z) :
  0 <= minutes ->
  _timeStringToMinutes (_minutesToTimeString minutes) = Some minutes.
Proof.
  intros Hm. unfold _timeStringToMinutes, _minutesToTimeString, Js.split.
  assert (Hh : 0 <= minutes / 60) by (apply Z.div_pos; lia).
  assert (Hr : 0 <= Z.rem minutes 60) by (apply Z.rem_nonneg; lia).
  cbn [String.append].
  rewrite (split_from_digits ":" _ _ EmptyString eq_refl
             (padStart2_digits _ (toString_digits _ Hh))).
  rewrite (split_from_last ":" _ EmptyString eq_refl
             (padStart2_digits _ (toString_digits _ Hr))).
  cbn [Js.nth_Number nth_error String.append].
  rewrite (Number_padStart2 _ _ (toString_nonempty _) (Number_toString _ Hh)).
  rewrite (Number_padStart2 _ _ (toString_nonempty _) (Number_toString _ Hr)).
  f_equal. rewrite Z.rem_mod_nonneg by lia.
  pose proof (Z.div_mod minutes 60 ltac:(lia)). lia.
Qed.

(** X1. A time of day written by [_minutesToTimeString] is read back by
    [_timeStringToMinutes] as the same number of minutes, for every
    non-negative number of minutes. *)
Theorem time_text_round_trip :
  forall minutes : Z,
    0 <= minutes ->
    _timeStringToMinutes (_minutesToTimeString minutes) = Some minutes.
Proof. exact time_text_round_trip_general. Qed.

Lemma time_text_round_trip_witness :
  0 <= 1439 /\ _timeStringToMinutes (_minutesToTimeString 1439) = Some 1439.
Proof. split; [lia | apply time_text_round_trip; lia]. Defined.

(* ================================================================== *)
(** * The slot walk as a filter of the grid *)
(* ================================================================== *)

Lemma gridFrom_step (start : Z) (turns : nat) :
  gridFrom start (S turns) = start :: gridFrom (start + slotInterval) turns.
Proof.
  unfold gridFrom. cbn [seq map]. rewrite Z.mul_0_l, Z.add_0_r. f_equal.
  rewrite <- seq_shift, map_map. apply map_ext. intros k. lia.
Qed.

Lemma gridFrom_In (start : Z) (turns : nat) (c : Z) :
  In c (gridFrom start turns)
  <-> exists k : nat, (k < turns)%nat /\ c = start + Z.of_nat k * slotInterval.
Proof.
  unfold gridFrom. rewrite in_map_iff. split.
  - intros (k & <- & Hk). apply in_seq in Hk. exists k. split; [lia | reflexivity].
  - intros (k & Hk & ->). exists k. split; [reflexivity | apply in_seq; lia].
Qed.

(** The loop is the grid of candidates with the conflicting ones left
    out. *)
Lemma walkSlots_filter serviceDuration endTime existingBookings (turns : nat) :
  forall start,
    turns = walkTurns start serviceDuration endTime ->
    walkSlots turns start serviceDuration endTime existingBookings
    = map (slotAt serviceDuration)
          (filter (fun c => negb (existsb (slotConflicts c serviceDuration) existingBookings))
                  (gridFrom start turns)).
Proof.
  induction turns as [|turns IH]; intros start Hturns; [reflexivity|].
  destruct (Z.leb_spec (start + serviceDuration) endTime) as [Hle|Hgt];
    [|rewrite (walkTurns_stop _ _ _ Hgt) in Hturns; discriminate Hturns].
  rewrite (walkTurns_step _ _ _ Hle) in Hturns. injection Hturns as Hturns.
  rewrite gridFrom_step. cbn [walkSlots filter].
  apply Z.leb_le in Hle. rewrite Hle. cbv zeta.
  rewrite (IH _ Hturns).
  destruct (existsb (slotConflicts start serviceDuration) existingBookings); reflexivity.
Qed.

Lemma calculate_parsed now openTime closeTime serviceDuration existingBookings
      appointmentDate opening closing :
  parsedHours openTime closeTime = Some (opening, closing) ->
  noCutoff now appointmentDate ->
  _calculateAvailableSlots now openTime closeTime serviceDuration existingBookings
                           appointmentDate
  = walkSlots (walkTurns opening serviceDuration closing)
              opening serviceDuration closing existingBookings.
Proof.
  unfold parsedHours. intros Hparse Hcut.
  destruct (Js.nth_Number 0 (Js.split ":" openTime)) as [oh|] eqn:H1; [|discriminate].
  destruct (Js.nth_Number 1 (Js.split ":" openTime)) as [om|] eqn:H2; [|discriminate].
  destruct (Js.nth_Number 0 (Js.split ":" closeTime)) as [ch|] eqn:H3; [|discriminate].
  destruct (Js.nth_Number 1 (Js.split ":" closeTime)) as [cm|] eqn:H4; [|discriminate].
  injection Hparse as <- <-.
  exact (calculate_noCutoff now openTime closeTime serviceDuration existingBookings
           appointmentDate oh om ch cm Hcut H1 H2 H3 H4).
Qed.

Lemma slotConflicts_overlaps candidate serviceDuration booked :
  slotConflicts candidate serviceDuration booked = true
  <-> overlapsRange candidate serviceDuration booked.
Proof.
  unfold slotConflicts, overlapsRange, Js.gt, Js.lt. split.
  - destruct (_timeStringToMinutes (start_time booked)) as [bs|];
      destruct (_timeStringToMinutes (end_time booked)) as [be|]; cbn;
      rewrite ?andb_false_r; try discriminate.
    rewrite andb_true_iff, !Z.ltb_lt. intros [H1 H2]. exists bs, be. tauto.
  - intros (bs & be & -> & -> & H1 & H2).
    rewrite andb_true_iff, !Z.ltb_lt. tauto.
Qed.

Lemma free_of_conflicts candidate serviceDuration existingBookings :
  existsb (slotConflicts candidate serviceDuration) existingBookings = false
  <-> forall booked, In booked existingBookings ->
                     ~ overlapsRange candidate serviceDuration booked.
Proof.
  split.
  - intros Hnone booked Hin Hover. apply slotConflicts_overlaps in Hover.
    assert (Hex : existsb (slotConflicts candidate serviceDuration) existingBookings = true)
      by (apply existsb_exists; exists booked; split; assumption).
    rewrite Hnone in Hex. discriminate Hex.
  - intros Hall.
    destruct (existsb (slotConflicts candidate serviceDuration) existingBookings) eqn:Hex;
      [|reflexivity].
    apply existsb_exists in Hex. destruct Hex as (booked & Hin & Hconf).
    apply slotConflicts_overlaps in Hconf. exfalso. exact (Hall booked Hin Hconf).
Qed.

(** X2. Without the same-day cutoff, a slot is offered exactly when it
    starts on the 15-minute grid counted from the opening time, ends no
    later than the closing time, and overlaps (half-open) no existing
    booking whose times can be read. *)
Theorem offered_slots_are_the_free_grid_slots :
  forall (now : Clock) (openTime closeTime : string) (serviceDuration : Z)
         (existingBookings : list TimeRange) (appointmentDate : option string)
         (opening closing : Z) (slot : TimeRange),
    parsedHours openTime closeTime = Some (opening, closing) ->
    noCutoff now appointmentDate ->
    (In slot (_calculateAvailableSlots now openTime closeTime serviceDuration
                                       existingBookings appointmentDate)
     <-> exists k : nat,
           let candidate := opening + Z.of_nat k * slotInterval in
           slot = slotAt serviceDuration candidate
           /\ candidate + serviceDuration <= closing
           /\ forall booked, In booked existingBookings ->
                             ~ overlapsRange candidate serviceDuration booked).
Proof.
  intros now openTime closeTime d bs date opening closing slot Hparse Hcut.
  rewrite (calculate_parsed now openTime closeTime d bs date opening closing Hparse Hcut).
  split.
  - intros Hin.
    destruct (walk_sound d closing bs _ opening slot eq_refl Hin) as (k & Hslot & Hfit & Hfree).
    exists k. cbv zeta in *. split; [exact Hslot|]. split; [exact Hfit|].
    apply free_of_conflicts. exact Hfree.
  - intros (k & Hslot & Hfit & Hfree). cbv zeta in *. subst slot.
    apply walk_emits; [exact Hfit|]. apply free_of_conflicts. exact Hfree.
Qed.

Lemma offered_slots_are_the_free_grid_slots_witness :
  In (mkRange "09:15" "09:45")
     (_calculateAvailableSlots noon "09:00" "18:00" 30 [mkRange "10:00:00" "11:00:00"] None)
  /\ ~ In (mkRange "10:30" "11:00")
          (_calculateAvailableSlots noon "09:00" "18:00" 30 [mkRange "10:00:00" "11:00:00"]
                                    None).
Proof.
  pose proof (offered_slots_are_the_free_grid_slots noon "09:00" "18:00" 30
                [mkRange "10:00:00" "11:00:00"] None 540 1080) as H.
  split.
  - apply (H (mkRange "09:15" "09:45") eq_refl I). exists 1%nat. cbv zeta.
    split; [reflexivity|]. split; [vm_compute; discriminate|].
    intros booked [<-|[]] (bs & be & Hs & He & H1 & H2).
    vm_compute in Hs. injection Hs as Hs. subst bs. unfold slotInterval in H2. lia.
  - intros Hin. apply (H (mkRange "10:30" "11:00") eq_refl I) in Hin.
    destruct Hin as (k & Hslot & _ & Hfree). cbv zeta in *.
    assert (Hc : 540 + Z.of_nat k * slotInterval = 630).
    { apply (f_equal (fun r => _timeStringToMinutes (start_time r))) in Hslot.
      cbn [start_time slotAt] in Hslot.
      rewrite time_text_round_trip_general in Hslot by (unfold slotInterval; lia).
      vm_compute in Hslot. injection Hslot as Hslot. symmetry. exact Hslot. }
    rewrite Hc in Hfree.
    apply (Hfree (mkRange "10:00:00" "11:00:00")); [left; reflexivity|].
    exists 600, 660. repeat split; lia.
Defined.

(* ================================================================== *)
(** * The slot walk, with and without the same-day cutoff *)
(* ================================================================== *)

Lemma calculate_walk now openTime closeTime serviceDuration existingBookings appointmentDate :
  _calculateAvailableSlots now openTime closeTime serviceDuration existingBookings
                           appointmentDate
  = match walkBounds now openTime closeTime appointmentDate with
    | Some (start, closing) =>
        map (slotAt serviceDuration)
            (filter (freeOf serviceDuration existingBookings)
                    (gridFrom start (walkTurns start serviceDuration closing)))
    | None => []
    end.
Proof.
  unfold _calculateAvailableSlots, walkBounds, parsedHours, currentMinutes.
  destruct (Js.nth_Number 0 (Js.split ":" openTime)) as [oh|]; [|reflexivity].
  destruct (Js.nth_Number 1 (Js.split ":" openTime)) as [om|]; [|reflexivity].
  destruct (Js.nth_Number 0 (Js.split ":" closeTime)) as [ch|]; [|reflexivity].
  destruct (Js.nth_Number 1 (Js.split ":" closeTime)) as [cm|]; [|reflexivity].
  cbv zeta.
  destruct appointmentDate as [d|]; [|apply walkSlots_filter; reflexivity].
  destruct (String.eqb d EmptyString); [apply walkSlots_filter; reflexivity|].
  destruct (String.eqb (normalizeDate d) (today now)); [|apply walkSlots_filter; reflexivity].
  destruct (_ >=? _); [reflexivity | apply walkSlots_filter; reflexivity].
Qed.

Lemma gridFrom_spaced (turns : nat) :
  forall start, StronglySorted laterOnGrid (gridFrom start turns).
Proof.
  induction turns as [|turns IH]; intros start; [constructor|].
  rewrite gridFrom_step. constructor; [apply IH|].
  apply Forall_forall. intros c Hc. apply gridFrom_In in Hc.
  destruct Hc as (k & _ & ->). unfold laterOnGrid, slotInterval. split; [lia|].
  replace (start + 15 + Z.of_nat k * 15 - start) with ((1 + Z.of_nat k) * 15) by lia.
  apply Z.mod_mul. lia.
Qed.

Lemma StronglySorted_filter {A} (R : A -> A -> Prop) (p : A -> bool) (l : list A) :
  StronglySorted R l -> StronglySorted R (filter p l).
Proof.
  induction 1 as [|x l Hl IH Hx]; [constructor|].
  cbn. destruct (p x); [|exact IH].
  constructor; [exact IH|].
  rewrite Forall_forall in *. intros y Hy. apply filter_In in Hy. apply Hx, Hy.
Qed.

(** X3. The offered slots are listed by ascending start: they are the
    slots of a list of start minutes in which every entry is later than
    each entry before it by a positive multiple of 15 minutes; no start
    is offered twice. *)
Theorem offered_slots_ascend :
  forall (now : Clock) (openTime closeTime : string) (serviceDuration : Z)
         (existingBookings : list TimeRange) (appointmentDate : option string),
  exists candidates : list Z,
    _calculateAvailableSlots now openTime closeTime serviceDuration existingBookings
                             appointmentDate
    = map (slotAt serviceDuration) candidates
    /\ StronglySorted laterOnGrid candidates
    /\ NoDup candidates.
Proof.
  intros now openTime closeTime d bs date. rewrite calculate_walk.
  destruct (walkBounds now openTime closeTime date) as [[start closing]|].
  - exists (filter (freeOf d bs) (gridFrom start (walkTurns start d closing))).
    split; [reflexivity|].
    assert (Hs : StronglySorted laterOnGrid
                   (filter (freeOf d bs) (gridFrom start (walkTurns start d closing))))
      by (apply StronglySorted_filter, gridFrom_spaced).
    split; [exact Hs|].
    induction Hs as [|x l Hl IH Hx]; constructor; [|exact IH].
    intros Hin. rewrite Forall_forall in Hx. destruct (Hx x Hin) as [Hlt _]. lia.
  - exists []. split; [reflexivity|]. split; constructor.
Qed.

Lemma walkTurns_max start serviceDuration closing :
  Z.of_nat (walkTurns start serviceDuration closing)
  = Z.max 0 ((closing - serviceDuration - start) / slotInterval + 1).
Proof. unfold walkTurns. lia. Qed.

Lemma walkBounds_noCutoff now openTime closeTime appointmentDate opening closing :
  parsedHours openTime closeTime = Some (opening, closing) ->
  noCutoff now appointmentDate ->
  walkBounds now openTime closeTime appointmentDate = Some (opening, closing).
Proof.
  intros Hparse Hcut. unfold walkBounds. rewrite Hparse.
  destruct appointmentDate as [d|]; [|reflexivity].
  destruct Hcut as [Habs|Hne].
  - unfold absent in Habs. rewrite Habs. reflexivity.
  - destruct (String.eqb d EmptyString); [reflexivity|].
    destruct (String.eqb_spec (normalizeDate d) (today now)); [contradiction|reflexivity].
Qed.

Lemma filter_length_le {A} (p : A -> bool) (l : list A) :
  (List.length (filter p l) <= List.length l)%nat.
Proof. induction l as [|x l IH]; cbn; [lia|]. destruct (p x); cbn; lia. Qed.

Lemma gridFrom_length start turns : List.length (gridFrom start turns) = turns.
Proof. unfold gridFrom. rewrite length_map, length_seq. reflexivity. Qed.

(** X4. Without the same-day cutoff the number of offered slots is at
    most floor((closing - duration - opening) / 15) + 1, or zero when
    that is negative, and it is exactly that number when there are no
    existing bookings. *)
Theorem slot_count_of_a_day :
  forall (now : Clock) (openTime closeTime : string) (serviceDuration : Z)
         (existingBookings : list TimeRange) (appointmentDate : option string)
         (opening closing : Z),
    parsedHours openTime closeTime = Some (opening, closing) ->
    noCutoff now appointmentDate ->
    Z.of_nat (List.length (_calculateAvailableSlots now openTime closeTime serviceDuration
                                                    existingBookings appointmentDate))
    <= Z.max 0 ((closing - serviceDuration - opening) / slotInterval + 1)
    /\ Z.of_nat (List.length (_calculateAvailableSlots now openTime closeTime serviceDuration
                                                       [] appointmentDate))
       = Z.max 0 ((closing - serviceDuration - opening) / slotInterval + 1).
Proof.
  intros now openTime closeTime d bs date opening closing Hparse Hcut.
  rewrite !calculate_walk, (walkBounds_noCutoff _ _ _ _ _ _ Hparse Hcut).
  rewrite !length_map, <- walkTurns_max. split.
  - pose proof (filter_length_le (freeOf d bs) (gridFrom opening (walkTurns opening d closing))).
    rewrite gridFrom_length in *. lia.
  - rewrite forallb_filter_id; [rewrite gridFrom_length; reflexivity|].
    apply forallb_forall. intros c _. reflexivity.
Qed.

Lemma slot_count_of_a_day_witness :
  Z.of_nat (List.length (_calculateAvailableSlots noon "10:00" "12:00" 45
                           [mkRange "10:30:00" "11:00:00"] (Some "2025-03-03")))
  <= Z.max 0 ((720 - 45 - 600) / slotInterval + 1)
  /\ Z.of_nat (List.length (_calculateAvailableSlots noon "10:00" "12:00" 45 []
                              (Some "2025-03-03")))
     = Z.max 0 ((720 - 45 - 600) / slotInterval + 1).
Proof.
  apply (slot_count_of_a_day noon "10:00" "12:00" 45 [mkRange "10:30:00" "11:00:00"]
           (Some "2025-03-03") 600 720).
  - reflexivity.
  - right. vm_compute. discriminate.
Defined.

Lemma ceil_to_bounds (a : Z) :
  a <= Js.ceil_to a slotInterval < a + slotInterval
  /\ Js.ceil_to a slotInterval mod slotInterval = 0.
Proof.
  unfold Js.ceil_to, slotInterval.
  pose proof (Z.div_mod (- a) 15 ltac:(lia)) as Hdm.
  pose proof (Z.mod_pos_bound (- a) 15 ltac:(lia)) as Hb.
  split; [lia|]. apply Z.mod_mul. lia.
Qed.

Lemma walkBounds_today now openTime closeTime appointmentDate opening closing :
  parsedHours openTime closeTime = Some (opening, closing) ->
  isToday now appointmentDate ->
  walkBounds now openTime closeTime appointmentDate
  = let start := Z.max opening (Js.ceil_to (currentMinutes now - 5) slotInterval) in
    if start >=? closing then None else Some (start, closing).
Proof.
  intros Hparse (d & -> & Habs & Hday). unfold walkBounds. rewrite Hparse.
  unfold absent in Habs. rewrite Habs, Hday, String.eqb_refl. reflexivity.
Qed.

Lemma freeOf_spec serviceDuration existingBookings candidate :
  freeOf serviceDuration existingBookings candidate = true
  <-> forall booked, In booked existingBookings ->
                     ~ overlapsRange candidate serviceDuration booked.
Proof.
  unfold freeOf. rewrite negb_true_iff. apply free_of_conflicts.
Qed.

(** X5. For a request for the clock's own date, every offered slot
    starts no earlier than the opening time and no earlier than five
    minutes before the current time, ends by the closing time and
    overlaps no readable existing booking; once the cutoff has passed
    the opening time the starts fall on quarter hours of the clock, not
    on the grid counted from the opening time. Nothing is offered when
    the later of opening time and cutoff is not before the closing
    time. *)
Theorem same_day_slots_respect_the_cutoff :
  forall (now : Clock) (openTime closeTime : string) (serviceDuration : Z)
         (existingBookings : list TimeRange) (appointmentDate : option string)
         (opening closing : Z),
    parsedHours openTime closeTime = Some (opening, closing) ->
    isToday now appointmentDate ->
    (forall slot,
        In slot (_calculateAvailableSlots now openTime closeTime serviceDuration
                                          existingBookings appointmentDate) ->
        exists candidate,
          slot = slotAt serviceDuration candidate
          /\ opening <= candidate
          /\ currentMinutes now - 5 <= candidate
          /\ candidate + serviceDuration <= closing
          /\ (opening <= currentMinutes now - 5 -> candidate mod slotInterval = 0)
          /\ forall booked, In booked existingBookings ->
                            ~ overlapsRange candidate serviceDuration booked)
    /\ (closing <= Z.max opening (currentMinutes now - 5) ->
        _calculateAvailableSlots now openTime closeTime serviceDuration
                                 existingBookings appointmentDate = []).
Proof.
  intros now openTime closeTime d bs date opening closing Hparse Htoday.
  rewrite calculate_walk, (walkBounds_today _ _ _ _ _ _ Hparse Htoday). cbv zeta.
  destruct (ceil_to_bounds (currentMinutes now - 5)) as [[Hlow Hhigh] Hmod].
  set (rounded := Js.ceil_to (currentMinutes now - 5) slotInterval) in *.
  destruct (Z.geb_spec (Z.max opening rounded) closing) as [Hge|Hlt].
  - split; [intros slot []|reflexivity].
  - split; [|intros Hlate; lia].
    intros slot Hin. apply in_map_iff in Hin. destruct Hin as (c & <- & Hin).
    apply filter_In in Hin. destruct Hin as [Hgrid Hfree].
    apply gridFrom_In in Hgrid. destruct Hgrid as (k & Hk & ->).
    exists (Z.max opening rounded + Z.of_nat k * slotInterval).
    split; [reflexivity|]. unfold slotInterval in *.
    split; [lia|]. split; [lia|]. split.
    + unfold walkTurns, slotInterval in Hk.
      assert (Hpos : 0 <= (closing - d - Z.max opening rounded) / 15) by lia.
      assert (Hk' : Z.of_nat k <= (closing - d - Z.max opening rounded) / 15) by lia.
      pose proof (Z.mul_div_le (closing - d - Z.max opening rounded) 15 ltac:(lia)).
      nia.
    + split; [|apply freeOf_spec; exact Hfree].
      intros Hpast. replace (Z.max opening rounded) with rounded by lia.
      rewrite Z.mod_add by lia. exact Hmod.
Qed.

(** At noon, with hours 09:10-13:00 and a booking from 12:00 to 12:30,
    the one slot offered for the day is 12:30-13:00; with hours
    09:00-11:00 nothing is offered. *)
Lemma same_day_slots_respect_the_cutoff_witness :
  _calculateAvailableSlots noon "09:10" "13:00" 30
    [mkRange "12:00:00" "12:30:00"] (Some "2025-03-01") = [mkRange "12:30" "13:00"]
  /\ (exists candidate,
        mkRange "12:30" "13:00" = slotAt 30 candidate
        /\ 550 <= candidate
        /\ currentMinutes noon - 5 <= candidate
        /\ candidate + 30 <= 780
        /\ (550 <= currentMinutes noon - 5 -> candidate mod slotInterval = 0)
        /\ forall booked, In booked [mkRange "12:00:00" "12:30:00"] ->
                          ~ overlapsRange candidate 30 booked)
  /\ _calculateAvailableSlots noon "09:00" "11:00" 30 [] (Some "2025-03-01") = [].
Proof.
  assert (Htoday : isToday noon (Some "2025-03-01"))
    by (exists "2025-03-01"; repeat split).
  split; [vm_compute; reflexivity|]. split.
  - destruct (same_day_slots_respect_the_cutoff noon "09:10" "13:00" 30
                [mkRange "12:00:00" "12:30:00"] (Some "2025-03-01") 550 780
                eq_refl Htoday) as [Hoffered _].
    apply Hoffered. vm_compute. left. reflexivity.
  - destruct (same_day_slots_respect_the_cutoff noon "09:00" "11:00" 30
                [] (Some "2025-03-01") 540 660 eq_refl Htoday) as [_ Hnone].
    apply Hnone. vm_compute. discriminate.
Defined.

Lemma incl_filter_map {A B} (g : A -> B) (p q : A -> bool) (l : list A) :
  (forall x, p x = true -> q x = true) ->
  incl (map g (filter p l)) (map g (filter q l)).
Proof.
  intros Hpq y Hy. apply in_map_iff in Hy. destruct Hy as (x & <- & Hx).
  apply filter_In in Hx. destruct Hx as [Hx Hp].
  apply in_map, filter_In. split; [exact Hx | apply Hpq, Hp].
Qed.

Lemma calculate_incl now openTime closeTime serviceDuration fewer more appointmentDate :
  incl fewer more ->
  incl (_calculateAvailableSlots now openTime closeTime serviceDuration more appointmentDate)
       (_calculateAvailableSlots now openTime closeTime serviceDuration fewer
                                 appointmentDate).
Proof.
  intros Hincl. rewrite !calculate_walk.
  destruct (walkBounds now openTime closeTime appointmentDate) as [[start closing]|];
    [|apply incl_refl].
  apply incl_filter_map. intros c Hc. rewrite freeOf_spec in *.
  intros booked Hin. apply Hc, Hincl, Hin.
Qed.

(** X6. Further existing bookings never add a slot: every slot offered
    against a list of bookings is offered against any part of that
    list, whatever the hours, the duration, the date and the clock. *)
Theorem more_bookings_never_add_slots :
  forall (now : Clock) (openTime closeTime : string) (serviceDuration : Z)
         (fewer more : list TimeRange) (appointmentDate : option string),
    incl fewer more ->
    incl (_calculateAvailableSlots now openTime closeTime serviceDuration more
                                   appointmentDate)
         (_calculateAvailableSlots now openTime closeTime serviceDuration fewer
                                   appointmentDate).
Proof. exact calculate_incl. Qed.

(** Half-hour slots from 09:00 to 12:00: the slot 10:00-10:30, offered
    against the bookings 09:00-10:00 and 10:30-11:30, is offered
    against the second booking alone. *)
Lemma more_bookings_never_add_slots_witness :
  _calculateAvailableSlots noon "09:00" "12:00" 30
    [mkRange "09:00:00" "10:00:00"; mkRange "10:30:00" "11:30:00"] None
  = [mkRange "10:00" "10:30"; mkRange "11:30" "12:00"]
  /\ In (mkRange "10:00" "10:30")
        (_calculateAvailableSlots noon "09:00" "12:00" 30
           [mkRange "10:30:00" "11:30:00"] None).
Proof.
  split; [vm_compute; reflexivity|].
  apply (more_bookings_never_add_slots noon "09:00" "12:00" 30
           [mkRange "10:30:00" "11:30:00"]
           [mkRange "09:00:00" "10:00:00"; mkRange "10:30:00" "11:30:00"] None).
  - intros r [<-|[]]. right. left. reflexivity.
  - vm_compute. left. reflexivity.
Defined.

(* ================================================================== *)
(** * Listing the available slots *)
(* ================================================================== *)

(** Any run of a handler, one statement at a time; [fin] closes the
    branches that end in a thrown error. *)
Ltac run_step Hrun fin :=
  match type of Hrun with
  | bind (throwIf ?c _ _) _ _ = _ =>
      let Hc := fresh "Hcond" in
      destruct c eqn:Hc;
      [rewrite run_throwIf_true in Hrun by reflexivity; fin
      |rewrite run_throwIf_false in Hrun by reflexivity]
  | bind (read _) _ _ = _ => rewrite run_read in Hrun
  | bind (write _) _ _ = _ => rewrite run_write in Hrun
  | bind (emit _) _ _ = _ => rewrite run_emit in Hrun
  | bind (ret _) _ _ = _ => rewrite run_ret in Hrun
  | bind (orThrow ?o _ _) _ _ = _ =>
      let Ho := fresh "Hfound" in
      destruct o eqn:Ho;
      [rewrite run_found in Hrun | rewrite run_missing in Hrun; fin]
  | bind (bind _ _) _ _ = _ => rewrite run_nested in Hrun
  end.

(** X7. Listing the available slots writes nothing, however it ends:
    the tables and the event log after it are those before it. A
    missing parameter is answered with 400 MISSING_PARAMETERS; failing
    that, a service identifier that does not select one service with
    404 SERVICE_NOT_FOUND; failing that, a salon identifier that does
    not select one salon with 404 SALON_NOT_FOUND; and failing that,
    for a date written [YYYY-MM-DD], a salon without hours for the
    weekday, or closed on it, gets the empty list, not an error. *)
Theorem listing_slots_writes_nothing :
  forall (rowVisible : string -> Booking.t -> bool) (now : Clock)
         (user salon_id service_id date staff_id : string) (w : World),
    let run := getAvailableSlots rowVisible now user salon_id service_id date staff_id w in
    snd run = w
    /\ (absent salon_id || absent service_id || absent date = true ->
        fst run = Throw (mkAppError 400 "MISSING_PARAMETERS"))
    /\ (absent salon_id || absent service_id || absent date = false ->
        serviceById service_id w = None ->
        fst run = Throw (mkAppError 404 "SERVICE_NOT_FOUND"))
    /\ (forall service,
          absent salon_id || absent service_id || absent date = false ->
          serviceById service_id w = Some service ->
          salonById salon_id w = None ->
          fst run = Throw (mkAppError 404 "SALON_NOT_FOUND"))
    /\ (forall service salon,
          canonicalDate date = true ->
          absent salon_id || absent service_id = false ->
          serviceById service_id w = Some service ->
          salonById salon_id w = Some salon ->
          openingHours salon date = None ->
          fst run = Ok []).
Proof.
  intros rv now user salon_id service_id date staff_id w run. subst run.
  rewrite getAvailableSlots_run.
  split; [|split; [|split; [|split]]].
  - destruct (absent salon_id || absent service_id || absent date); [reflexivity|].
    destruct (serviceById service_id w) as [service|]; [|reflexivity].
    destruct (salonById salon_id w) as [salon|]; reflexivity.
  - intros ->. reflexivity.
  - intros -> ->. reflexivity.
  - intros service -> -> ->. reflexivity.
  - intros service salon Hdate Hids Hservice Hsalon Hclosed.
    rewrite Hids, (canonicalDate_present date Hdate), Hservice, Hsalon, Hclosed.
    reflexivity.
Qed.

(** A salon that lists hours for Mondays only is asked for Sunday
    2025-03-02, and then without a date. *)
Lemma listing_slots_writes_nothing_witness :
  getAvailableSlots everyRow noon "client-1" "salon-2" "svc-wash" "2025-03-02" ""
                    mondayWorld
  = (Ok [], mondayWorld)
  /\ getAvailableSlots everyRow noon "client-1" "salon-2" "svc-wash" "" "" mondayWorld
     = (Throw (mkAppError 400 "MISSING_PARAMETERS"), mondayWorld).
Proof.
  destruct (listing_slots_writes_nothing everyRow noon "client-1" "salon-2" "svc-wash"
              "2025-03-02" "" mondayWorld) as (Hsame & _ & _ & _ & Hclosed).
  destruct (listing_slots_writes_nothing everyRow noon "client-1" "salon-2" "svc-wash"
              "" "" mondayWorld) as (Hsame' & Hmissing & _).
  cbv zeta in *. split.
  - rewrite (surjective_pairing (getAvailableSlots _ _ _ _ _ "2025-03-02" _ _)).
    rewrite Hsame.
    rewrite (Hclosed (Service.mk "svc-wash" "salon-2" "Wash" 30) mondaySalon
                     eq_refl eq_refl eq_refl eq_refl eq_refl).
    reflexivity.
  - rewrite (surjective_pairing (getAvailableSlots _ _ _ _ _ "" _ _)).
    rewrite Hsame', (Hmissing eq_refl). reflexivity.
Defined.

(* ================================================================== *)
(** * What a status change leaves alone *)
(* ================================================================== *)

Lemma restatused_refl bookingId status (rows : list Booking.t) :
  Forall2 (restatused bookingId status) rows rows.
Proof. induction rows; constructor; [left; reflexivity | assumption]. Qed.

Lemma updateBooking_restatused bookingId status f w :
  (forall b, placement (f b) = placement b) ->
  (forall b, Booking.status (f b) = status) ->
  Forall2 (restatused bookingId status) (bookings w)
          (bookings (updateBooking bookingId f w)).
Proof.
  intros Hp Hs. unfold updateBooking. cbn [bookings set_bookings].
  induction (bookings w) as [|b bs IH]; cbn [map]; constructor; [|exact IH].
  destruct (String.eqb_spec (Booking.id b) bookingId) as [Hid|Hid].
  - right. auto.
  - left. reflexivity.
Qed.

Ltac frame_done Hrun :=
  injection Hrun as <- <-;
  cbn [bookings add_event];
  repeat split;
  first [ apply restatused_refl
        | apply updateBooking_restatused; reflexivity ].

Lemma updateBookingStatus_frame pw user bookingId status staff_notes reason w result w' :
  updateBookingStatus pw user bookingId status staff_notes reason w = (result, w') ->
  otherTables w' = otherTables w
  /\ generated w' = generated w
  /\ Forall2 (restatused bookingId status) (bookings w) (bookings w').
Proof.
  unfold updateBookingStatus. intros Hrun.
  repeat run_step Hrun ltac:(frame_done Hrun).
  destruct (String.eqb status "cancelled").
  - repeat run_step Hrun ltac:(frame_done Hrun).
    unfold awaitWaitlist in Hrun.
    repeat run_step Hrun ltac:(frame_done Hrun).
    destruct (pw _ _ _ _); cbn in Hrun; frame_done Hrun.
  - repeat run_step Hrun ltac:(frame_done Hrun). cbn in Hrun. frame_done Hrun.
Qed.

Lemma cancelBookingAsSalonOwner_frame user bookingId reason w result w' :
  cancelBookingAsSalonOwner user bookingId reason w = (result, w') ->
  otherTables w' = otherTables w
  /\ generated w' = generated w
  /\ Forall2 (restatused bookingId "cancelled") (bookings w) (bookings w').
Proof.
  unfold cancelBookingAsSalonOwner. intros Hrun.
  repeat run_step Hrun ltac:(frame_done Hrun).
  destruct (serviceById _ _);
    repeat run_step Hrun ltac:(frame_done Hrun); cbn in Hrun; frame_done Hrun.
Qed.

Lemma restatused_placement bookingId status before after :
  Forall2 (restatused bookingId status) before after ->
  map placement after = map placement before.
Proof.
  induction 1 as [|b b' bs bs' Hb _ IH]; [reflexivity|].
  cbn. rewrite IH. f_equal. destruct Hb as [->|(_ & Hp & _)]; [reflexivity | exact Hp].
Qed.

(** X8. A status update and an owner cancel never move, re-assign or
    remove a booking, however they end: the identifier, client, salon,
    service, staff, date, start and end time of every booking row are
    afterwards what they were, in the same order, and no other table is
    written. *)
Theorem status_changes_never_move_a_booking :
  forall (processWaitlistForCancelledBooking : string -> string -> string -> Z -> Settled)
         (user bookingId status staff_notes cancellation_reason : string) (w : World),
    let afterUpdate :=
      snd (updateBookingStatus processWaitlistForCancelledBooking user bookingId status
                               staff_notes cancellation_reason w) in
    let afterCancel := snd (cancelBookingAsSalonOwner user bookingId cancellation_reason w) in
    map placement (bookings afterUpdate) = map placement (bookings w)
    /\ otherTables afterUpdate = otherTables w
    /\ map placement (bookings afterCancel) = map placement (bookings w)
    /\ otherTables afterCancel = otherTables w.
Proof.
  intros pw user bookingId status notes reason w. cbv zeta.
  destruct (updateBookingStatus pw user bookingId status notes reason w) as [r1 w1] eqn:H1.
  destruct (cancelBookingAsSalonOwner user bookingId reason w) as [r2 w2] eqn:H2.
  apply updateBookingStatus_frame in H1. destruct H1 as (Ho1 & _ & Hb1).
  apply cancelBookingAsSalonOwner_frame in H2. destruct H2 as (Ho2 & _ & Hb2).
  cbn [snd]. split; [exact (restatused_placement _ _ _ _ Hb1)|].
  split; [exact Ho1|]. split; [exact (restatused_placement _ _ _ _ Hb2) | exact Ho2].
Qed.

Lemma Forall2_In_r {A B} (R : A -> B -> Prop) (xs : list A) (ys : list B) (y : B) :
  Forall2 R xs ys -> In y ys -> exists x, In x xs /\ R x y.
Proof.
  induction 1 as [|x y' xs ys Hxy _ IH]; intros Hin; [contradiction|].
  destruct Hin as [<-|Hin].
  - exists x. split; [left; reflexivity | exact Hxy].
  - destruct (IH Hin) as (x' & Hx' & HR). exists x'. split; [right; exact Hx' | exact HR].
Qed.

Lemma bookedRanges_after_cancel rowVisible user salon_id date staff_id bookingId w w' :
  Forall2 (restatused bookingId "cancelled") (bookings w) (bookings w') ->
  (List.length (bookings w) <= 1000)%nat ->
  incl (bookedRanges rowVisible user salon_id date staff_id w')
       (bookedRanges rowVisible user salon_id date staff_id w).
Proof.
  intros Hrows Hfew. unfold bookedRanges.
  pose proof (Forall2_length Hrows) as Hlen.
  rewrite !firstn_all2
    by (match goal with |- (List.length (filter ?p ?l) <= _)%nat =>
          pose proof (filter_length_le p l) end; lia).
  intros range Hin. apply in_map_iff in Hin. destruct Hin as (b' & <- & Hb').
  apply filter_In in Hb'. destruct Hb' as [Hb' Hkeep].
  destruct (Forall2_In_r _ _ _ _ Hrows Hb') as (b & Hb & [->|(_ & _ & Hstatus)]).
  - apply in_map_iff. exists b. split; [reflexivity|]. apply filter_In. split; assumption.
  - rewrite Hstatus in Hkeep. cbn in Hkeep. rewrite !andb_false_r in Hkeep.
    discriminate Hkeep.
Qed.

Lemma getAvailableSlots_after_cancel rowVisible now user salon_id service_id date staff_id
      bookingId w w' :
  otherTables w' = otherTables w ->
  Forall2 (restatused bookingId "cancelled") (bookings w) (bookings w') ->
  (List.length (bookings w) <= 1000)%nat ->
  match fst (getAvailableSlots rowVisible now user salon_id service_id date staff_id w),
        fst (getAvailableSlots rowVisible now user salon_id service_id date staff_id w')
  with
  | Ok before, Ok after => incl before after
  | Throw e, Throw e' => e' = e
  | _, _ => False
  end.
Proof.
  intros Hother Hrows Hfew. rewrite !getAvailableSlots_run.
  unfold otherTables in Hother. injection Hother as Hsvc Hsal _ _ _.
  unfold serviceById, salonById. rewrite Hsvc, Hsal.
  destruct (absent salon_id || absent service_id || absent date); [reflexivity|].
  destruct (single (filter _ (services w))) as [service|]; [|reflexivity].
  destruct (single (filter _ (salons w))) as [salon|]; [|reflexivity].
  cbn [fst]. destruct (openingHours salon date) as [[openTime closeTime]|]; [|apply incl_refl].
  apply calculate_incl.
  exact (bookedRanges_after_cancel _ _ _ _ _ _ _ _ Hrows Hfew).
Qed.

(** X9. A cancellation never hides a slot. With at most 1000 booking
    rows, after an owner cancel or a status update to [cancelled],
    however it ends, every availability request that was answered
    before is answered with a list that still holds every slot of the
    earlier answer, and a request that was refused is refused with the
    same error. *)
Theorem cancellation_never_hides_a_slot :
  forall (processWaitlistForCancelledBooking : string -> string -> string -> Z -> Settled)
         (rowVisible : string -> Booking.t -> bool) (now : Clock)
         (actor bookingId staff_notes cancellation_reason : string) (w : World)
         (user salon_id service_id date staff_id : string),
    (List.length (bookings w) <= 1000)%nat ->
    let listing := getAvailableSlots rowVisible now user salon_id service_id date staff_id in
    let afterCancel := snd (cancelBookingAsSalonOwner actor bookingId cancellation_reason w) in
    let afterUpdate :=
      snd (updateBookingStatus processWaitlistForCancelledBooking actor bookingId
                               "cancelled" staff_notes cancellation_reason w) in
    forall after, after = afterCancel \/ after = afterUpdate ->
      match fst (listing w), fst (listing after) with
      | Ok slotsBefore, Ok slotsAfter => incl slotsBefore slotsAfter
      | Throw e, Throw e' => e' = e
      | _, _ => False
      end.
Proof.
  intros pw rv now actor bookingId notes reason w user salon_id service_id date staff_id
         Hfew listing afterCancel afterUpdate after Hafter.
  subst listing afterCancel afterUpdate.
  destruct (cancelBookingAsSalonOwner actor bookingId reason w) as [r1 w1] eqn:H1.
  destruct (updateBookingStatus pw actor bookingId "cancelled" notes reason w)
    as [r2 w2] eqn:H2.
  apply cancelBookingAsSalonOwner_frame in H1. destruct H1 as (Ho1 & _ & Hb1).
  apply updateBookingStatus_frame in H2. destruct H2 as (Ho2 & _ & Hb2).
  cbn [snd] in Hafter. destruct Hafter as [->| ->].
  - exact (getAvailableSlots_after_cancel rv now user salon_id service_id date staff_id
             bookingId w w1 Ho1 Hb1 Hfew).
  - exact (getAvailableSlots_after_cancel rv now user salon_id service_id date staff_id
             bookingId w w2 Ho2 Hb2 Hfew).
Qed.

Lemma cancellation_never_hides_a_slot_witness :
  match fst (getAvailableSlots everyRow noon "client-2" "salon-1" "svc-cut" "2025-03-03" ""
               (worldWith [morningVisit; afternoonVisit])),
        fst (getAvailableSlots everyRow noon "client-2" "salon-1" "svc-cut" "2025-03-03" ""
               (snd (cancelBookingAsSalonOwner "owner-1" "b-1" ""
                       (worldWith [morningVisit; afternoonVisit]))))
  with
  | Ok slotsBefore, Ok slotsAfter => incl slotsBefore slotsAfter
  | Throw e, Throw e' => e' = e
  | _, _ => False
  end.
Proof.
  apply (cancellation_never_hides_a_slot alwaysResolves everyRow noon "owner-1" "b-1" "" ""
           (worldWith [morningVisit; afternoonVisit])
           "client-2" "salon-1" "svc-cut" "2025-03-03" "").
  - cbn. lia.
  - left. reflexivity.
Defined.

(* ================================================================== *)
(** * Cancelling: the two paths *)
(* ================================================================== *)

(** X10. A status update to [cancelled] by the owner or the client
    writes the row before it calls the waitlist controller. When that
    call ends in an exception the request fails, with the controller's
    own error if it is an [AppError] and with 500 BOOKING_UPDATE_FAILED
    otherwise, and yet the booking is then stored as cancelled, the
    cancellation e-mail has been asked for and the waitlist call has
    been made. *)
Theorem failed_waitlist_call_leaves_the_booking_cancelled :
  forall (processWaitlistForCancelledBooking : string -> string -> string -> Z -> Settled)
         (user bookingId staff_notes cancellation_reason : string) (w : World)
         (booking : Booking.t) (salon : Salon.t) (service : Service.t),
    bookingById bookingId w = Some booking ->
    salonById (Booking.salon_id booking) w = Some salon ->
    serviceById (Booking.service_id booking) w = Some service ->
    Salon.owner_id salon = user \/ Booking.client_id booking = user ->
    waitlistOutcome processWaitlistForCancelledBooking booking <> Resolves ->
    exists e updated w',
      updateBookingStatus processWaitlistForCancelledBooking user bookingId "cancelled"
                          staff_notes cancellation_reason w = (Throw e, w')
      /\ e = match waitlistOutcome processWaitlistForCancelledBooking booking with
             | RejectsWith e0 => e0
             | _ => mkAppError 500 "BOOKING_UPDATE_FAILED"
             end
      /\ bookingById bookingId w' = Some updated
      /\ Booking.status updated = "cancelled"
      /\ placement updated = placement booking
      /\ events w' = events w ++ [CancellationNoticeEmail bookingId;
                                  WaitlistDispatch (Booking.salon_id booking)
                                                   (Booking.service_id booking)
                                                   (Booking.appointment_date booking)
                                                   (Booking.start_time booking)].
Proof.
  intros pw user bookingId notes reason w booking salon service Hb Hs Hsvc Hrole Hfail.
  unfold updateBookingStatus.
  rewrite run_throwIf_false by reflexivity.
  rewrite run_read, Hb, run_found, run_read, Hs, run_found, run_read.
  rewrite run_throwIf_false
    by (destruct Hrole as [-> | ->]; rewrite String.eqb_refl; cbn;
        rewrite ?andb_false_r; reflexivity).
  rewrite run_throwIf_false by (cbn; rewrite andb_false_r; reflexivity).
  rewrite run_write, run_read.
  rewrite bookingById_updateBooking by reflexivity. rewrite Hb. cbn [option_map].
  rewrite run_found. cbn [String.eqb Ascii.eqb Bool.eqb].
  rewrite run_nested, run_read.
  change (serviceById (Booking.service_id booking) (updateBooking bookingId ?f w))
    with (serviceById (Booking.service_id booking) w).
  rewrite Hsvc, run_nested, run_found, run_nested, run_emit.
  unfold awaitWaitlist. rewrite run_nested, run_emit.
  unfold waitlistOutcome in *.
  match goal with
  | |- context [updateBooking bookingId ?f w] =>
      set (change := f);
      assert (Hread : forall e1 e2,
                 bookingById bookingId
                   (add_event (add_event (updateBooking bookingId change w) e1) e2)
                 = Some (change booking))
        by (intros e1 e2;
            change (bookingById bookingId (add_event (add_event ?v e1) e2))
              with (bookingById bookingId v);
            rewrite bookingById_updateBooking by reflexivity; rewrite Hb; reflexivity)
  end.
  destruct (pw _ _ _ _) as [|e0|]; [contradiction| |];
    eexists; exists (change booking); eexists;
    (split; [reflexivity|]); (split; [reflexivity|]);
    (split; [apply Hread|]); (split; [reflexivity|]); (split; [reflexivity|]);
    cbn; rewrite <- app_assoc; reflexivity.
Qed.

Lemma failed_waitlist_call_leaves_the_booking_cancelled_witness :
  exists e updated w',
    updateBookingStatus (fun _ _ _ _ => Rejects) "client-1" "b-1" "cancelled" "" ""
                        (worldWith [morningVisit]) = (Throw e, w')
    /\ e = match waitlistOutcome (fun _ _ _ _ => Rejects) morningVisit with
           | RejectsWith e0 => e0
           | _ => mkAppError 500 "BOOKING_UPDATE_FAILED"
           end
    /\ bookingById "b-1" w' = Some updated
    /\ Booking.status updated = "cancelled"
    /\ placement updated = placement morningVisit
    /\ events w' = events (worldWith [morningVisit])
                   ++ [CancellationNoticeEmail "b-1";
                       WaitlistDispatch (Booking.salon_id morningVisit)
                                        (Booking.service_id morningVisit)
                                        (Booking.appointment_date morningVisit)
                                        (Booking.start_time morningVisit)].
Proof.
  apply (failed_waitlist_call_leaves_the_booking_cancelled
           (fun _ _ _ _ => Rejects) "client-1" "b-1" "" "" (worldWith [morningVisit])
           morningVisit salonOne haircut60).
  - reflexivity.
  - reflexivity.
  - reflexivity.
  - right. reflexivity.
  - discriminate.
Defined.

(** X11. The owner cancel succeeds on a booking of the caller's salon
    in every status but [cancelled], a completed or missed visit
    included, whether or not the service row still exists. The row
    keeps its place and notes, its status becomes [cancelled], its
    reason is the one given or, when none is given, the text
    [Cancelled by salon]; one freed slot goes to the waitlist
    controller. A caller who does not own the salon gets 403 and
    nothing is written. *)
Theorem owner_cancel_outcome :
  forall (user bookingId cancellation_reason : string) (w : World)
         (booking : Booking.t) (salon : Salon.t),
    bookingById bookingId w = Some booking ->
    salonById (Booking.salon_id booking) w = Some salon ->
    (Salon.owner_id salon <> user ->
     cancelBookingAsSalonOwner user bookingId cancellation_reason w
     = (Throw (mkAppError 403 "INSUFFICIENT_PERMISSIONS"), w))
    /\ (Salon.owner_id salon = user ->
        Booking.status booking <> "cancelled" ->
        let updated := cancelledWith (orElse cancellation_reason "Cancelled by salon")
                                     booking in
        exists w',
          cancelBookingAsSalonOwner user bookingId cancellation_reason w = (Ok updated, w')
          /\ bookingById bookingId w' = Some updated
          /\ waitlistDispatches (events w')
             = waitlistDispatches (events w) ++ [freedSlot booking]).
Proof.
  intros user bookingId reason w booking salon Hb Hs. split.
  - intros Hother. apply String.eqb_neq in Hother. unfold cancelBookingAsSalonOwner.
    rewrite run_read, Hb, run_found, run_read, Hs, run_found.
    rewrite run_throwIf_true by (rewrite Hother; reflexivity). reflexivity.
  - intros Howner Hlive updated. apply String.eqb_neq in Hlive.
    unfold cancelBookingAsSalonOwner.
    rewrite run_read, Hb, run_found, run_read, Hs, run_found.
    rewrite run_throwIf_false by (rewrite Howner, String.eqb_refl; reflexivity).
    rewrite run_throwIf_false by exact Hlive.
    rewrite run_write, run_read.
    rewrite bookingById_updateBooking by reflexivity. rewrite Hb. cbn [option_map].
    rewrite run_found, run_read.
    match goal with
    | |- context [updateBooking bookingId ?f w] =>
        set (w1 := updateBooking bookingId f w);
        assert (Hread : bookingById bookingId w1 = Some updated)
          by (unfold w1; rewrite bookingById_updateBooking by reflexivity;
              rewrite Hb; reflexivity)
    end.
    destruct (serviceById (Booking.service_id booking) w1) as [service|].
    + rewrite run_emit, run_emit. eexists. split; [reflexivity|].
      split; [exact Hread|]. cbn. rewrite !waitlistDispatches_app. cbn.
      rewrite app_nil_r. reflexivity.
    + cbv iota. rewrite run_ret, run_emit. eexists. split; [reflexivity|].
      split; [exact Hread|]. cbn. rewrite !waitlistDispatches_app. reflexivity.
Qed.

Lemma owner_cancel_outcome_witness :
  cancelBookingAsSalonOwner "client-1" "b-1" "" (worldWith [completedVisit])
  = (Throw (mkAppError 403 "INSUFFICIENT_PERMISSIONS"), worldWith [completedVisit])
  /\ exists w',
       cancelBookingAsSalonOwner "owner-1" "b-1" "" (worldWith [completedVisit])
       = (Ok (cancelledWith "Cancelled by salon" completedVisit), w')
       /\ bookingById "b-1" w' = Some (cancelledWith "Cancelled by salon" completedVisit)
       /\ waitlistDispatches (events w')
          = waitlistDispatches (events (worldWith [completedVisit]))
            ++ [freedSlot completedVisit].
Proof.
  split.
  - apply (proj1 (owner_cancel_outcome "client-1" "b-1" "" (worldWith [completedVisit])
                    completedVisit salonOne eq_refl eq_refl)).
    discriminate.
  - apply (proj2 (owner_cancel_outcome "owner-1" "b-1" "" (worldWith [completedVisit])
                    completedVisit salonOne eq_refl eq_refl)).
    + reflexivity.
    + discriminate.
Defined.

Ltac written Hrun :=
  injection Hrun as <- <-; right; eexists; eexists;
  (split; [first [eassumption | reflexivity]|]);
  (split; [first [eassumption | reflexivity] | reflexivity]).

Lemma updateBookingStatus_writes pw user bookingId status staff_notes reason w result w' :
  updateBookingStatus pw user bookingId status staff_notes reason w = (result, w') ->
  bookings w' = bookings w
  \/ exists booking salon,
       bookingById bookingId w = Some booking
       /\ salonById (Booking.salon_id booking) w = Some salon
       /\ bookings w'
          = bookings (updateBooking bookingId
                        (statusWritten status staff_notes reason
                                       (mayNoteOn user booking salon w)) w).
Proof.
  unfold updateBookingStatus. intros Hrun.
  do 8 run_step Hrun ltac:(injection Hrun as <- <-; left; reflexivity).
  unfold statusWritten.
  repeat run_step Hrun ltac:(written Hrun).
  destruct (String.eqb status "cancelled").
  - repeat run_step Hrun ltac:(written Hrun).
    unfold awaitWaitlist in Hrun.
    repeat run_step Hrun ltac:(written Hrun).
    destruct (pw _ _ _ _); cbn in Hrun; written Hrun.
  - repeat run_step Hrun ltac:(written Hrun).
    cbn in Hrun. written Hrun.
Qed.

Lemma map_column_kept {A} (column : Booking.t -> A) bookingId f w :
  (forall b, column (f b) = column b) ->
  map column (bookings (updateBooking bookingId f w)) = map column (bookings w).
Proof.
  intros Hkept. unfold updateBooking. cbn [bookings set_bookings].
  rewrite map_map. apply map_ext. intros b.
  destruct (String.eqb (Booking.id b) bookingId); [apply Hkept | reflexivity].
Qed.

(** X12. What a status update never writes, however it ends. The
    cancellation reason of every booking stays as it was unless the
    requested status is [cancelled] and a reason is given. The salon
    notes of every booking stay as they were unless notes are given by
    the owner of the salon or by a member of its staff who is not the
    client of the booking: a client cannot write salon notes. *)
Theorem status_update_keeps_notes_and_reason :
  forall (processWaitlistForCancelledBooking : string -> string -> string -> Z -> Settled)
         (user bookingId status staff_notes cancellation_reason : string) (w : World),
    let after :=
      snd (updateBookingStatus processWaitlistForCancelledBooking user bookingId status
                               staff_notes cancellation_reason w) in
    (status <> "cancelled" \/ absent cancellation_reason = true ->
     map Booking.cancellation_reason (bookings after)
     = map Booking.cancellation_reason (bookings w))
    /\ ((absent staff_notes = true
         \/ forall booking salon,
              bookingById bookingId w = Some booking ->
              salonById (Booking.salon_id booking) w = Some salon ->
              Salon.owner_id salon <> user
              /\ (Booking.client_id booking = user
                  \/ isStaffOf user (Booking.salon_id booking) w = false)) ->
        map Booking.salon_notes (bookings after) = map Booking.salon_notes (bookings w)).
Proof.
  intros pw user bookingId status notes reason w after. subst after.
  destruct (updateBookingStatus pw user bookingId status notes reason w) as [r w'] eqn:Hrun.
  apply updateBookingStatus_writes in Hrun. cbn [snd].
  destruct Hrun as [Hsame|(booking & salon & Hb & Hs & Hrows)];
    [rewrite Hsame; split; reflexivity|].
  rewrite Hrows. split.
  - intros Hkeep. apply map_column_kept. intros b. cbn.
    destruct Hkeep as [Hne|Habs].
    + apply String.eqb_neq in Hne. rewrite Hne. reflexivity.
    + rewrite Habs, andb_false_r. reflexivity.
  - intros Hkeep. apply map_column_kept. intros b. cbn.
    destruct Hkeep as [Habs|Hrole]; [rewrite Habs; reflexivity|].
    destruct (Hrole booking salon Hb Hs) as [Howner Hclient].
    apply String.eqb_neq in Howner. unfold mayNoteOn. rewrite Howner. cbn.
    destruct Hclient as [->|Hstaff].
    + rewrite String.eqb_refl, andb_false_r. reflexivity.
    + rewrite Hstaff. destruct (String.eqb (Booking.client_id booking) user); cbn;
        rewrite ?andb_false_r; reflexivity.
Qed.

Lemma status_update_keeps_notes_and_reason_witness :
  map Booking.cancellation_reason
      (bookings (snd (updateBookingStatus alwaysResolves "owner-1" "b-1" "completed"
                        "note" "late" (worldWith [morningVisit]))))
  = map Booking.cancellation_reason (bookings (worldWith [morningVisit]))
  /\ map Booking.salon_notes
         (bookings (snd (updateBookingStatus alwaysResolves "client-1" "b-1" "cancelled"
                           "note" "" (worldWith [morningVisit]))))
     = map Booking.salon_notes (bookings (worldWith [morningVisit])).
Proof.
  split.
  - apply (proj1 (status_update_keeps_notes_and_reason alwaysResolves "owner-1" "b-1"
                    "completed" "note" "late" (worldWith [morningVisit]))).
    left. discriminate.
  - apply (proj2 (status_update_keeps_notes_and_reason alwaysResolves "client-1" "b-1"
                    "cancelled" "note" "" (worldWith [morningVisit]))).
    right. intros booking salon Hb Hs.
    vm_compute in Hb. injection Hb as <-. vm_compute in Hs. injection Hs as <-.
    split; [discriminate | left; reflexivity].
Defined.

(* ================================================================== *)
(** * Creating a booking: refusals and repeats *)
(* ================================================================== *)

Ltac refused Hrun :=
  injection Hrun as <- <-; split; [reflexivity | cbn; tauto].

Lemma createBooking_refused rowVisible gen_random_uuid user body w e w' :
  createBooking rowVisible gen_random_uuid user body w = (Throw e, w') ->
  w' = w /\ In e creationErrors.
Proof.
  unfold createBooking. intros Hrun.
  destruct (CreateBookingBody.start_time body) as [start|]; [|refused Hrun].
  repeat run_step Hrun ltac:(refused Hrun).
  unfold bind at 1, insertBooking in Hrun.
  destruct (existsb _ (bookings w)); [refused Hrun|].
  cbn in Hrun. discriminate Hrun.
Qed.

(** X13. A creation request that is refused writes nothing: the tables
    and the event log are as before, and the error is one of missing
    information (400), service not found (404), salon not found (404),
    time-slot conflict (409), family member not found (404) or creation
    failed (500). *)
Theorem refused_creation_writes_nothing :
  forall (rowVisible : string -> Booking.t -> bool) (gen_random_uuid : nat -> string)
         (user : string) (body : CreateBookingBody.t) (w w' : World) (e : AppError),
    createBooking rowVisible gen_random_uuid user body w = (Throw e, w') ->
    w' = w /\ In e creationErrors.
Proof.
  intros rv gen user body w w' e. apply createBooking_refused.
Qed.

Lemma refused_creation_writes_nothing_witness :
  createBooking everyRow uuidOf "client-2" (request "svc-cut" "" 630)
                (worldWith [morningVisit])
  = (Throw (mkAppError 409 "TIME_SLOT_CONFLICT"), worldWith [morningVisit])
  /\ worldWith [morningVisit] = worldWith [morningVisit]
  /\ In (mkAppError 409 "TIME_SLOT_CONFLICT") creationErrors.
Proof.
  split; [reflexivity|].
  apply (refused_creation_writes_nothing everyRow uuidOf "client-2"
           (request "svc-cut" "" 630) (worldWith [morningVisit])).
  reflexivity.
Defined.

Section CreationChecks.

Variable rowVisible : string -> Booking.t -> bool.
Variable gen_random_uuid : nat -> string.

(** A creation succeeds exactly when every check passes and the
    generated key is new. *)
Lemma createBooking_Ok_iff user body w row w' :
  createBooking rowVisible gen_random_uuid user body w = (Ok row, w')
  <-> exists start service salon,
        CreateBookingBody.start_time body = Some start
        /\ absent (CreateBookingBody.salon_id body) = false
        /\ absent (CreateBookingBody.service_id body) = false
        /\ absent (CreateBookingBody.appointment_date body) = false
        /\ serviceById (CreateBookingBody.service_id body) w = Some service
        /\ Service.salon_id service = CreateBookingBody.salon_id body
        /\ salonById (CreateBookingBody.salon_id body) w = Some salon
        /\ creationConflicts rowVisible user (CreateBookingBody.salon_id body)
                             (CreateBookingBody.appointment_date body)
                             start (endTimeOf start (Service.duration service)) w = []
        /\ knownRelative user body w = true
        /\ nextKeyIsNew gen_random_uuid w
        /\ row = createdRow gen_random_uuid user body start (Service.duration service) w
        /\ w' = afterCreation row w.
Proof.
  unfold createBooking, knownRelative, nextKeyIsNew. split.
  - intros Hrun.
    destruct (CreateBookingBody.start_time body) as [start|]; [|discriminate Hrun].
    repeat run_step Hrun ltac:(discriminate Hrun).
    unfold bind at 1, insertBooking in Hrun.
    destruct (existsb _ (bookings w)) eqn:Hkey; [discriminate Hrun|].
    cbn in Hrun. injection Hrun as <- <-.
    apply orb_false_iff in Hcond. destruct Hcond as [Hcond Hdate].
    apply orb_false_iff in Hcond. destruct Hcond as [Hsalon Hservice].
    apply negb_false_iff, String.eqb_eq in Hcond0.
    eexists; eexists; eexists.
    split; [reflexivity|]. split; [exact Hsalon|]. split; [exact Hservice|].
    split; [exact Hdate|]. split; [reflexivity|]. split; [exact Hcond0|].
    split; [reflexivity|]. split.
    + destruct (creationConflicts _ _ _ _ _ _ w) as [|c cs]; [reflexivity|].
      cbn [List.length] in Hcond1. apply Z.ltb_ge in Hcond1. lia.
    + split.
      * destruct (absent (CreateBookingBody.family_member_id body)); [reflexivity|].
        cbn in *. destruct (single _); [reflexivity | discriminate Hcond2].
      * repeat split.
  - intros (start & service & salon & Hs & H1 & H2 & H3 & Hsvc & Hsal & Hsalon & Hfree
            & Hfam & Hkey & -> & ->).
    rewrite Hs.
    rewrite run_throwIf_false by (rewrite H1, H2, H3; reflexivity).
    rewrite run_read, Hsvc, run_found.
    rewrite run_throwIf_false by (rewrite Hsal, String.eqb_refl; reflexivity).
    rewrite run_read, Hsalon, run_found, run_read, Hfree.
    rewrite run_throwIf_false by reflexivity.
    rewrite run_read.
    rewrite run_throwIf_false
      by (destruct (absent (CreateBookingBody.family_member_id body)); [reflexivity|];
          cbn in *; destruct (single _); [reflexivity | discriminate Hfam]).
    unfold bind at 1, insertBooking. rewrite Hkey. reflexivity.
Qed.

End CreationChecks.

Lemma creationConflicts_app rowVisible user salon_id date start finish w rows :
  creationConflicts rowVisible user salon_id date start finish
                    (set_bookings w (bookings w ++ rows))
  = creationConflicts rowVisible user salon_id date start finish w
    ++ creationConflicts rowVisible user salon_id date start finish (set_bookings w rows).
Proof. unfold creationConflicts. cbn [bookings set_bookings]. apply filter_app. Qed.

(** X14. A booking just created blocks the requests that overlap it.
    After a successful creation, a further request for the same salon
    and date whose interval overlaps the stored interval of the new
    row, made by a caller who may read that row and naming a service of
    the salon, is refused with 409 TIME_SLOT_CONFLICT and writes
    nothing. *)
Theorem created_booking_blocks_overlapping_requests :
  forall (rowVisible : string -> Booking.t -> bool) (gen_random_uuid : nat -> string)
         (user : string) (body : CreateBookingBody.t) (w w' : World) (row : Booking.t)
         (user2 : string) (body2 : CreateBookingBody.t) (start2 : Z) (service2 : Service.t),
    createBooking rowVisible gen_random_uuid user body w = (Ok row, w') ->
    CreateBookingBody.start_time body2 = Some start2 ->
    CreateBookingBody.salon_id body2 = CreateBookingBody.salon_id body ->
    CreateBookingBody.appointment_date body2 = CreateBookingBody.appointment_date body ->
    absent (CreateBookingBody.service_id body2) = false ->
    serviceById (CreateBookingBody.service_id body2) w' = Some service2 ->
    Service.salon_id service2 = CreateBookingBody.salon_id body2 ->
    rowVisible user2 row = true ->
    overlaps start2 (endTimeOf start2 (Service.duration service2)) row ->
    createBooking rowVisible gen_random_uuid user2 body2 w'
    = (Throw (mkAppError 409 "TIME_SLOT_CONFLICT"), w').
Proof.
  intros rv gen user body w w' row user2 body2 start2 service2
         Hfirst Hs2 Hsalon2 Hdate2 Hsid2 Hsvc2 Hof2 Hvis [Hlt Hgt].
  apply createBooking_Ok_iff in Hfirst.
  destruct Hfirst as (start & service & salon & Hs & H1 & H2 & H3 & Hsvc & Hsal & Hsalon
                      & Hfree & Hfam & Hkey & Hrow & Hw').
  assert (Hin : In row (bookings w'))
    by (rewrite Hw'; cbn; apply in_or_app; right; left; reflexivity).
  assert (Hsalons : salonById (CreateBookingBody.salon_id body2) w' = Some salon)
    by (rewrite Hsalon2, Hw'; exact Hsalon).
  unfold createBooking. rewrite Hs2.
  rewrite run_throwIf_false by (rewrite Hsalon2, Hdate2, H1, H3, Hsid2; reflexivity).
  rewrite run_read, Hsvc2, run_found.
  rewrite run_throwIf_false by (rewrite Hof2, String.eqb_refl; reflexivity).
  rewrite run_read, Hsalons, run_found, run_read.
  rewrite run_throwIf_true; [reflexivity|].
  apply Z.ltb_lt.
  assert (Hb : In row (creationConflicts rv user2 (CreateBookingBody.salon_id body2)
                         (CreateBookingBody.appointment_date body2) start2
                         (endTimeOf start2 (Service.duration service2)) w')).
  { apply filter_In. split; [exact Hin|].
    rewrite Hvis, Hsalon2, Hdate2. rewrite Hrow at 1 2 3. cbn.
    rewrite !String.eqb_refl. cbn.
    apply andb_true_iff. split; [apply Z.ltb_lt; exact Hlt | apply Z.gtb_lt; exact Hgt]. }
  destruct (creationConflicts _ _ _ _ _ _ w') as [|c cs]; [contradiction|].
  cbn [List.length]. lia.
Qed.

Lemma created_booking_blocks_overlapping_requests_witness :
  createBooking everyRow uuidOf "client-2" (request "svc-trim" "" 630)
    (snd (createBooking everyRow uuidOf "client-1" (request "svc-cut" "" 600)
            (worldWith [])))
  = (Throw (mkAppError 409 "TIME_SLOT_CONFLICT"),
     snd (createBooking everyRow uuidOf "client-1" (request "svc-cut" "" 600)
            (worldWith []))).
Proof.
  apply (created_booking_blocks_overlapping_requests everyRow uuidOf
           "client-1" (request "svc-cut" "" 600) (worldWith [])
           (snd (createBooking everyRow uuidOf "client-1" (request "svc-cut" "" 600)
                   (worldWith [])))
           (createdRow uuidOf "client-1" (request "svc-cut" "" 600) 600 60 (worldWith []))
           "client-2" (request "svc-trim" "" 630) 630 trim30);
    try reflexivity.
  split; vm_compute; reflexivity.
Defined.

(** X15. A booking whose stored end time is not after its start time,
    as happens when the service runs past midnight or has no positive
    duration, does not block a repeat of its own request: after the
    successful creation, the same request from the same caller succeeds
    again, provided the next generated key is new, and so the table
    holds two live rows of the same salon, date and times. *)
Theorem booking_past_midnight_can_be_repeated :
  forall (rowVisible : string -> Booking.t -> bool) (gen_random_uuid : nat -> string)
         (user : string) (body : CreateBookingBody.t) (w w' : World) (row : Booking.t),
    createBooking rowVisible gen_random_uuid user body w = (Ok row, w') ->
    Booking.end_time row <= Booking.start_time row ->
    nextKeyIsNew gen_random_uuid w' ->
    exists row2 w2,
      createBooking rowVisible gen_random_uuid user body w' = (Ok row2, w2)
      /\ Booking.id row2 = gen_random_uuid (generated w')
      /\ Booking.status row = "confirmed"
      /\ Booking.status row2 = "confirmed"
      /\ (Booking.salon_id row2, Booking.appointment_date row2,
          Booking.start_time row2, Booking.end_time row2)
         = (Booking.salon_id row, Booking.appointment_date row,
            Booking.start_time row, Booking.end_time row)
      /\ bookings w2 = bookings w ++ [row; row2].
Proof.
  intros rv gen user body w w' row Hfirst Hwrap Hkey'.
  apply createBooking_Ok_iff in Hfirst.
  destruct Hfirst as (start & service & salon & Hs & H1 & H2 & H3 & Hsvc & Hsal & Hsalon
                      & Hfree & Hfam & Hkey & Hrow & Hw').
  exists (createdRow gen user body start (Service.duration service) w').
  exists (afterCreation (createdRow gen user body start (Service.duration service) w') w').
  split.
  - apply createBooking_Ok_iff. exists start, service, salon.
    split; [exact Hs|]. split; [exact H1|]. split; [exact H2|]. split; [exact H3|].
    split; [rewrite Hw'; exact Hsvc|]. split; [exact Hsal|].
    split; [rewrite Hw'; exact Hsalon|]. split.
    + rewrite Hw'. unfold afterCreation.
      change (creationConflicts rv user ?s ?d ?a ?b (add_event (add_event (bump_generated ?v) _) _))
        with (creationConflicts rv user s d a b v).
      rewrite creationConflicts_app, Hfree. cbn [app].
      unfold creationConflicts. cbn [bookings set_bookings filter].
      rewrite Hrow in Hwrap. cbn in Hwrap.
      replace (Booking.start_time row <? endTimeOf start (Service.duration service))
        with false; [rewrite andb_false_r; reflexivity|].
      rewrite Hrow. cbn. symmetry. apply Z.ltb_ge. exact Hwrap.
    + split; [rewrite Hw'; exact Hfam|]. split; [exact Hkey'|]. split; reflexivity.
  - rewrite Hrow. cbn. split; [reflexivity|]. split; [reflexivity|].
    split; [reflexivity|]. split; [reflexivity|].
    rewrite Hw', Hrow. cbn. rewrite <- app_assoc. reflexivity.
Qed.

Lemma booking_past_midnight_can_be_repeated_witness :
  Booking.end_time lateVisit = 30
  /\ exists row2 w2,
       createBooking everyRow uuidOf "client-1" lateRequest afterLateVisit = (Ok row2, w2)
       /\ Booking.id row2 = uuidOf (generated afterLateVisit)
       /\ Booking.status lateVisit = "confirmed"
       /\ Booking.status row2 = "confirmed"
       /\ (Booking.salon_id row2, Booking.appointment_date row2,
           Booking.start_time row2, Booking.end_time row2)
          = (Booking.salon_id lateVisit, Booking.appointment_date lateVisit,
             Booking.start_time lateVisit, Booking.end_time lateVisit)
       /\ bookings w2 = bookings (worldWith []) ++ [lateVisit; row2].
Proof.
  split; [reflexivity|].
  apply (booking_past_midnight_can_be_repeated everyRow uuidOf "client-1" lateRequest
           (worldWith []) afterLateVisit lateVisit).
  - reflexivity.
  - vm_compute. discriminate.
  - reflexivity.
Defined.

(* ================================================================== *)
(** * Rescheduling: refusals and what is written *)
(* ================================================================== *)

Lemma rescheduleBooking_cases user bookingId date newStart w result w' :
  rescheduleBooking user bookingId date newStart w = (result, w') ->
  (exists e, result = Throw e /\ w' = w /\ In e rescheduleErrors)
  \/ exists start booking service,
       newStart = Some start
       /\ absent date = false
       /\ bookingById bookingId w = Some booking
       /\ Booking.client_id booking = user
       /\ In (Booking.status booking) ["pending"; "confirmed"]
       /\ serviceById (Booking.service_id booking) w = Some service
       /\ rescheduleConflicts booking bookingId date start
                              (endTimeOf start (Service.duration service)) w = []
       /\ result = Ok (movedTo date start (endTimeOf start (Service.duration service))
                               booking)
       /\ w' = add_event
                 (updateBooking bookingId
                    (movedTo date start (endTimeOf start (Service.duration service))) w)
                 (RescheduleNoticeEmail bookingId (Booking.appointment_date booking)
                                        (Booking.start_time booking)).
Proof.
  unfold rescheduleBooking. intros Hrun.
  assert (Hrefused : forall e, In e rescheduleErrors -> (Throw e, w) = (result, w') ->
            (exists e, result = Throw e /\ w' = w /\ In e rescheduleErrors)
            \/ exists start booking service,
                 newStart = Some start
                 /\ absent date = false
                 /\ bookingById bookingId w = Some booking
                 /\ Booking.client_id booking = user
                 /\ In (Booking.status booking) ["pending"; "confirmed"]
                 /\ serviceById (Booking.service_id booking) w = Some service
                 /\ rescheduleConflicts booking bookingId date start
                      (endTimeOf start (Service.duration service)) w = []
                 /\ result = Ok (movedTo date start
                                   (endTimeOf start (Service.duration service)) booking)
                 /\ w' = add_event
                           (updateBooking bookingId
                              (movedTo date start
                                 (endTimeOf start (Service.duration service))) w)
                           (RescheduleNoticeEmail bookingId
                              (Booking.appointment_date booking)
                              (Booking.start_time booking))).
  { intros e He Heq. injection Heq as <- <-. left. exists e. repeat split. exact He. }
  destruct newStart as [start|];
    [|eapply Hrefused; [|exact Hrun]; cbn; tauto].
  do 9 run_step Hrun ltac:(eapply Hrefused; [|exact Hrun]; cbn; tauto).
  clear Hrefused.
  rewrite run_write, run_read in Hrun.
  rewrite bookingById_updateBooking in Hrun by reflexivity.
  rewrite Hfound in Hrun. cbn [option_map] in Hrun.
  rewrite run_found, run_emit in Hrun. cbn in Hrun. injection Hrun as <- <-.
  right. exists start, t, t0.
  split; [reflexivity|]. split; [reflexivity|]. split; [reflexivity|].
  apply negb_false_iff, String.eqb_eq in Hcond0.
  apply negb_false_iff, includes_In in Hcond1.
  split; [exact Hcond0|]. split; [exact Hcond1|].
  split; [first [exact Hfound0 | reflexivity]|].
  split; [|split; reflexivity].
  destruct (rescheduleConflicts t bookingId date start _ w) as [|c cs]; [reflexivity|].
  cbn [List.length] in Hcond2. apply Z.ltb_ge in Hcond2. lia.
Qed.

(** X16. A reschedule that is refused writes nothing: the tables and
    the event log are as before, and the error is one of missing fields
    (400), booking not found (404), not the caller's booking (403),
    status neither pending nor confirmed (400), reschedule failed (500)
    or time-slot conflict (409). *)
Theorem refused_reschedule_writes_nothing :
  forall (user bookingId appointment_date : string) (start_time : option Z)
         (w w' : World) (e : AppError),
    rescheduleBooking user bookingId appointment_date start_time w = (Throw e, w') ->
    w' = w /\ In e rescheduleErrors.
Proof.
  intros user bookingId date start w w' e Hrun.
  apply rescheduleBooking_cases in Hrun.
  destruct Hrun as [(e' & He & Hw & Hin)|(s & b & svc & _ & _ & _ & _ & _ & _ & _ & Hr & _)].
  - injection He as <-. split; assumption.
  - discriminate Hr.
Qed.

Lemma refused_reschedule_writes_nothing_witness :
  rescheduleBooking "client-2" "b-1" "2025-03-04" (Some 600) (worldWith [morningVisit])
  = (Throw (mkAppError 403 "INSUFFICIENT_PERMISSIONS"), worldWith [morningVisit])
  /\ worldWith [morningVisit] = worldWith [morningVisit]
  /\ In (mkAppError 403 "INSUFFICIENT_PERMISSIONS") rescheduleErrors.
Proof.
  split; [reflexivity|].
  apply (refused_reschedule_writes_nothing "client-2" "b-1" "2025-03-04" (Some 600)
           (worldWith [morningVisit])).
  reflexivity.
Defined.

Lemma single_filter_only {A} (p : A -> bool) (rows : list A) (r x : A) :
  single (filter p rows) = Some r -> In x rows -> p x = true -> x = r.
Proof.
  intros Hone Hx Hp.
  assert (Hin : In x (filter p rows)) by (apply filter_In; split; assumption).
  destruct (filter p rows) as [|y [|z rest]]; try discriminate Hone.
  injection Hone as <-. destruct Hin as [<-|[]]. reflexivity.
Qed.

Lemma updated_rows bookingId (f : Booking.t -> Booking.t) (moved : Booking.t)
      (rows : list Booking.t) :
  (forall b, In b rows -> String.eqb (Booking.id b) bookingId = true -> f b = moved) ->
  Forall2 (fun before after =>
             after = if String.eqb (Booking.id before) bookingId then moved else before)
          rows
          (map (fun b => if String.eqb (Booking.id b) bookingId then f b else b) rows).
Proof.
  induction rows as [|b rows IH]; intros Hrows; cbn [map]; constructor.
  - destruct (String.eqb (Booking.id b) bookingId) eqn:Hid; [|reflexivity].
    apply Hrows; [left; reflexivity | exact Hid].
  - apply IH. intros b' Hb'. apply Hrows. right. exact Hb'.
Qed.

(** X17. A successful reschedule is made by the client of the booking
    on a pending or confirmed booking, and it changes that one row in
    place: the row keeps its identifier, client, salon, service, staff,
    notes and reason, takes the new date, and goes back to [pending]
    even if it was confirmed. Every other row is as before, in the same
    order; no other table is written; one reschedule notice with the
    previous date and start time is added to the event log. *)
Theorem reschedule_moves_one_booking :
  forall (user bookingId appointment_date : string) (start_time : option Z)
         (w w' : World) (moved : Booking.t),
    rescheduleBooking user bookingId appointment_date start_time w = (Ok moved, w') ->
    exists booking,
      bookingById bookingId w = Some booking
      /\ Booking.client_id booking = user
      /\ In (Booking.status booking) ["pending"; "confirmed"]
      /\ Booking.status moved = "pending"
      /\ Booking.appointment_date moved = appointment_date
      /\ (Booking.id moved, Booking.client_id moved, Booking.salon_id moved,
          Booking.service_id moved, Booking.staff_id moved, Booking.salon_notes moved,
          Booking.cancellation_reason moved)
         = (Booking.id booking, Booking.client_id booking, Booking.salon_id booking,
            Booking.service_id booking, Booking.staff_id booking,
            Booking.salon_notes booking, Booking.cancellation_reason booking)
      /\ Forall2 (fun before after =>
                    after = if String.eqb (Booking.id before) bookingId
                            then moved else before)
                 (bookings w) (bookings w')
      /\ otherTables w' = otherTables w
      /\ events w' = events w ++ [RescheduleNoticeEmail bookingId
                                    (Booking.appointment_date booking)
                                    (Booking.start_time booking)].
Proof.
  intros user bookingId date newStart w w' moved Hrun.
  apply rescheduleBooking_cases in Hrun.
  destruct Hrun as [(e & He & _)|(start & booking & service & _ & _ & Hb & Hclient & Hstatus
                                  & _ & _ & Hmoved & ->)];
    [discriminate He|].
  injection Hmoved as ->. exists booking.
  split; [exact Hb|]. split; [exact Hclient|]. split; [exact Hstatus|].
  split; [reflexivity|]. split; [reflexivity|]. split; [reflexivity|].
  split; [|split; reflexivity].
  cbn [bookings add_event updateBooking set_bookings].
  apply updated_rows. intros b Hin Hid.
  rewrite (single_filter_only _ _ _ _ Hb Hin Hid). reflexivity.
Qed.

Lemma reschedule_moves_one_booking_witness :
  exists booking,
    bookingById "b-1" (worldWith [morningVisit; afternoonVisit]) = Some booking
    /\ Booking.client_id booking = "client-1"
    /\ In (Booking.status booking) ["pending"; "confirmed"]
    /\ Booking.status (movedTo "2025-03-04" 600 660 morningVisit) = "pending"
    /\ Booking.appointment_date (movedTo "2025-03-04" 600 660 morningVisit) = "2025-03-04"
    /\ (let moved := movedTo "2025-03-04" 600 660 morningVisit in
        (Booking.id moved, Booking.client_id moved, Booking.salon_id moved,
         Booking.service_id moved, Booking.staff_id moved, Booking.salon_notes moved,
         Booking.cancellation_reason moved))
       = (Booking.id booking, Booking.client_id booking, Booking.salon_id booking,
          Booking.service_id booking, Booking.staff_id booking,
          Booking.salon_notes booking, Booking.cancellation_reason booking)
    /\ Forall2 (fun before after =>
                  after = if String.eqb (Booking.id before) "b-1"
                          then movedTo "2025-03-04" 600 660 morningVisit else before)
               (bookings (worldWith [morningVisit; afternoonVisit]))
               (bookings (snd (rescheduleBooking "client-1" "b-1" "2025-03-04" (Some 600)
                                 (worldWith [morningVisit; afternoonVisit]))))
    /\ otherTables (snd (rescheduleBooking "client-1" "b-1" "2025-03-04" (Some 600)
                           (worldWith [morningVisit; afternoonVisit])))
       = otherTables (worldWith [morningVisit; afternoonVisit])
    /\ events (snd (rescheduleBooking "client-1" "b-1" "2025-03-04" (Some 600)
                      (worldWith [morningVisit; afternoonVisit])))
       = events (worldWith [morningVisit; afternoonVisit])
         ++ [RescheduleNoticeEmail "b-1" (Booking.appointment_date booking)
                                   (Booking.start_time booking)].
Proof.
  apply (reschedule_moves_one_booking "client-1" "b-1" "2025-03-04" (Some 600)
           (worldWith [morningVisit; afternoonVisit])
           (snd (rescheduleBooking "client-1" "b-1" "2025-03-04" (Some 600)
                   (worldWith [morningVisit; afternoonVisit])))
           (movedTo "2025-03-04" 600 660 morningVisit)).
  reflexivity.
Defined.

(* ================================================================== *)
(** * Invariants of the booking table *)
(* ================================================================== *)

Lemma onlyAppends_refl w : onlyAppends w w.
Proof.
  repeat split; try (exists []; rewrite app_nil_r; reflexivity). apply Nat.le_refl.
Qed.

Lemma onlyAppends_trans w1 w2 w3 :
  onlyAppends w1 w2 -> onlyAppends w2 w3 -> onlyAppends w1 w3.
Proof.
  intros (Ho1 & (i1 & Hi1) & (e1 & He1) & Hg1) (Ho2 & (i2 & Hi2) & (e2 & He2) & Hg2).
  split; [rewrite Ho2; exact Ho1|]. split; [|split].
  - exists (i1 ++ i2). rewrite Hi2, Hi1, app_assoc. reflexivity.
  - exists (e1 ++ e2). rewrite He2, He1, app_assoc. reflexivity.
  - exact (Nat.le_trans _ _ _ Hg1 Hg2).
Qed.

Lemma updateBooking_keys bookingId f w :
  (forall b, Booking.id (f b) = Booking.id b) ->
  map Booking.id (bookings (updateBooking bookingId f w)) = map Booking.id (bookings w).
Proof. apply map_column_kept. Qed.

(** The event log of a run that changes no booking key. *)
Ltac log_done Hrun :=
  injection Hrun as <- <-; cbn [events add_event updateBooking set_bookings];
  rewrite <- ?app_assoc; eexists; first [reflexivity | symmetry; apply app_nil_r].

Lemma updateBookingStatus_log pw user bookingId status staff_notes reason w result w' :
  updateBookingStatus pw user bookingId status staff_notes reason w = (result, w') ->
  exists more, events w' = events w ++ more.
Proof.
  unfold updateBookingStatus. intros Hrun.
  repeat run_step Hrun ltac:(log_done Hrun).
  destruct (String.eqb status "cancelled").
  - repeat run_step Hrun ltac:(log_done Hrun).
    unfold awaitWaitlist in Hrun.
    repeat run_step Hrun ltac:(log_done Hrun).
    destruct (pw _ _ _ _); cbn in Hrun; log_done Hrun.
  - repeat run_step Hrun ltac:(log_done Hrun). cbn in Hrun. log_done Hrun.
Qed.

Lemma cancelBookingAsSalonOwner_log user bookingId reason w result w' :
  cancelBookingAsSalonOwner user bookingId reason w = (result, w') ->
  exists more, events w' = events w ++ more.
Proof.
  unfold cancelBookingAsSalonOwner. intros Hrun.
  repeat run_step Hrun ltac:(log_done Hrun).
  destruct (serviceById _ _);
    repeat run_step Hrun ltac:(log_done Hrun); cbn in Hrun; log_done Hrun.
Qed.

Lemma restatused_keys bookingId status before after :
  Forall2 (restatused bookingId status) before after ->
  map Booking.id after = map Booking.id before.
Proof.
  intros Hrows. apply restatused_placement in Hrows.
  apply (f_equal (map (fun p => fst (fst (fst (fst (fst (fst (fst p))))))))) in Hrows.
  rewrite !map_map in Hrows. exact Hrows.
Qed.

Section RequestInvariants.

Variable rowVisible : string -> Booking.t -> bool.
Variable gen_random_uuid : nat -> string.
Variable processWaitlistForCancelledBooking : string -> string -> string -> Z -> Settled.

Lemma createBooking_world user body w :
  snd (createBooking rowVisible gen_random_uuid user body w) = w
  \/ exists row,
       fst (createBooking rowVisible gen_random_uuid user body w) = Ok row
       /\ nextKeyIsNew gen_random_uuid w
       /\ Booking.id row = gen_random_uuid (generated w)
       /\ snd (createBooking rowVisible gen_random_uuid user body w) = afterCreation row w.
Proof.
  destruct (createBooking rowVisible gen_random_uuid user body w) as [[row|e] w'] eqn:Hrun.
  - right. exists row. apply createBooking_Ok_iff in Hrun.
    destruct Hrun as (start & service & salon & _ & _ & _ & _ & _ & _ & _ & _ & _ & Hkey
                      & Hrow & Hw').
    split; [reflexivity|]. split; [exact Hkey|]. split; [rewrite Hrow; reflexivity|].
    exact Hw'.
  - left. apply createBooking_refused in Hrun. apply Hrun.
Qed.

Lemma rescheduleBooking_world user bookingId date start w :
  snd (rescheduleBooking user bookingId date start w) = w
  \/ exists f e,
       (forall b, Booking.id (f b) = Booking.id b)
       /\ snd (rescheduleBooking user bookingId date start w)
          = add_event (updateBooking bookingId f w) e.
Proof.
  destruct (rescheduleBooking user bookingId date start w) as [r w'] eqn:Hrun.
  apply rescheduleBooking_cases in Hrun.
  destruct Hrun as [(e & _ & Hw & _)|(s & b & svc & _ & _ & _ & _ & _ & _ & _ & _ & Hw)].
  - left. exact Hw.
  - right. eexists. eexists. split; [|exact Hw]. reflexivity.
Qed.

Lemma bookingRequest_onlyAppends w w' :
  bookingRequest rowVisible gen_random_uuid processWaitlistForCancelledBooking w w' ->
  onlyAppends w w'.
Proof.
  intros [user body w0|user bookingId date start w0|user bookingId status notes reason w0
         |user bookingId reason w0|now user salon_id service_id date staff_id w0].
  - destruct (createBooking_world user body w0) as [->|(row & _ & _ & _ & ->)];
      [apply onlyAppends_refl|].
    split; [reflexivity|]. split; [|split].
    + exists [Booking.id row]. cbn. apply map_app.
    + eexists. cbn. rewrite <- app_assoc. reflexivity.
    + cbn. apply Nat.le_succ_diag_r.
  - destruct (rescheduleBooking_world user bookingId date start w0)
      as [->|(f & e & Hf & ->)]; [apply onlyAppends_refl|].
    split; [reflexivity|]. split; [|split].
    + exists []. rewrite app_nil_r.
      change (bookings (add_event ?v e)) with (bookings v).
      apply updateBooking_keys, Hf.
    + exists [e]. reflexivity.
    + apply Nat.le_refl.
  - destruct (updateBookingStatus _ user bookingId status notes reason w0)
      as [r w1] eqn:Hrun.
    pose proof (updateBookingStatus_log _ _ _ _ _ _ _ _ _ Hrun) as Hlog.
    apply updateBookingStatus_frame in Hrun. destruct Hrun as (Ho & Hg & Hrows).
    cbn [snd]. split; [exact Ho|]. split; [|split; [exact Hlog | rewrite Hg; apply Nat.le_refl]].
    exists []. rewrite app_nil_r. exact (restatused_keys _ _ _ _ Hrows).
  - destruct (cancelBookingAsSalonOwner user bookingId reason w0) as [r w1] eqn:Hrun.
    pose proof (cancelBookingAsSalonOwner_log _ _ _ _ _ _ Hrun) as Hlog.
    apply cancelBookingAsSalonOwner_frame in Hrun. destruct Hrun as (Ho & Hg & Hrows).
    cbn [snd]. split; [exact Ho|]. split; [|split; [exact Hlog | rewrite Hg; apply Nat.le_refl]].
    exists []. rewrite app_nil_r. exact (restatused_keys _ _ _ _ Hrows).
  - rewrite getAvailableSlots_run.
    destruct (absent salon_id || absent service_id || absent date);
      [apply onlyAppends_refl|].
    destruct (serviceById service_id w0); [|apply onlyAppends_refl].
    destruct (salonById salon_id w0); apply onlyAppends_refl.
Qed.

Lemma existsb_key_In key (rows : list Booking.t) :
  existsb (fun b => String.eqb (Booking.id b) key) rows = false ->
  ~ In key (map Booking.id rows).
Proof.
  intros Hnone Hin. apply in_map_iff in Hin. destruct Hin as (b & <- & Hb).
  assert (Hex : existsb (fun b' => String.eqb (Booking.id b') (Booking.id b)) rows = true)
    by (apply existsb_exists; exists b; split; [exact Hb | apply String.eqb_refl]).
  rewrite Hnone in Hex. discriminate Hex.
Qed.

Lemma NoDup_snoc {A} (l : list A) (x : A) : NoDup l -> ~ In x l -> NoDup (l ++ [x]).
Proof.
  induction 1 as [|y l Hy Hl IH]; intros Hx; cbn.
  - constructor; [intros [] | constructor].
  - constructor.
    + intros Hin. apply in_app_or in Hin. destruct Hin as [Hin|[<-|[]]].
      * exact (Hy Hin).
      * apply Hx. left. reflexivity.
    + apply IH. intros Hin. apply Hx. right. exact Hin.
Qed.

Lemma bookingRequest_uniqueKeys w w' :
  bookingRequest rowVisible gen_random_uuid processWaitlistForCancelledBooking w w' ->
  uniqueKeys w -> uniqueKeys w'.
Proof.
  unfold uniqueKeys.
  intros [user body w0|user bookingId date start w0|user bookingId status notes reason w0
         |user bookingId reason w0|now user salon_id service_id date staff_id w0] Hunique.
  - destruct (createBooking_world user body w0) as [->|(row & _ & Hkey & Hid & ->)];
      [exact Hunique|].
    cbn. rewrite map_app. cbn. rewrite Hid.
    apply NoDup_snoc; [exact Hunique | apply existsb_key_In, Hkey].
  - destruct (rescheduleBooking_world user bookingId date start w0)
      as [->|(f & e & Hf & ->)]; [exact Hunique|].
    change (bookings (add_event ?v e)) with (bookings v).
    rewrite updateBooking_keys by exact Hf. exact Hunique.
  - destruct (updateBookingStatus _ user bookingId status notes reason w0)
      as [r w1] eqn:Hrun.
    apply updateBookingStatus_frame in Hrun. destruct Hrun as (_ & _ & Hrows).
    cbn [snd]. rewrite (restatused_keys _ _ _ _ Hrows). exact Hunique.
  - destruct (cancelBookingAsSalonOwner user bookingId reason w0) as [r w1] eqn:Hrun.
    apply cancelBookingAsSalonOwner_frame in Hrun. destruct Hrun as (_ & _ & Hrows).
    cbn [snd]. rewrite (restatused_keys _ _ _ _ Hrows). exact Hunique.
  - pose proof (bookingRequest_onlyAppends _ _
                  (listing_request rowVisible gen_random_uuid
                     processWaitlistForCancelledBooking
                     now user salon_id service_id date staff_id w0)) as Happ.
    rewrite getAvailableSlots_run in *.
    destruct (absent salon_id || absent service_id || absent date); [exact Hunique|].
    destruct (serviceById service_id w0); [|exact Hunique].
    destruct (salonById salon_id w0); exact Hunique.
Qed.

Lemma unique_key_is_found (w : World) (b : Booking.t) :
  uniqueKeys w -> In b (bookings w) -> bookingById (Booking.id b) w = Some b.
Proof.
  unfold uniqueKeys, bookingById. induction (bookings w) as [|x rows IH]; [intros _ []|].
  cbn [map filter]. intros Hunique Hin. apply NoDup_cons_iff in Hunique.
  destruct Hunique as [Hx Hrows].
  assert (Hnone : forall key, ~ In key (map Booking.id rows) ->
                    filter (fun b' => String.eqb (Booking.id b') key) rows = []).
  { intros key Hkey. clear -Hkey. induction rows as [|y rows IH]; [reflexivity|].
    cbn. destruct (String.eqb_spec (Booking.id y) key) as [Heq|_].
    - exfalso. apply Hkey. left. exact Heq.
    - apply IH. intros Hin. apply Hkey. right. exact Hin. }
  destruct Hin as [->|Hin].
  - rewrite String.eqb_refl, (Hnone _ Hx). reflexivity.
  - destruct (String.eqb_spec (Booking.id x) (Booking.id b)) as [Heq|_].
    + exfalso. apply Hx. rewrite Heq. apply in_map. exact Hin.
    + apply IH; assumption.
Qed.

End RequestInvariants.

(** X18. Requests to the booking controller never delete or reorder a
    booking and never write another table. After any sequence of
    creations, reschedules, status updates, owner cancels and slot
    listings, however each of them ends, the keys of the booking rows
    are the earlier keys in the earlier order followed by the new ones,
    the event log is the earlier log followed by new events, and
    services, salons, staff, family members and reviews are as they
    were. *)
Theorem booking_requests_only_append :
  forall (rowVisible : string -> Booking.t -> bool) (gen_random_uuid : nat -> string)
         (processWaitlistForCancelledBooking : string -> string -> string -> Z -> Settled)
         (w w' : World),
    afterRequests rowVisible gen_random_uuid processWaitlistForCancelledBooking w w' ->
    otherTables w' = otherTables w
    /\ (exists more, map Booking.id (bookings w') = map Booking.id (bookings w) ++ more)
    /\ (exists more, events w' = events w ++ more)
    /\ (generated w <= generated w')%nat.
Proof.
  intros rv gen pw w w' Hseq. change (onlyAppends w w').
  induction Hseq as [w|w w1 w2 _ IH Hstep]; [apply onlyAppends_refl|].
  exact (onlyAppends_trans _ _ _ IH (bookingRequest_onlyAppends _ _ _ _ _ Hstep)).
Qed.

Lemma booking_requests_only_append_witness :
  otherTables afterVisitAndCancel = otherTables (worldWith [])
  /\ (exists more, map Booking.id (bookings afterVisitAndCancel)
                   = map Booking.id (bookings (worldWith [])) ++ more)
  /\ (exists more, events afterVisitAndCancel = events (worldWith []) ++ more)
  /\ (generated (worldWith []) <= generated afterVisitAndCancel)%nat.
Proof.
  apply (booking_requests_only_append everyRow uuidOf alwaysResolves).
  apply (one_more_request _ _ _ _ afterLateVisit).
  - apply (one_more_request _ _ _ _ (worldWith [])); [apply no_request|].
    exact (create_request everyRow uuidOf alwaysResolves "client-1" lateRequest
             (worldWith [])).
  - exact (cancel_request everyRow uuidOf alwaysResolves "owner-1" "row-0" ""
             afterLateVisit).
Defined.

(** X19. Booking keys stay unique. If no two booking rows share a
    key, then after any sequence of requests to the booking controller
    no two rows share a key either, and every row of the table is the
    one row its key selects. *)
Theorem booking_keys_stay_unique :
  forall (rowVisible : string -> Booking.t -> bool) (gen_random_uuid : nat -> string)
         (processWaitlistForCancelledBooking : string -> string -> string -> Z -> Settled)
         (w w' : World),
    afterRequests rowVisible gen_random_uuid processWaitlistForCancelledBooking w w' ->
    NoDup (map Booking.id (bookings w)) ->
    NoDup (map Booking.id (bookings w'))
    /\ forall b, In b (bookings w') -> bookingById (Booking.id b) w' = Some b.
Proof.
  intros rv gen pw w w' Hseq Hunique.
  assert (Hunique' : uniqueKeys w').
  { induction Hseq as [w|w w1 w2 _ IH Hstep]; [exact Hunique|].
    exact (bookingRequest_uniqueKeys _ _ _ _ _ Hstep (IH Hunique)). }
  split; [exact Hunique'|]. intros b. apply unique_key_is_found, Hunique'.
Qed.

Lemma booking_keys_stay_unique_witness :
  NoDup (map Booking.id (bookings afterVisitAndCancel))
  /\ forall b, In b (bookings afterVisitAndCancel) ->
               bookingById (Booking.id b) afterVisitAndCancel = Some b.
Proof.
  apply (booking_keys_stay_unique everyRow uuidOf alwaysResolves (worldWith [])).
  - apply (one_more_request _ _ _ _ afterLateVisit).
    + apply (one_more_request _ _ _ _ (worldWith [])); [apply no_request|].
      exact (create_request everyRow uuidOf alwaysResolves "client-1" lateRequest
               (worldWith [])).
    + exact (cancel_request everyRow uuidOf alwaysResolves "owner-1" "row-0" ""
               afterLateVisit).
  - constructor.
Defined.


(* ================================================================== *)
(** * Updating a service *)
(* ================================================================== *)

(** X20. A service update is confined to the caller's salon: however
    it ends, every service row that has another identifier or belongs
    to another salon is as it was, the addressed row keeps its
    identifier and its salon, no row is added, removed or moved, and
    bookings, salons, reviews and the event log are untouched. *)
Theorem service_update_is_scoped :
  forall (salonId serviceId : string) (name : option string) (duration : option Z)
         (w : World),
    let after := snd (updateService salonId serviceId name duration w) in
    Forall2 (fun before changed =>
               Service.id changed = Service.id before
               /\ Service.salon_id changed = Service.salon_id before
               /\ (Service.id before <> serviceId \/ Service.salon_id before <> salonId ->
                   changed = before))
            (services w) (services after)
    /\ bookings after = bookings w
    /\ salons after = salons w
    /\ reviews after = reviews w
    /\ events after = events w.
Proof.
  intros salonId serviceId name duration w after. subst after.
  assert (Hsame : forall rows : list Service.t,
             Forall2 (fun before changed =>
                        Service.id changed = Service.id before
                        /\ Service.salon_id changed = Service.salon_id before
                        /\ (Service.id before <> serviceId
                            \/ Service.salon_id before <> salonId -> changed = before))
                     rows rows)
    by (induction rows; constructor; [repeat split | assumption]).
  unfold updateService.
  destruct (absent salonId); [cbn; repeat split; apply Hsame|].
  rewrite run_throwIf_false by reflexivity. rewrite run_read.
  destruct (single _) as [service|]; [|cbn; repeat split; apply Hsame].
  rewrite run_found, run_write. cbn. repeat split.
  clear. induction (services w) as [|s rows IH]; cbn [map]; constructor; [|exact IH].
  destruct (String.eqb_spec (Service.id s) serviceId) as [Hid|Hid];
    destruct (String.eqb_spec (Service.salon_id s) salonId) as [Hsal|Hsal]; cbn;
    repeat split; intros [H|H]; contradiction.
Qed.

(* ================================================================== *)
(** * Reviews: refusals, repeats and the soft delete *)
(* ================================================================== *)

Lemma _updateSalonRating_withSummary salonId w :
  _updateSalonRating salonId w = (Ok tt, withSummary salonId w).
Proof.
  unfold withSummary. destruct (_updateSalonRating_run salonId w) as (w' & Hrun & _).
  rewrite Hrun. reflexivity.
Qed.

Lemma run_updateSalonRating {B} salonId (k : unit -> Handler B) w :
  bind (_updateSalonRating salonId) k w = k tt (withSummary salonId w).
Proof. unfold bind at 1. rewrite _updateSalonRating_withSummary. reflexivity. Qed.

Section ReviewRefusals.

Variable gen_random_uuid : nat -> string.

Ltac unchanged Hrun := injection Hrun as <- <-; reflexivity.

Lemma createReview_refused now user body w e w' :
  createReview gen_random_uuid now user body w = (Throw e, w') -> w' = w.
Proof.
  unfold createReview. intros Hrun.
  do 2 run_step Hrun ltac:(unchanged Hrun).
  destruct (negb (absent (CreateReviewBody.booking_id body)));
    repeat run_step Hrun ltac:(unchanged Hrun).
  - unfold bind at 1, insertReview in Hrun.
    destruct (existsb _ (reviews w)); [unchanged Hrun|].
    cbn [orThrow] in Hrun. rewrite run_ret, run_updateSalonRating, run_emit in Hrun.
    discriminate Hrun.
  - unfold bind at 1, insertReview in Hrun.
    destruct (existsb _ (reviews w)); [unchanged Hrun|].
    cbn [orThrow] in Hrun. rewrite run_ret, run_updateSalonRating, run_emit in Hrun.
    discriminate Hrun.
Qed.

End ReviewRefusals.

Lemma updateReview_refused user reviewId rating w e w' :
  updateReview user reviewId rating w = (Throw e, w') -> w' = w.
Proof.
  unfold updateReview. intros Hrun.
  repeat run_step Hrun ltac:(injection Hrun as <- <-; reflexivity).
  rewrite run_updateSalonRating in Hrun. discriminate Hrun.
Qed.

Lemma deleteReview_refused user reviewId w e w' :
  deleteReview user reviewId w = (Throw e, w') -> w' = w.
Proof.
  unfold deleteReview. intros Hrun.
  repeat run_step Hrun ltac:(injection Hrun as <- <-; reflexivity).
  rewrite _updateSalonRating_withSummary in Hrun. discriminate Hrun.
Qed.

(** X21. A review request that is refused writes nothing: when the
    creation, the update or the soft delete of a review ends in an
    error, the reviews, the rating summary of every salon and all other
    tables are as before. *)
Theorem refused_review_request_writes_nothing :
  forall (gen_random_uuid : nat -> string) (now : Clock) (user : string)
         (body : CreateReviewBody.t) (reviewId : string) (rating : option Z)
         (w w' : World) (e : AppError),
    createReview gen_random_uuid now user body w = (Throw e, w')
    \/ updateReview user reviewId rating w = (Throw e, w')
    \/ deleteReview user reviewId w = (Throw e, w') ->
    w' = w.
Proof.
  intros gen now user body reviewId rating w w' e [H|[H|H]].
  - exact (createReview_refused gen now user body w e w' H).
  - exact (updateReview_refused user reviewId rating w e w' H).
  - exact (deleteReview_refused user reviewId w e w' H).
Qed.

Lemma refused_review_request_writes_nothing_witness :
  updateReview "client-2" "r-1" (Some 1) reviewedWorld
  = (Throw (mkAppError 404 "REVIEW_NOT_FOUND"), reviewedWorld)
  /\ reviewedWorld = reviewedWorld.
Proof.
  split; [reflexivity|].
  apply (refused_review_request_writes_nothing uuidOf noon "client-2"
           (CreateReviewBody.mk "salon-1" "" 5) "r-1" (Some 1)
           reviewedWorld reviewedWorld (mkAppError 404 "REVIEW_NOT_FOUND")).
  right. left. reflexivity.
Defined.

Lemma withSummary_eq salonId w :
  withSummary salonId w
  = set_salons w
      (map (fun s => if String.eqb (Salon.id s) salonId
                     then Salon.mk (Salon.id s) (Salon.owner_id s) (Salon.business_hours s)
                                   (fst (ratingSummary (visibleRatings salonId w)))
                                   (snd (ratingSummary (visibleRatings salonId w)))
                     else s)
           (salons w)).
Proof.
  unfold withSummary, _updateSalonRating. rewrite run_read.
  destruct (ratingSummary (visibleRatings salonId w)) as [average reviewCount].
  reflexivity.
Qed.

Lemma withSummary_reviews salonId w : reviews (withSummary salonId w) = reviews w.
Proof. rewrite withSummary_eq. reflexivity. Qed.

Lemma withSummary_idem salonId w :
  withSummary salonId (withSummary salonId w) = withSummary salonId w.
Proof.
  rewrite (withSummary_eq salonId (withSummary salonId w)).
  rewrite !withSummary_eq.
  change (visibleRatings salonId (set_salons w ?l)) with (visibleRatings salonId w).
  unfold set_salons. cbn [bookings services salons staff family_members reviews events
                          generated].
  f_equal. rewrite map_map. apply map_ext. intros s.
  destruct (String.eqb (Salon.id s) salonId) eqn:Hid; cbn [Salon.id]; rewrite Hid;
    reflexivity.
Qed.

Section ReviewRepeats.

Variable gen_random_uuid : nat -> string.

Lemma createReview_for_booking now user body w review w' :
  createReview gen_random_uuid now user body w = (Ok review, w') ->
  absent (CreateReviewBody.booking_id body) = false ->
  single (reviewsOfBooking (CreateReviewBody.booking_id body) w) = None
  /\ Review.booking_id review = CreateReviewBody.booking_id body
  /\ reviews w' = reviews w ++ [review]
  /\ bookings w' = bookings w
  /\ exists booking,
       single (filter (fun b => String.eqb (Booking.id b) (CreateReviewBody.booking_id body)
                                && String.eqb (Booking.client_id b) user) (bookings w))
       = Some booking
       /\ startsAfter now (Booking.appointment_date booking) (Booking.start_time booking)
          && negb (String.eqb (Booking.status booking) "completed") = false.
Proof.
  unfold createReview, reviewsOfBooking. intros Hrun Hgiven. rewrite Hgiven in Hrun.
  cbn [negb] in Hrun.
  repeat run_step Hrun ltac:(discriminate Hrun).
  unfold bind at 1, insertReview in Hrun.
  destruct (existsb _ (reviews w)); [discriminate Hrun|].
  cbn [orThrow] in Hrun. rewrite run_ret, run_updateSalonRating, run_emit in Hrun.
  unfold ret in Hrun. injection Hrun as <- <-.
  split; [|split; [reflexivity|]; split; [|split]].
  - match goal with
    | H : match ?found with Some _ => true | None => false end = false |- _ =>
        destruct found; [discriminate H | reflexivity]
    end.
  - change (reviews (add_event ?v ?e)) with (reviews v).
    rewrite withSummary_reviews. reflexivity.
  - rewrite withSummary_eq. reflexivity.
  - eexists. split; [first [eassumption | reflexivity] | eassumption].
Qed.

End ReviewRepeats.

(** X22. One review per booking. When at most one review exists for a
    booking and a review naming that booking is created, the new review
    is afterwards the only one for the booking. Every further creation
    request naming the booking is then refused and writes nothing,
    whoever makes it, whenever, with whatever rating and salon; the
    error is one of missing fields (400), invalid rating (400), booking
    not found (404), booking not completed (400) and review already
    exists (409). The same user, asking again at the same moment with
    a salon and a rating from 1 to 5, gets 409 REVIEW_ALREADY_EXISTS. *)
Theorem reviewed_booking_is_not_reviewed_again :
  forall (gen_random_uuid : nat -> string) (now : Clock) (user : string)
         (body : CreateReviewBody.t) (w w' : World) (review : Review.t),
    createReview gen_random_uuid now user body w = (Ok review, w') ->
    absent (CreateReviewBody.booking_id body) = false ->
    (List.length (reviewsOfBooking (CreateReviewBody.booking_id body) w) <= 1)%nat ->
    reviewsOfBooking (CreateReviewBody.booking_id body) w' = [review]
    /\ (forall (now2 : Clock) (user2 : string) (body2 : CreateReviewBody.t),
          CreateReviewBody.booking_id body2 = CreateReviewBody.booking_id body ->
          exists e,
            createReview gen_random_uuid now2 user2 body2 w' = (Throw e, w')
            /\ In e repeatedReviewErrors)
    /\ (forall (body2 : CreateReviewBody.t),
          CreateReviewBody.booking_id body2 = CreateReviewBody.booking_id body ->
          absent (CreateReviewBody.salon_id body2) = false ->
          1 <= CreateReviewBody.rating body2 <= 5 ->
          createReview gen_random_uuid now user body2 w'
          = (Throw (mkAppError 409 "REVIEW_ALREADY_EXISTS"), w')).
Proof.
  intros gen now user body w w' review Hfirst Hgiven Hone.
  destruct (createReview_for_booking gen now user body w review w' Hfirst Hgiven)
    as (Hnone & Hbooking & Hrows & Hkept & booking & Hfound & Hpast).
  assert (Hnow : reviewsOfBooking (CreateReviewBody.booking_id body) w' = [review]).
  { unfold reviewsOfBooking in *. rewrite Hrows, filter_app. cbn [filter].
    rewrite Hbooking, String.eqb_refl.
    destruct (filter _ (reviews w)) as [|r [|r' rest]]; [reflexivity| |].
    - discriminate Hnone.
    - cbn [List.length] in Hone. lia. }
  split; [exact Hnow|]. split.
  - intros now2 user2 body2 Hsame.
    destruct (createReview gen now2 user2 body2 w') as [result w2] eqn:Hrun.
    unfold createReview in Hrun. rewrite Hsame, Hgiven in Hrun. cbn [negb] in Hrun.
    repeat run_step Hrun ltac:(injection Hrun as <- <-; eexists; split;
                               [reflexivity | cbn; tauto]).
    exfalso. unfold reviewsOfBooking in Hnow.
    match goal with
    | H : match single _ with Some _ => true | None => false end = false |- _ =>
        rewrite Hnow in H; discriminate H
    end.
  - intros body2 Hsame Hsalon Hrating.
    unfold createReview. rewrite Hsame, Hgiven. cbn [negb].
    rewrite run_throwIf_false by (rewrite Hsalon; cbn; apply Z.eqb_neq; lia).
    rewrite run_throwIf_false
      by (apply orb_false_iff; split; [apply Z.ltb_ge | rewrite Z.gtb_ltb; apply Z.ltb_ge];
          lia).
    rewrite run_nested, run_read, Hkept, Hfound, run_nested, run_found, run_nested.
    rewrite run_throwIf_false by exact Hpast.
    rewrite run_nested, run_read.
    unfold reviewsOfBooking in Hnow. rewrite Hnow. cbn [single].
    rewrite run_nested, run_throwIf_true by reflexivity. reflexivity.
Qed.

Lemma reviewed_booking_is_not_reviewed_again_witness :
  reviewsOfBooking "b-1" afterFirstReview
  = [Review.mk "row-0" "client-1" "salon-1" "b-1" 4 true]
  /\ (forall (now2 : Clock) (user2 : string) (body2 : CreateReviewBody.t),
        CreateReviewBody.booking_id body2 = "b-1" ->
        exists e,
          createReview uuidOf now2 user2 body2 afterFirstReview
          = (Throw e, afterFirstReview)
          /\ In e repeatedReviewErrors)
  /\ (forall (body2 : CreateReviewBody.t),
        CreateReviewBody.booking_id body2 = "b-1" ->
        absent (CreateReviewBody.salon_id body2) = false ->
        1 <= CreateReviewBody.rating body2 <= 5 ->
        createReview uuidOf noon "client-1" body2 afterFirstReview
        = (Throw (mkAppError 409 "REVIEW_ALREADY_EXISTS"), afterFirstReview)).
Proof.
  apply (reviewed_booking_is_not_reviewed_again uuidOf noon "client-1"
           (CreateReviewBody.mk "salon-1" "b-1" 4) reviewedWorld afterFirstReview
           (Review.mk "row-0" "client-1" "salon-1" "b-1" 4 true)).
  - reflexivity.
  - reflexivity.
  - cbn. lia.
Defined.

Lemma deleteReview_Ok_world user reviewId w w' :
  deleteReview user reviewId w = (Ok tt, w') ->
  exists existing,
    single (filter (fun r => String.eqb (Review.id r) reviewId
                             && String.eqb (Review.client_id r) user) (reviews w))
    = Some existing
    /\ absent reviewId = false
    /\ w' = withSummary (Review.salon_id existing)
              (set_reviews w
                 (map (fun r => if String.eqb (Review.id r) reviewId then hidden r else r)
                      (reviews w))).
Proof.
  unfold deleteReview. intros Hrun.
  repeat run_step Hrun ltac:(discriminate Hrun).
  rewrite _updateSalonRating_withSummary in Hrun. injection Hrun as <-.
  eexists. split; [reflexivity|]. split; reflexivity.
Qed.

Lemma hide_twice reviewId (rows : list Review.t) :
  map (fun r => if String.eqb (Review.id r) reviewId then hidden r else r)
      (map (fun r => if String.eqb (Review.id r) reviewId then hidden r else r) rows)
  = map (fun r => if String.eqb (Review.id r) reviewId then hidden r else r) rows.
Proof.
  rewrite map_map. apply map_ext. intros r.
  destruct (String.eqb (Review.id r) reviewId) eqn:Hid; [|rewrite Hid; reflexivity].
  cbn [hidden Review.id]. rewrite Hid. reflexivity.
Qed.

(** X23. The delete of a review is a soft delete and can be repeated.
    A successful delete keeps every review row, with its key, client,
    salon, booking and rating, and only marks the addressed row as not
    visible; the same request made again succeeds again and changes
    nothing, neither a review nor the rating summary of any salon. *)
Theorem soft_delete_keeps_the_row_and_can_be_repeated :
  forall (user reviewId : string) (w w' : World),
    deleteReview user reviewId w = (Ok tt, w') ->
    Forall2 (fun before after =>
               after = if String.eqb (Review.id before) reviewId
                       then hidden before else before)
            (reviews w) (reviews w')
    /\ deleteReview user reviewId w' = (Ok tt, w').
Proof.
  intros user reviewId w w' Hrun.
  apply deleteReview_Ok_world in Hrun.
  destruct Hrun as (existing & Hfound & Hid & ->).
  set (hide := fun r => if String.eqb (Review.id r) reviewId then hidden r else r) in *.
  split.
  - rewrite withSummary_reviews. cbn [reviews set_reviews].
    clear. induction (reviews w); cbn [map]; constructor; [reflexivity | assumption].
  - unfold deleteReview.
    rewrite run_throwIf_false by exact Hid.
    rewrite run_read, withSummary_reviews. cbn [reviews set_reviews].
    rewrite filter_map_same
      by (intros r; unfold hide; destruct (String.eqb (Review.id r) reviewId) eqn:Hr;
          cbn [hidden Review.id Review.client_id]; rewrite Hr; reflexivity).
    rewrite single_map, Hfound. cbn [option_map]. rewrite run_found, run_write.
    rewrite _updateSalonRating_withSummary. f_equal.
    rewrite withSummary_reviews. cbn [reviews set_reviews].
    fold hide. unfold hide at 1 2. rewrite hide_twice. fold hide.
    assert (Hsalon : Review.salon_id (hide existing) = Review.salon_id existing)
      by (unfold hide; destruct (String.eqb (Review.id existing) reviewId); reflexivity).
    change (if String.eqb (Review.id existing) reviewId then hidden existing else existing)
      with (hide existing).
    rewrite Hsalon.
    set (w1 := set_reviews w (map hide (reviews w))).
    replace (set_reviews (withSummary (Review.salon_id existing) w1) (map hide (reviews w)))
      with (withSummary (Review.salon_id existing) w1);
      [apply withSummary_idem|].
    rewrite withSummary_eq. reflexivity.
Qed.

Lemma soft_delete_keeps_the_row_and_can_be_repeated_witness :
  Forall2 (fun before after =>
             after = if String.eqb (Review.id before) "r-2" then hidden before else before)
          (reviews reviewedWorld)
          (reviews (snd (deleteReview "client-1" "r-2" reviewedWorld)))
  /\ deleteReview "client-1" "r-2" (snd (deleteReview "client-1" "r-2" reviewedWorld))
     = (Ok tt, snd (deleteReview "client-1" "r-2" reviewedWorld)).
Proof.
  apply (soft_delete_keeps_the_row_and_can_be_repeated "client-1" "r-2" reviewedWorld).
  vm_compute. reflexivity.
Defined.

Lemma ratingSummary_range ratings :
  (forall r, In r ratings -> 1 <= r <= 5) ->
  Z.of_nat (List.length ratings) <= 10 ^ 13 ->
  snd (ratingSummary ratings) = Z.of_nat (List.length ratings)
  /\ (ratings = [] -> fst (ratingSummary ratings) = 0)
  /\ (ratings <> [] -> 100 <= fst (ratingSummary ratings) <= 500).
Proof.
  intros Hall Hbig. split; [apply ratingSummary_count|]. split; [intros ->; reflexivity|].
  intros Hne. pose proof (ratingSummary_nearest ratings Hne Hall Hbig) as Hnear.
  pose proof (sumRatings_bounds ratings Hall) as [Hlo Hhi].
  assert (Hpos : 0 < Z.of_nat (List.length ratings))
    by (destruct ratings; [contradiction | cbn [List.length]; lia]).
  unfold nearestHundredth in Hnear.
  set (n := fst (ratingSummary ratings)) in *.
  set (c := Z.of_nat (List.length ratings)) in *.
  set (s := sumRatings ratings) in *.
  split.
  - destruct (Z.le_gt_cases 100 n) as [H|H]; [exact H|exfalso].
    assert (n * c <= 99 * c) by nia. lia.
  - destruct (Z.le_gt_cases n 500) as [H|H]; [exact H|exfalso].
    assert (501 * c <= n * c) by nia. lia.
Qed.

(** X24. The rating summary [_updateSalonRating] stores for a salon is
    within the range of the ratings. When every stored rating is from 1
    to 5 (and the salon has at most 10^13 visible reviews), the count
    written is the number of visible reviews of the salon and the
    average written is 0 when there are none and from 1.00 to 5.00
    otherwise; the reviews themselves are not touched. *)
Theorem stored_average_is_within_the_ratings :
  forall (salonId : string) (w : World),
    ratingsInRange w ->
    Z.of_nat (List.length (visibleRatings salonId w)) <= 10 ^ 13 ->
    let after := snd (_updateSalonRating salonId w) in
    reviews after = reviews w
    /\ forall s, In s (salons after) -> Salon.id s = salonId ->
         Salon.rating_count s = Z.of_nat (List.length (visibleRatings salonId w))
         /\ (Salon.rating_count s = 0 -> Salon.rating_average s = 0)
         /\ (Salon.rating_count s <> 0 -> 100 <= Salon.rating_average s <= 500).
Proof.
  intros salonId w Hrange Hbig after. subst after.
  change (snd (_updateSalonRating salonId w)) with (withSummary salonId w).
  split; [apply withSummary_reviews|].
  intros s Hs Hid. rewrite withSummary_eq in Hs. cbn [salons set_salons] in Hs.
  apply in_map_iff in Hs. destruct Hs as (s0 & Hs0 & _).
  destruct (String.eqb_spec (Salon.id s0) salonId) as [_|Hne];
    [|subst s; contradiction].
  assert (Hall : forall r, In r (visibleRatings salonId w) -> 1 <= r <= 5).
  { intros r Hr. unfold visibleRatings in Hr. apply in_map_iff in Hr.
    destruct Hr as (rev & <- & Hrev). apply filter_In in Hrev. apply Hrange, Hrev. }
  destruct (ratingSummary_range _ Hall Hbig) as (Hcount & Hnone & Hsome).
  subst s. cbn [Salon.rating_count Salon.rating_average].
  split; [exact Hcount|]. rewrite Hcount. split.
  - intros Hzero. apply Hnone.
    destruct (visibleRatings salonId w); [reflexivity | cbn [List.length] in Hzero; lia].
  - intros Hnonzero. apply Hsome. intros Hnil. rewrite Hnil in Hnonzero.
    apply Hnonzero. reflexivity.
Qed.

Lemma stored_average_is_within_the_ratings_witness :
  reviews (snd (_updateSalonRating "salon-1" reviewedWorld)) = reviews reviewedWorld
  /\ forall s, In s (salons (snd (_updateSalonRating "salon-1" reviewedWorld))) ->
       Salon.id s = "salon-1" ->
       Salon.rating_count s = Z.of_nat (List.length (visibleRatings "salon-1" reviewedWorld))
       /\ (Salon.rating_count s = 0 -> Salon.rating_average s = 0)
       /\ (Salon.rating_count s <> 0 -> 100 <= Salon.rating_average s <= 500).
Proof.
  apply (stored_average_is_within_the_ratings "salon-1" reviewedWorld).
  - intros r Hr. cbn in Hr.
    repeat (destruct Hr as [<-|Hr]; [cbn; lia|]). contradiction.
  - vm_compute. discriminate.
Defined.

(* ================================================================== *)
(** * Review eligibility agrees with review creation *)
(* ================================================================== *)

Lemma startsBefore_not_after now pastTheMinute date start :
  startsBefore now pastTheMinute date start = true -> startsAfter now date start = false.
Proof.
  unfold startsBefore, startsAfter.
  destruct (Calendar.dayNumberOf date) as [d|]; [|discriminate].
  destruct (Calendar.dayNumberOf (today now)) as [t|]; [|discriminate].
  cbv zeta. intros H. apply orb_false_iff.
  apply orb_true_iff in H. destruct H as [H|H].
  - apply Z.ltb_lt in H. split; [apply Z.ltb_ge; lia|].
    apply andb_false_iff. left. apply Z.eqb_neq. lia.
  - apply andb_true_iff in H. destruct H as [Hd H]. apply Z.eqb_eq in Hd.
    split; [apply Z.ltb_ge; lia|]. apply andb_false_iff. right. apply Z.ltb_ge.
    apply orb_true_iff in H. destruct H as [H|H].
    + apply Z.ltb_lt in H. lia.
    + apply andb_true_iff in H. destruct H as [H _]. apply Z.eqb_eq in H. lia.
Qed.

(** X26. The eligibility answer can be relied on. When
    [canReviewBooking] answers [can_review] for a booking of the
    caller, a creation request made at the same moment by the same user
    for that booking, naming the booking's salon and a rating from 1 to
    5, passes every check: it inserts the review, provided the
    generated key is new. The answer is given without writing
    anything. *)
Theorem eligible_booking_can_be_reviewed :
  forall (gen_random_uuid : nat -> string) (now : Clock) (pastTheMinute : bool)
         (user bookingId : string) (w w1 : World) (answer : ReviewEligibility)
         (booking : Booking.t) (rating : Z),
    canReviewBooking now pastTheMinute user bookingId w = (Ok answer, w1) ->
    can_review answer = true ->
    In booking (bookings w) ->
    Booking.id booking = bookingId ->
    Booking.client_id booking = user ->
    absent (Booking.salon_id booking) = false ->
    1 <= rating <= 5 ->
    nextReviewKeyIsNew gen_random_uuid w ->
    w1 = w
    /\ exists w',
         createReview gen_random_uuid now user
                      (CreateReviewBody.mk (Booking.salon_id booking) bookingId rating) w
         = (Ok (Review.mk (gen_random_uuid (generated w)) user (Booking.salon_id booking)
                          bookingId rating true), w')
         /\ reviews w' = reviews w
                         ++ [Review.mk (gen_random_uuid (generated w)) user
                                       (Booking.salon_id booking) bookingId rating true].
Proof.
  intros gen now pastTheMinute user bookingId w w1 answer booking rating
         Hanswer Hcan Hin Hid Hclient Hsalon Hrating Hkey.
  unfold canReviewBooking in Hanswer.
  repeat run_step Hanswer ltac:(discriminate Hanswer).
  unfold ret in Hanswer. injection Hanswer as <- <-. cbn [can_review] in Hcan.
  apply andb_true_iff in Hcan. destruct Hcan as [Hpast Hnone].
  rename t into found.
  assert (Hsame : booking = found).
  { apply (single_filter_only _ _ _ _ Hfound Hin).
    rewrite Hid, Hclient, !String.eqb_refl. reflexivity. }
  subst found. split; [reflexivity|].
  unfold createReview. cbn [CreateReviewBody.salon_id CreateReviewBody.booking_id
                            CreateReviewBody.rating].
  rewrite run_throwIf_false
    by (rewrite Hsalon; cbn; apply Z.eqb_neq; lia).
  rewrite run_throwIf_false
    by (apply orb_false_iff; split; [apply Z.ltb_ge | rewrite Z.gtb_ltb; apply Z.ltb_ge];
        lia).
  rewrite Hcond. cbn [negb].
  rewrite run_nested, run_read, Hfound, run_nested, run_found, run_nested.
  rewrite run_throwIf_false.
  2:{ apply orb_true_iff in Hpast. destruct Hpast as [Hbefore|Hdone].
      - rewrite (startsBefore_not_after _ _ _ _ Hbefore). reflexivity.
      - rewrite Hdone, andb_false_r. reflexivity. }
  rewrite run_nested, run_read.
  apply negb_true_iff in Hnone.
  rewrite run_nested, run_throwIf_false by exact Hnone.
  rewrite run_throwIf_false by (rewrite String.eqb_refl; reflexivity).
  unfold bind at 1, insertReview. unfold nextReviewKeyIsNew in Hkey. rewrite Hkey.
  cbn [orThrow]. rewrite run_ret, run_updateSalonRating, run_emit. unfold ret.
  eexists. split; [reflexivity|].
  change (reviews (add_event ?v ?e)) with (reviews v).
  rewrite withSummary_reviews. reflexivity.
Qed.

Lemma eligible_booking_can_be_reviewed_witness :
  reviewedWorld = reviewedWorld
  /\ exists w',
       createReview uuidOf noon "client-1" (CreateReviewBody.mk "salon-1" "b-1" 5)
                    reviewedWorld
       = (Ok (Review.mk (uuidOf (generated reviewedWorld)) "client-1" "salon-1" "b-1" 5 true),
          w')
       /\ reviews w' = reviews reviewedWorld
                       ++ [Review.mk (uuidOf (generated reviewedWorld)) "client-1" "salon-1"
                                     "b-1" 5 true].
Proof.
  apply (eligible_booking_can_be_reviewed uuidOf noon false "client-1" "b-1"
           reviewedWorld reviewedWorld
           (mkEligibility true false true "completed") completedVisit 5).
  - reflexivity.
  - reflexivity.
  - left. reflexivity.
  - reflexivity.
  - reflexivity.
  - reflexivity.
  - lia.
  - reflexivity.
Defined.

(* ================================================================== *)
(** * The recalculation script *)
(* ================================================================== *)

Lemma recalculateOne_keeps state salon :
  let state' := recalculateOne state salon in
  bookings (fst state') = bookings (fst state)
  /\ services (fst state') = services (fst state)
  /\ reviews (fst state') = reviews (fst state)
  /\ events (fst state') = events (fst state)
  /\ map Salon.id (salons (fst state')) = map Salon.id (salons (fst state))
  /\ (fst (snd state') + snd (snd state')
      = S (fst (snd state) + snd (snd state)))%nat.
Proof.
  destruct state as [w [updated unchanged]]. unfold recalculateOne. cbn [fst snd].
  destruct (ratingSummary _) as [average count].
  destruct (negb _ || negb _); cbn [fst snd bookings services reviews events salons
                                    set_salons].
  - split; [reflexivity|]. split; [reflexivity|]. split; [reflexivity|].
    split; [reflexivity|]. split; [|lia].
    rewrite map_map. apply map_ext. intros s.
    destruct (String.eqb (Salon.id s) (Salon.id salon)); reflexivity.
  - split; [reflexivity|]. split; [reflexivity|]. split; [reflexivity|].
    split; [reflexivity|]. split; [reflexivity | lia].
Qed.

(** Rows that do not yet carry their summary are rows still to be
    visited, as they were read. *)
Lemma recalculateOne_progress w0 state salon rest :
  reviews (fst state) = reviews w0 ->
  (forall s, In s (salons (fst state)) -> summaryIsCurrent w0 s \/ In s (salon :: rest)) ->
  forall s, In s (salons (fst (recalculateOne state salon))) ->
            summaryIsCurrent w0 s \/ In s rest.
Proof.
  destruct state as [w [updated unchanged]]. cbn [fst]. intros Hrev Hinv s.
  unfold recalculateOne. cbn [fst snd].
  assert (Hsummary : ratingSummary (visibleRatings (Salon.id salon) w)
                     = ratingSummary (visibleRatings (Salon.id salon) w0))
    by (unfold visibleRatings; rewrite Hrev; reflexivity).
  rewrite Hsummary.
  destruct (ratingSummary (visibleRatings (Salon.id salon) w0)) as [average count] eqn:Hsum.
  destruct (negb (Salon.rating_average salon =? average)
            || negb (Salon.rating_count salon =? count)) eqn:Hdiff;
    cbn [fst salons set_salons]; intros Hs.
  - apply in_map_iff in Hs. destruct Hs as (s0 & <- & Hs0).
    destruct (String.eqb_spec (Salon.id s0) (Salon.id salon)) as [Hid|Hid].
    + left. unfold summaryIsCurrent. cbn [Salon.rating_average Salon.rating_count Salon.id].
      rewrite Hid, Hsum. reflexivity.
    + destruct (Hinv s0 Hs0) as [Hcur|[Heq|Hrest]];
        [left; exact Hcur | subst s0; contradiction | right; exact Hrest].
  - destruct (Hinv s Hs) as [Hcur|[Heq|Hrest]];
      [left; exact Hcur | | right; exact Hrest].
    subst s. left. unfold summaryIsCurrent. rewrite Hsum.
    apply orb_false_iff in Hdiff. destruct Hdiff as [Ha Hc].
    apply negb_false_iff, Z.eqb_eq in Ha. apply negb_false_iff, Z.eqb_eq in Hc.
    rewrite Ha, Hc. reflexivity.
Qed.

Lemma recalculate_fold w0 (rest : list Salon.t) :
  forall state,
    reviews (fst state) = reviews w0 ->
    (forall s, In s (salons (fst state)) -> summaryIsCurrent w0 s \/ In s rest) ->
    let final := fold_left recalculateOne rest state in
    reviews (fst final) = reviews w0
    /\ bookings (fst final) = bookings (fst state)
    /\ services (fst final) = services (fst state)
    /\ events (fst final) = events (fst state)
    /\ map Salon.id (salons (fst final)) = map Salon.id (salons (fst state))
    /\ (fst (snd final) + snd (snd final)
        = List.length rest + (fst (snd state) + snd (snd state)))%nat
    /\ forall s, In s (salons (fst final)) -> summaryIsCurrent w0 s.
Proof.
  induction rest as [|salon rest IH]; intros state Hrev Hinv; cbn [fold_left].
  - repeat split; try reflexivity; try assumption.
    intros s Hs. destruct (Hinv s Hs) as [H|[]]. exact H.
  - destruct (recalculateOne_keeps state salon) as (Hb & Hsv & Hr & He & Hid & Hn).
    cbv zeta in *.
    destruct (IH (recalculateOne state salon)
                 ltac:(rewrite Hr; exact Hrev)
                 (recalculateOne_progress w0 state salon rest Hrev Hinv))
      as (Hr' & Hb' & Hsv' & He' & Hid' & Hn' & Hcur).
    split; [exact Hr'|]. split; [rewrite Hb'; exact Hb|].
    split; [rewrite Hsv'; exact Hsv|]. split; [rewrite He'; exact He|].
    split; [rewrite Hid'; exact Hid|]. split; [|exact Hcur].
    rewrite Hn', Hn. cbn [List.length]. lia.
Qed.

(** X27. The recalculation script leaves every salon with the summary
    of its visible reviews: afterwards each salon row carries as count
    the number of visible reviews of its salon and as average their
    rounded mean (0 and 0 without reviews), also when several rows
    share a key. It writes only rating summaries: reviews, bookings,
    services, the event log and the keys of the salons are as before,
    and the two numbers it reports add up to the number of salons. *)
Theorem recalculation_brings_every_summary_up_to_date :
  forall (w : World),
    let after := fst (recalculateSalonRatings w) in
    let updated := fst (snd (recalculateSalonRatings w)) in
    let unchanged := snd (snd (recalculateSalonRatings w)) in
    (forall salonId, summaryStored salonId after)
    /\ reviews after = reviews w
    /\ bookings after = bookings w
    /\ services after = services w
    /\ events after = events w
    /\ map Salon.id (salons after) = map Salon.id (salons w)
    /\ (updated + unchanged = List.length (salons w))%nat.
Proof.
  intros w. cbv zeta. unfold recalculateSalonRatings.
  destruct (recalculate_fold w (salons w) (w, (O, O)) eq_refl
              (fun s Hs => or_intror Hs))
    as (Hr & Hb & Hsv & He & Hid & Hn & Hcur).
  cbv zeta in *. cbn [fst snd] in *.
  split; [|split; [exact Hr|]; split; [exact Hb|]; split; [exact Hsv|];
           split; [exact He|]; split; [exact Hid|]; rewrite Hn; lia].
  intros salonId s Hs Hsid.
  pose proof (Hcur s Hs) as Hone. unfold summaryIsCurrent in Hone.
  rewrite Hsid in Hone. rewrite Hone. unfold visibleRatings. rewrite Hr. reflexivity.
Qed.

Lemma recalculate_nothing_to_do w0 (rest : list Salon.t) :
  forall updated unchanged,
    (forall s, In s rest -> summaryIsCurrent w0 s) ->
    fold_left recalculateOne rest (w0, (updated, unchanged))
    = (w0, (updated, (List.length rest + unchanged)%nat)).
Proof.
  induction rest as [|salon rest IH]; intros updated unchanged Hcur; [reflexivity|].
  cbn [fold_left]. unfold recalculateOne at 2. cbn [fst snd].
  pose proof (Hcur salon (or_introl eq_refl)) as Hone. unfold summaryIsCurrent in Hone.
  destruct (ratingSummary (visibleRatings (Salon.id salon) w0)) as [average count].
  injection Hone as -> ->. rewrite !Z.eqb_refl. cbn [negb orb].
  rewrite IH by (intros s Hs; apply Hcur; right; exact Hs).
  cbn [List.length]. f_equal. f_equal. lia.
Qed.

(** X28. On tables in which every salon row already carries the
    summary of its visible reviews the recalculation script writes
    nothing and reports every salon as unchanged. In particular a
    second run straight after a first one changes nothing. *)
Theorem recalculation_of_current_summaries_is_a_no_op :
  forall (w : World),
    (forall s, In s (salons w) -> summaryIsCurrent w s) ->
    recalculateSalonRatings w = (w, (O, List.length (salons w)))
    /\ recalculateSalonRatings (fst (recalculateSalonRatings w))
       = (fst (recalculateSalonRatings w), (O, List.length (salons w))).
Proof.
  intros w Hcur.
  assert (Hrun : recalculateSalonRatings w = (w, (O, List.length (salons w)))).
  { unfold recalculateSalonRatings. rewrite recalculate_nothing_to_do by exact Hcur.
    rewrite Nat.add_0_r. reflexivity. }
  split; [exact Hrun|]. rewrite Hrun. cbn [fst]. exact Hrun.
Qed.

Lemma recalculation_of_current_summaries_is_a_no_op_witness :
  recalculateSalonRatings (fst (recalculateSalonRatings reviewedWorld))
  = (fst (recalculateSalonRatings reviewedWorld),
     (O, List.length (salons (fst (recalculateSalonRatings reviewedWorld)))))
  /\ recalculateSalonRatings
       (fst (recalculateSalonRatings (fst (recalculateSalonRatings reviewedWorld))))
     = (fst (recalculateSalonRatings (fst (recalculateSalonRatings reviewedWorld))),
        (O, List.length (salons (fst (recalculateSalonRatings reviewedWorld))))).
Proof.
  apply (recalculation_of_current_summaries_is_a_no_op
           (fst (recalculateSalonRatings reviewedWorld))).
  intros s [<-|[]]. vm_compute. reflexivity.
Defined.

(* ================================================================== *)
(** * Booking statistics *)
(* ================================================================== *)

Lemma rows_by_placement (p : Booking.t -> bool) bookingId status before after :
  (forall b b', placement b' = placement b -> p b' = p b) ->
  Forall2 (restatused bookingId status) before after ->
  List.length (filter p after) = List.length (filter p before).
Proof.
  intros Hp. induction 1 as [|b b' rows rows' Hb _ IH]; [reflexivity|].
  assert (Hplace : placement b' = placement b)
    by (destruct Hb as [->|(_ & H & _)]; [reflexivity | exact H]).
  cbn [filter]. rewrite (Hp b b' Hplace).
  destruct (p b); cbn [List.length]; rewrite IH; reflexivity.
Qed.

Lemma count_by_placement (p q : Booking.t -> bool) bookingId status before after :
  (forall b b', placement b' = placement b -> p b' = p b) ->
  (forall b b', placement b' = placement b -> q b' = q b) ->
  Forall2 (restatused bookingId status) before after ->
  List.length (filter q (filter p after)) = List.length (filter q (filter p before)).
Proof.
  intros Hp Hq. induction 1 as [|b b' rows rows' Hb _ IH]; [reflexivity|].
  assert (Hplace : placement b' = placement b)
    by (destruct Hb as [->|(_ & H & _)]; [reflexivity | exact H]).
  cbn [filter]. rewrite (Hp b b' Hplace). destruct (p b); [|exact IH].
  cbn [filter]. rewrite (Hq b b' Hplace). destruct (q b); cbn [List.length]; rewrite IH;
    reflexivity.
Qed.

Lemma completed_after_cancel (p : Booking.t -> bool) bookingId before after :
  (forall b b', placement b' = placement b -> p b' = p b) ->
  Forall2 (restatused bookingId "cancelled") before after ->
  (List.length (filter (fun b => String.eqb (Booking.status b) "completed")
                       (filter p after))
   <= List.length (filter (fun b => String.eqb (Booking.status b) "completed")
                          (filter p before)))%nat.
Proof.
  intros Hp. induction 1 as [|b b' rows rows' Hb _ IH]; [apply Nat.le_refl|].
  assert (Hplace : placement b' = placement b)
    by (destruct Hb as [->|(_ & H & _)]; [reflexivity | exact H]).
  cbn [filter]. rewrite (Hp b b' Hplace). destruct (p b); [|exact IH].
  cbn [filter]. destruct Hb as [->|(_ & _ & Hstatus)].
  - destruct (String.eqb (Booking.status b) "completed"); cbn [List.length]; lia.
  - rewrite Hstatus. cbn [String.eqb Ascii.eqb Bool.eqb].
    destruct (String.eqb (Booking.status b) "completed"); cbn [List.length]; lia.
Qed.

(** X29. The booking statistics count bookings whatever their status.
    Upcoming and completed bookings are each at most the total. A
    status update or an owner cancel, however it ends, changes neither
    the total nor the number of upcoming bookings of any user: a
    cancelled booking on or after today is still counted as upcoming.
    An owner cancel never raises the number of completed bookings. *)
Theorem statistics_count_cancelled_bookings :
  forall (dateNotBefore : string -> string -> bool)
         (processWaitlistForCancelledBooking : string -> string -> string -> Z -> Settled)
         (todayUtc user actor bookingId status staff_notes cancellation_reason : string)
         (w : World),
    let stats := fun v => fst (getBookingStats dateNotBefore todayUtc user v) in
    let afterUpdate :=
      snd (updateBookingStatus processWaitlistForCancelledBooking actor bookingId status
                               staff_notes cancellation_reason w) in
    let afterCancel := snd (cancelBookingAsSalonOwner actor bookingId cancellation_reason w) in
    match stats w, stats afterUpdate, stats afterCancel with
    | Ok (total, upcoming, completed), Ok (total1, upcoming1, _),
      Ok (total2, upcoming2, completed2) =>
        (upcoming <= total)%nat /\ (completed <= total)%nat
        /\ total1 = total /\ upcoming1 = upcoming
        /\ total2 = total /\ upcoming2 = upcoming /\ (completed2 <= completed)%nat
    | _, _, _ => False
    end.
Proof.
  intros dateNotBefore pw todayUtc user actor bookingId status notes reason w. cbv zeta.
  destruct (updateBookingStatus pw actor bookingId status notes reason w) as [r1 w1] eqn:H1.
  destruct (cancelBookingAsSalonOwner actor bookingId reason w) as [r2 w2] eqn:H2.
  apply updateBookingStatus_frame in H1. destruct H1 as (_ & _ & Hb1).
  apply cancelBookingAsSalonOwner_frame in H2. destruct H2 as (_ & _ & Hb2).
  unfold getBookingStats, read. cbn [fst snd].
  assert (Hmine : forall b b', placement b' = placement b ->
                    String.eqb (Booking.client_id b') user
                    = String.eqb (Booking.client_id b) user)
    by (intros b b' H; injection H as _ -> _ _ _ _ _ _; reflexivity).
  assert (Hdate : forall b b', placement b' = placement b ->
                    dateNotBefore (Booking.appointment_date b') todayUtc
                    = dateNotBefore (Booking.appointment_date b) todayUtc)
    by (intros b b' H; injection H as _ _ _ _ _ -> _ _; reflexivity).
  split; [apply filter_length_le|]. split; [apply filter_length_le|].
  split; [exact (rows_by_placement _ _ _ _ _ Hmine Hb1)|].
  split; [exact (count_by_placement _ _ _ _ _ _ Hmine Hdate Hb1)|].
  split; [exact (rows_by_placement _ _ _ _ _ Hmine Hb2)|].
  split; [exact (count_by_placement _ _ _ _ _ _ Hmine Hdate Hb2)|].
  exact (completed_after_cancel _ _ _ _ Hmine Hb2).
Qed.

(* ================================================================== *)
(** * From the listing to the creation *)
(* ================================================================== *)






